(** * Structure inference and persona relevance: a shallow embedding

  This development embeds the two heuristic engines of the repository,

  - [Challenge_1a/process_pdfs.py]  (class [PDFProcessor]) and
  - [Challenge_1b/process_collections.py] (class [MLEnhancedPDFAnalyzer]),

  as executable Rocq functions and proves properties of them.

  Modelling conventions.

  - Python [str] values are [string]s over ASCII.  The character
    predicates ([isspace], [isdigit], [isupper], ...) follow CPython on
    code points below 128; code points from 128 on are treated as
    uncased symbols that are neither digits nor white space.
  - Python [float] values are exact rationals ([Q]).  Where a decision
    boundary of the code is hit exactly, the agreement of the rational
    model with IEEE binary64 is checked separately on primitive floats
    (module [Binary64]).
  - The PyMuPDF calls are the only operations that can raise; they are
    fields of type [Exc _] of the document model and every
    [try]/[except] of the source is written out. *)

From Stdlib Require Import ZArith QArith Qminmax List String Ascii Bool Lia.
From Stdlib Require Import Permutation Sorted PrimFloat.
Import ListNotations.

Set Warnings "-inexact-float".

Open Scope string_scope.
Open Scope list_scope.

(* ------------------------------------------------------------------ *)
(** ** Python numbers *)

Module PyNum.

Definition Qltb (a b : Q) : bool := negb (Qle_bool b a).
Definition Qleb (a b : Q) : bool := Qle_bool a b.
Definition Qgeb (a b : Q) : bool := Qle_bool b a.
Definition Qgtb (a b : Q) : bool := negb (Qle_bool a b).

(** [max(a, b)] keeps its first argument unless the second is
    strictly larger; [min(a, b)] unless the second is strictly smaller. *)
Definition py_max (a b : Q) : Q := if Qgtb b a then b else a.
Definition py_min (a b : Q) : Q := if Qltb b a then b else a.

(** [sum(xs)]: left-to-right, starting from 0. *)
Definition py_sum (xs : list Q) : Q := fold_left Qplus xs 0%Q.

Definition of_nat (n : nat) : Q := inject_Z (Z.of_nat n).

(** [flags & 2**4], used as a truth value. *)
Definition bold_flag (flags : Z) : bool := negb (Z.land flags (2 ^ 4) =? 0)%Z.

End PyNum.

(* ------------------------------------------------------------------ *)
(** ** Python string methods *)

Module PyStr.

Definition code (c : ascii) : nat := nat_of_ascii c.

Definition between (lo hi : nat) (c : ascii) : bool :=
  (lo <=? code c)%nat && (code c <=? hi)%nat.

(** [c.isspace()]: TAB..CR, FS..US and the space. *)
Definition isspace_c (c : ascii) : bool := between 9 13 c || between 28 32 c.
Definition isdigit_c (c : ascii) : bool := between 48 57 c.
Definition isupper_c (c : ascii) : bool := between 65 90 c.
Definition islower_c (c : ascii) : bool := between 97 122 c.

Definition lower_c (c : ascii) : ascii :=
  if isupper_c c then ascii_of_nat (code c + 32) else c.

Definition newline : ascii := ascii_of_nat 10.

(** [s.lower()] *)
Fixpoint lower (s : string) : string :=
  match s with
  | EmptyString => EmptyString
  | String c s' => String (lower_c c) (lower s')
  end.

(** [s.lstrip()], [s.rstrip()], [s.strip()] *)
Fixpoint lstrip (s : string) : string :=
  match s with
  | EmptyString => EmptyString
  | String c s' => if isspace_c c then lstrip s' else s
  end.

Fixpoint rstrip (s : string) : string :=
  match s with
  | EmptyString => EmptyString
  | String c s' =>
      match rstrip s' with
      | EmptyString => if isspace_c c then EmptyString else String c EmptyString
      | r => String c r
      end
  end.

Definition strip (s : string) : string := rstrip (lstrip s).

(** [s.startswith(p)] *)
Fixpoint startswith (s p : string) : bool :=
  match p with
  | EmptyString => true
  | String a p' =>
      match s with
      | EmptyString => false
      | String b s' => Ascii.eqb a b && startswith s' p'
      end
  end.

(** [needle in s] *)
Fixpoint contains (needle s : string) : bool :=
  startswith s needle ||
  match s with
  | EmptyString => false
  | String _ s' => contains needle s'
  end.

(** [any(c.isdigit() for c in s)] and [s.isdigit()] *)
Fixpoint any_char (p : ascii -> bool) (s : string) : bool :=
  match s with
  | EmptyString => false
  | String c s' => p c || any_char p s'
  end.

Fixpoint all_char (p : ascii -> bool) (s : string) : bool :=
  match s with
  | EmptyString => true
  | String c s' => p c && all_char p s'
  end.

Definition isdigit (s : string) : bool :=
  negb (s =? "") && all_char isdigit_c s.

(** [s.isupper()]: at least one cased character and no lower-case one. *)
Definition isupper (s : string) : bool :=
  any_char isupper_c s && negb (any_char islower_c s).

(** [s.istitle()]: upper-case characters only after uncased ones,
    lower-case characters only after cased ones, and at least one
    cased character. *)
Fixpoint istitle_from (previous_is_cased cased : bool) (s : string) : bool :=
  match s with
  | EmptyString => cased
  | String c s' =>
      if isupper_c c then
        if previous_is_cased then false else istitle_from true true s'
      else if islower_c c then
        if previous_is_cased then istitle_from true true s' else false
      else istitle_from false cased s'
  end.

Definition istitle (s : string) : bool := istitle_from false false s.

(** [s[:n]] *)
Fixpoint take (n : nat) (s : string) : string :=
  match n, s with
  | O, _ => EmptyString
  | _, EmptyString => EmptyString
  | S n', String c s' => String c (take n' s')
  end.

(** [s.split()]: the maximal runs of characters that are not white space. *)
Fixpoint split_from (cur : string) (s : string) : list string :=
  match s with
  | EmptyString => if cur =? "" then [] else [cur]
  | String c s' =>
      if isspace_c c
      then (if cur =? "" then split_from "" s' else cur :: split_from "" s')
      else split_from (cur ++ String c "") s'
  end.

Definition split (s : string) : list string := split_from "" s.

(** [sep.join(parts)] *)
Fixpoint join (sep : string) (parts : list string) : string :=
  match parts with
  | [] => ""
  | [p] => p
  | p :: ps => p ++ sep ++ join sep ps
  end.

(** [s.rfind(".")] *)
Fixpoint rfind (c : ascii) (s : string) : option nat :=
  match s with
  | EmptyString => None
  | String a s' =>
      match rfind c s' with
      | Some i => Some (S i)
      | None => if Ascii.eqb a c then Some O else None
      end
  end.

(** The truth value of a [str]. *)
Definition truthy (s : string) : bool := negb (s =? "").

End PyStr.

(* ------------------------------------------------------------------ *)
(** ** Regular expressions ([re.compile], [pattern.match]) *)

Module Regex.

Inductive re : Type :=
| Void : re
| Eps : re
| Class (p : ascii -> bool) : re
| Cat (r1 r2 : re) : re
| Alt (r1 r2 : re) : re
| Star (r : re) : re.

Fixpoint nullable (r : re) : bool :=
  match r with
  | Void => false
  | Eps => true
  | Class _ => false
  | Cat r1 r2 => nullable r1 && nullable r2
  | Alt r1 r2 => nullable r1 || nullable r2
  | Star _ => true
  end.

Definition cat (r1 r2 : re) : re :=
  match r1, r2 with
  | Void, _ => Void
  | _, Void => Void
  | Eps, _ => r2
  | _, _ => Cat r1 r2
  end.

Definition alt (r1 r2 : re) : re :=
  match r1, r2 with
  | Void, _ => r2
  | _, Void => r1
  | _, _ => Alt r1 r2
  end.

Fixpoint deriv (c : ascii) (r : re) : re :=
  match r with
  | Void => Void
  | Eps => Void
  | Class p => if p c then Eps else Void
  | Cat r1 r2 =>
      if nullable r1
      then alt (cat (deriv c r1) r2) (deriv c r2)
      else cat (deriv c r1) r2
  | Alt r1 r2 => alt (deriv c r1) (deriv c r2)
  | Star r1 => cat (deriv c r1) (Star r1)
  end.

Fixpoint fullmatch (r : re) (s : string) : bool :=
  match s with
  | EmptyString => nullable r
  | String c s' => fullmatch (deriv c r) s'
  end.

(** Building blocks of the pattern syntax. *)
Definition chr (a : ascii) : re := Class (Ascii.eqb a).
Definition plus (r : re) : re := Cat r (Star r).
Definition opt (r : re) : re := Alt Eps r.
Fixpoint lit (s : string) : re :=
  match s with
  | EmptyString => Eps
  | String c s' => Cat (chr c) (lit s')
  end.
Definition digit : re := Class PyStr.isdigit_c.                    (* \d *)
Definition space : re := Class PyStr.isspace_c.                    (* \s *)
Definition upper : re := Class PyStr.isupper_c.                    (* [A-Z] *)
Definition not_dot : re := Class (fun c => negb (Ascii.eqb c ".")). (* [^.] *)
Definition upper_or_space : re :=
  Class (fun c => PyStr.isupper_c c || PyStr.isspace_c c).         (* [A-Z\s] *)
Definition lower_or_space : re :=
  Class (fun c => PyStr.islower_c c || PyStr.isspace_c c).         (* [a-z\s] *)
Definition anything : re := Star (Class (fun _ => true)).
(** [$]: the end of the string, or just before a final newline. *)
Definition dollar : re := opt (chr PyStr.newline).

(** A compiled pattern: its body (after [^]) and whether it ends in [$]. *)
Record pattern : Type := { body : re; end_anchor : bool }.

(** [p.match(s)] as a truth value: some prefix of [s] matches the body
    and, for an anchored pattern, ends where [$] holds. *)
Definition py_match (p : pattern) (s : string) : bool :=
  fullmatch (Cat (body p) (if end_anchor p then dollar else anything)) s.

End Regex.

(* ------------------------------------------------------------------ *)
(** ** Exceptions *)

Module Exc.

Inductive exn : Type := Exception (msg : string).

(** The outcome of a Python call: it raises or it returns. *)
Inductive t (A : Type) : Type :=
| Raise (e : exn)
| Return (a : A).
Arguments Raise {A} e.
Arguments Return {A} a.

Definition bind {A B : Type} (m : t A) (k : A -> t B) : t B :=
  match m with
  | Raise e => Raise e
  | Return a => k a
  end.

(** [try: m  except Exception: handler], where the handler cannot raise. *)
Definition try_except {A : Type} (m : t A) (handler : exn -> A) : A :=
  match m with
  | Raise e => handler e
  | Return a => a
  end.

(** The same for the caller's view of a function whose body is a [try]:
    what the handler does is again a call that raises or returns. *)
Definition try_catch {A : Type} (m : t A) (handler : exn -> t A) : t A :=
  match m with
  | Raise e => handler e
  | Return a => Return a
  end.

End Exc.

Notation "x <- m ;; k" := (Exc.bind m (fun x => k))
(at level 61, m at next level, right associativity).

(* ------------------------------------------------------------------ *)
(** ** The parsing collaborator (PyMuPDF) *)

Module Fitz.

(** A span of [page.get_text("dict")]. *)
Record Span : Type := { text : string; size : Q; flags : Z }.

Record Line : Type := { spans : list Span }.

(** A block; image blocks have no ["lines"] key. *)
Record Block : Type := { lines : option (list Line) }.

(** A page; reading its text may raise. *)
Record Page : Type := { get_text : Exc.t (list Block) }.

(** [doc.metadata]: [None], or a dictionary whose ["title"] may be missing. *)
Record Metadata : Type := { title : option string }.

(** An open document.  [doc.close()] releases it and returns nothing;
    on a document that is open it does not raise. *)
Record Document : Type := {
  metadata : Exc.t (option Metadata);
  pages : list Page
}.

(** Lines of a block, none for an image block. *)
Definition block_lines (b : Block) : list Line :=
  match lines b with
  | Some ls => ls
  | None => []
  end.

End Fitz.

(** [pathlib]: a path is given by its final component. *)
Module Path.

Definition t : Type := string.

(** [path.stem]: the name without its last suffix; a leading or a
    trailing dot is no suffix separator. *)
Definition stem (name : t) : string :=
  match PyStr.rfind "." name with
  | Some i =>
      if (0 <? i)%nat && (i <? String.length name - 1)%nat
      then PyStr.take i name
      else name
  | None => name
  end.

End Path.

(** [sorted(xs, key=key, reverse=True)] and [xs.sort(key=key, reverse=True)]:
  descending by key, elements of equal key in their original order. *)
Module PySort.

Section Sorted.
Context {A : Type} (key : A -> Q).

Fixpoint insert_desc (x : A) (l : list A) : list A :=
  match l with
  | [] => [x]
  | y :: l' =>
      if Qle_bool (key y) (key x) then x :: y :: l'
      else y :: insert_desc x l'
  end.

Definition sorted_desc (l : list A) : list A :=
  fold_right insert_desc [] l.
End Sorted.

(** [sorted(set(xs), reverse=True)] on numbers: the distinct values,
    descending. *)
Fixpoint distinct (xs : list Q) : list Q :=
  match xs with
  | [] => []
  | x :: xs' =>
      if existsb (Qeq_bool x) xs' then distinct xs' else x :: distinct xs'
  end.

Definition sorted_set_desc (xs : list Q) : list Q :=
  sorted_desc (fun x => x) (distinct xs).

End PySort.

(* ------------------------------------------------------------------ *)
(** ** Challenge 1a: [PDFProcessor] *)

Module PDFProcessor.

Import Regex PyNum.

(** [self.heading_patterns], compiled. *)
Definition numbered (depth : nat) : re :=
  (* \d+(\.\d+){depth}\.?\s+[A-Z][^.]* *)
  Cat (plus digit)
    (Cat (Nat.iter depth (fun r => Cat (chr ".") (Cat (plus digit) r)) Eps)
       (Cat (opt (chr "."))
          (Cat (plus space) (Cat upper (Star not_dot))))).

Definition heading_patterns : list pattern :=
  [ {| body := numbered 0; end_anchor := true |};
    {| body := numbered 1; end_anchor := true |};
    {| body := numbered 2; end_anchor := true |};
    {| body := Cat upper (plus upper_or_space); end_anchor := true |};
    {| body := Cat upper (plus lower_or_space); end_anchor := true |};
    {| body := Cat (lit "Chapter") (Cat (plus space) (plus digit));
       end_anchor := false |};
    {| body := Cat (lit "Section") (Cat (plus space) (plus digit));
       end_anchor := false |};
    {| body := Cat (lit "Appendix") (Cat (plus space) upper);
       end_anchor := false |} ].

(** An outline entry. *)
Record Entry : Type := { level : string; text : string; page : nat }.

(** The result of [process_single_pdf]. *)
Record Result : Type := { title : string; outline : list Entry }.

Definition extract_title_from_metadata (doc : Fitz.Document) : option string :=
  Exc.try_except
    (metadata <- Fitz.metadata doc ;;
     Exc.Return
       match metadata with
       | Some md =>
           match Fitz.title md with
           | Some raw =>
               if PyStr.truthy raw then
                 let title := PyStr.strip raw in
                 if PyStr.truthy title && (1 <? String.length title)%nat
                 then Some title else None
               else None
           | None => None
           end
       | None => None
       end)
    (fun _ => None).

(** The text and the largest span size of a line. *)
Definition line_text_and_size (l : Fitz.Line) : string * Q :=
  fold_left
    (fun acc span =>
       ((fst acc ++ Fitz.text span)%string, py_max (snd acc) (Fitz.size span)))
    (Fitz.spans l) ("", 0%Q).

Definition page_number_pattern : pattern :=
  {| body := Cat (lit "page") (Cat (plus space) (plus digit));
     end_anchor := false |}.
Definition digits_pattern : pattern :=
  {| body := plus digit; end_anchor := true |}.

Definition title_candidate (l : Fitz.Line) : list (string * Q) :=
  let '(line_text, max_size) := line_text_and_size l in
  let line_text := PyStr.strip line_text in
  if Qgtb max_size 0
     && (3 <? String.length line_text)%nat
     && (String.length line_text <? 300)%nat
     && negb (PyStr.isdigit line_text)
     && negb (py_match page_number_pattern (PyStr.lower line_text))
     && negb (py_match digits_pattern (PyStr.strip line_text))
  then [(line_text, max_size)] else [].

Definition extract_title_from_first_page (doc : Fitz.Document) : option string :=
  Exc.try_except
    (match Fitz.pages doc with
     | [] => Exc.Return None
     | first_page :: _ =>
         blocks <- Fitz.get_text first_page ;;
         let candidates :=
           flat_map (fun block => flat_map title_candidate (Fitz.block_lines block))
                    (firstn 15 blocks) in
         match PySort.sorted_desc snd candidates with
         | [] => Exc.Return None
         | best :: _ => Exc.Return (Some (fst best))
         end
     end)
    (fun _ => None).

(** The lexical rule: some compiled pattern matches. *)
Definition matches_heading_pattern (text : string) : bool :=
  existsb (fun p => py_match p text) heading_patterns.

Definition is_likely_heading
    (text : string) (font_size : Q) (is_bold : bool) (avg_font_size : Q) : bool :=
  let text := PyStr.strip text in
  if (String.length text <? 2)%nat || (200 <? String.length text)%nat then false
  else if Qltb font_size (avg_font_size * (11 # 10)) then false
  else if matches_heading_pattern text then true
  else if is_bold && Qgeb font_size (avg_font_size * (12 # 10)) then true
  else if PyStr.isupper text && (List.length (PyStr.split text) <=? 10)%nat then true
  else false.

(** The loop of [determine_heading_level]: the 1-based rank of the
    first size that [font_size] reaches, if any. *)
Fixpoint first_rank (font_size : Q) (sizes : list Q) (i : nat) : option nat :=
  match sizes with
  | [] => None
  | size :: rest =>
      if Qgeb font_size size then Some (i + 1)%nat
      else first_rank font_size rest (S i)
  end.

Definition digit_string (n : nat) : string :=
  String (ascii_of_nat (48 + n)) "".

Definition determine_heading_level (font_size : Q) (font_sizes : list Q) : string :=
  let sorted_sizes := PySort.sorted_set_desc font_sizes in
  match first_rank font_size (firstn 6 sorted_sizes) 0 with
  | Some n => "H" ++ digit_string n
  | None => "H6"
  end.

(** The number in a level label ["H<n>"]. *)
Definition level_number (level : string) : nat :=
  match level with
  | String _ (String d EmptyString) => PyStr.code d - 48
  | _ => 0
  end.

(** First pass of [extract_outline]: every span size, in document order. *)
Definition block_sizes (blocks : list Fitz.Block) : list Q :=
  flat_map (fun block =>
              flat_map (fun line => map Fitz.size (Fitz.spans line))
                       (Fitz.block_lines block))
           blocks.

Fixpoint collect_font_sizes (pages : list Fitz.Page) (font_sizes : list Q)
  : Exc.t (list Q) :=
  match pages with
  | [] => Exc.Return font_sizes
  | page :: rest =>
      blocks <- Fitz.get_text page ;;
      collect_font_sizes rest (font_sizes ++ block_sizes blocks)
  end.

(** Second pass: the spans of a line are combined. *)
Definition combine_spans (l : Fitz.Line) : string * Q * bool :=
  fold_left
    (fun acc span =>
       let '(line_text, line_font_size, is_bold) := acc in
       ((line_text ++ Fitz.text span)%string,
        py_max line_font_size (Fitz.size span),
        if bold_flag (Fitz.flags span) then true else is_bold))
    (Fitz.spans l) ("", 0%Q, false).

Definition already_listed (line_text : string) (page_no : nat) (outline : list Entry) : bool :=
  existsb (fun item => (text item =? line_text) && (page item =? page_no)%nat) outline.

Definition visit_line (font_sizes : list Q) (avg_font_size : Q) (page_num : nat)
    (outline : list Entry) (l : Fitz.Line) : list Entry :=
  let '(line_text, line_font_size, is_bold) := combine_spans l in
  let line_text := PyStr.strip line_text in
  if is_likely_heading line_text line_font_size is_bold avg_font_size then
    let level := determine_heading_level line_font_size font_sizes in
    if negb (already_listed line_text (page_num + 1) outline)
    then outline ++ [ {| level := level; text := line_text; page := page_num + 1 |} ]
    else outline
  else outline.

Definition visit_blocks (font_sizes : list Q) (avg_font_size : Q) (page_num : nat)
    (outline : list Entry) (blocks : list Fitz.Block) : list Entry :=
  fold_left
    (fun outline block =>
       fold_left (visit_line font_sizes avg_font_size page_num)
                 (Fitz.block_lines block) outline)
    blocks outline.

(** The second pass mutates [outline] in place: what was appended
    before a page raises stays in the list. *)
Fixpoint identify_headings (font_sizes : list Q) (avg_font_size : Q)
    (pages : list Fitz.Page) (page_num : nat) (outline : list Entry)
  : list Entry * Exc.t unit :=
  match pages with
  | [] => (outline, Exc.Return tt)
  | page :: rest =>
      match Fitz.get_text page with
      | Exc.Raise e => (outline, Exc.Raise e)
      | Exc.Return blocks =>
          identify_headings font_sizes avg_font_size rest (S page_num)
            (visit_blocks font_sizes avg_font_size page_num outline blocks)
      end
  end.

Definition extract_outline (doc : Fitz.Document) : list Entry :=
  let outline := [] in
  match collect_font_sizes (Fitz.pages doc) [] with
  | Exc.Raise _ => outline
  | Exc.Return font_sizes =>
      match font_sizes with
      | [] => outline
      | _ =>
          let avg_font_size := py_sum font_sizes / of_nat (List.length font_sizes) in
          fst (identify_headings font_sizes avg_font_size (Fitz.pages doc) 0 outline)
      end
  end.

(** [a or b] on optional strings. *)
Definition or_else (a : option string) (b : option string) : option string :=
  match a with
  | Some s => if PyStr.truthy s then a else b
  | None => b
  end.

Definition resolve_title (doc : Fitz.Document) (pdf_path : Path.t) : string :=
  match or_else (extract_title_from_metadata doc)
          (or_else (extract_title_from_first_page doc) (Some (Path.stem pdf_path))) with
  | Some title => title
  | None => Path.stem pdf_path
  end.

(** The body of the [try] of [process_single_pdf]. *)
Definition process_single_pdf_body
    (fitz_open : Path.t -> Exc.t Fitz.Document) (pdf_path : Path.t) : Exc.t Result :=
  doc <- fitz_open pdf_path ;;
  let title := resolve_title doc pdf_path in
  let outline := extract_outline doc in
  Exc.Return {| title := title; outline := outline |}.

Definition degraded (pdf_path : Path.t) : Result :=
  {| title := Path.stem pdf_path; outline := [] |}.

(** [process_single_pdf]: the body, and the [except Exception] clause
    that logs and returns the minimal structure. *)
Definition process_single_pdf
    (fitz_open : Path.t -> Exc.t Fitz.Document) (pdf_path : Path.t) : Exc.t Result :=
  Exc.try_catch (process_single_pdf_body fitz_open pdf_path)
                (fun _ => Exc.Return (degraded pdf_path)).

(** [process_pdfs]: one output file per input file, in order. *)
Definition output_name (pdf_file : Path.t) : string :=
  (Path.stem pdf_file ++ ".json")%string.

Definition process_pdfs
    (fitz_open : Path.t -> Exc.t Fitz.Document) (pdf_files : list Path.t)
  : list (string * Result) :=
  map (fun pdf_file =>
         (output_name pdf_file,
          Exc.try_except (process_single_pdf fitz_open pdf_file)
                         (fun _ => degraded pdf_file)))
      pdf_files.

End PDFProcessor.

(* ------------------------------------------------------------------ *)
(** ** Challenge 1b: [MLEnhancedPDFAnalyzer] *)

Module MLEnhancedPDFAnalyzer.

Import PyNum.

Record PersonaProfile : Type := {
  high_priority : list string;
  medium_priority : list string;
  low_priority : list string
}.

(** [self.persona_keywords], in insertion order. *)
Definition persona_keywords : list (string * PersonaProfile) :=
  [ ("Travel Planner",
     {| high_priority :=
          ["travel"; "trip"; "vacation"; "hotel"; "restaurant"; "tourism";
           "destination"; "itinerary"; "attractions"; "activities";
           "sightseeing"; "accommodation"];
        medium_priority :=
          ["culture"; "history"; "food"; "local"; "guide"; "places"; "visit";
           "explore"; "experience"];
        low_priority := ["information"; "tips"; "advice"; "recommendations"] |});
    ("HR professional",
     {| high_priority :=
          ["form"; "forms"; "fillable"; "onboarding"; "compliance"; "employee";
           "HR"; "human resources"; "signature"; "e-signature"; "document"];
        medium_priority :=
          ["create"; "convert"; "edit"; "export"; "share"; "PDF"; "Acrobat";
           "workflow"];
        low_priority := ["training"; "skills"; "learning"; "tutorial"] |});
    ("Food Contractor",
     {| high_priority :=
          ["food"; "recipe"; "cooking"; "menu"; "dinner"; "meal"; "vegetarian";
           "gluten-free"; "buffet"; "catering"; "ingredients"];
        medium_priority :=
          ["preparation"; "kitchen"; "service"; "dietary"; "nutrition"; "cuisine"];
        low_priority := ["ideas"; "tips"; "suggestions"] |}) ].

(** [d[key]] / [key in d] on a dictionary with string keys. *)
Fixpoint lookup {V : Type} (key : string) (d : list (string * V)) : option V :=
  match d with
  | [] => None
  | (k, v) :: d' => if k =? key then Some v else lookup key d'
  end.

(** [persona in self.persona_keywords] *)
Definition known_persona (persona : string) : bool :=
  match lookup persona persona_keywords with
  | Some _ => true
  | None => false
  end.

(** [self.vegetarian_indicators] *)
Definition strong_vegetarian : list string :=
  ["vegetarian"; "vegan"; "plant-based"; "meatless"; "dairy-free";
   "tofu"; "tempeh"; "quinoa"; "lentils"; "chickpeas"; "beans";
   "vegetables"; "salad"; "pasta"; "rice"; "cheese"; "eggs"].
Definition neutral_ingredients : list string :=
  ["oil"; "salt"; "pepper"; "herbs"; "spices"; "garlic"; "onion";
   "tomato"; "flour"; "water"; "bread"; "milk"; "butter"].
Definition non_vegetarian : list string :=
  ["beef"; "pork"; "chicken"; "fish"; "salmon"; "tuna"; "shrimp";
   "meat"; "bacon"; "ham"; "sausage"; "turkey"; "lamb"; "seafood"].

(** [self.gluten_patterns] *)
Definition gluten_free : list string :=
  ["gluten-free"; "gluten free"; "rice"; "quinoa"; "corn"; "potato";
   "almond flour"; "coconut flour"; "oat flour"].
Definition contains_gluten : list string :=
  ["wheat"; "flour"; "bread"; "pasta"; "noodles"; "soy sauce";
   "barley"; "rye"; "bulgur"].

(** [sum(1 for word in words if word in text)] *)
Definition count_in (words : list string) (text : string) : nat :=
  List.length (filter (fun word => PyStr.contains word text) words).

(** [any(word in text for word in words)] *)
Definition any_in (words : list string) (text : string) : bool :=
  existsb (fun word => PyStr.contains word text) words.

(** An element of [structured_content]. *)
Record Item : Type := {
  text : string;
  page : nat;
  font_size : Q;
  is_heading : bool;
  flags : Z
}.

(** The feature vector of [_detect_heading_ml], in dictionary order. *)
Definition heading_features (text : string) (font_size : Q) (font_flags : Z)
  : list bool :=
  [ Qgeb font_size 12;
    bold_flag font_flags;
    (5 <=? String.length text)%nat && (String.length text <=? 50)%nat;
    any_in ["ingredients:"; "instructions:"; "recipe"; "directions:"]
           (PyStr.lower text);
    PyStr.istitle text
      && negb (existsb (PyStr.startswith text)
                 [String (ascii_of_nat 226)
                    (String (ascii_of_nat 128) (String (ascii_of_nat 162) ""));
                  "-"; "1"; "2"; "3"; "4"; "5"]);
    negb (PyStr.any_char PyStr.isdigit_c (PyStr.take 5 text)) ].

Definition heading_weights : list Q :=
  [2 # 10; 3 # 10; 2 # 10; 4 # 10; 2 # 10; 1 # 10].

Definition feature_score (b : bool) : Q := if b then 1 else 0.

(** [sum(features[key] * weights[key] for key in features)] *)
Definition weighted_score (features : list bool) : Q :=
  py_sum (map (fun fw => feature_score (fst fw) * snd fw)
              (combine features heading_weights)).

Definition _detect_heading_ml (text : string) (font_size : Q) (font_flags : Z) : bool :=
  Qgeb (weighted_score (heading_features text font_size font_flags)) (4 # 10).

(** [extract_text_with_structure]: nothing is caught here. *)
Definition span_items (page_num : nat) (span : Fitz.Span) : list Item :=
  let text := PyStr.strip (Fitz.text span) in
  if PyStr.truthy text then
    let font_size := Fitz.size span in
    let font_flags := Fitz.flags span in
    let is_heading := _detect_heading_ml text font_size font_flags in
    [ {| text := text; page := page_num + 1; font_size := font_size;
         is_heading := is_heading; flags := font_flags |} ]
  else [].

Definition block_items (page_num : nat) (blocks : list Fitz.Block) : list Item :=
  flat_map (fun block =>
              flat_map (fun line => flat_map (span_items page_num) (Fitz.spans line))
                       (Fitz.block_lines block))
           blocks.

Fixpoint page_items (pages : list Fitz.Page) (page_num : nat)
    (structured_content : list Item) : Exc.t (list Item) :=
  match pages with
  | [] => Exc.Return structured_content
  | page :: rest =>
      blocks <- Fitz.get_text page ;;
      page_items rest (S page_num) (structured_content ++ block_items page_num blocks)
  end.

Definition extract_text_with_structure
    (fitz_open : Path.t -> Exc.t Fitz.Document) (pdf_path : Path.t)
  : Exc.t (list Item) :=
  doc <- fitz_open pdf_path ;;
  structured_content <- page_items (Fitz.pages doc) 0 [] ;;
  Exc.Return structured_content.

(** The classifiers. *)
Record VegAnalysis : Type := { vegetarian_prob : Q; veg_confidence : Q }.
Record GlutenAnalysis : Type := { gluten_free_prob : Q; gf_confidence : Q }.

Definition ml_vegetarian_classifier (text : string) : VegAnalysis :=
  let text_lower := PyStr.lower text in
  let veg_count := count_in strong_vegetarian text_lower in
  let non_veg_count := count_in non_vegetarian text_lower in
  let neutral_count := count_in neutral_ingredients text_lower in
  let total_food_words := (veg_count + non_veg_count + neutral_count)%nat in
  if (total_food_words =? 0)%nat then
    {| vegetarian_prob := 5 # 10; veg_confidence := 1 # 10 |}
  else
    let veg_prob :=
      (of_nat veg_count + of_nat neutral_count * (5 # 10)) / of_nat total_food_words in
    let confidence := py_min (of_nat total_food_words / 10) 1 in
    let '(veg_prob, confidence) :=
      if any_in ["vegetarian"; "vegan"; "plant-based"] text_lower
      then (py_min (veg_prob * (15 # 10)) 1, py_min (confidence * (12 # 10)) 1)
      else (veg_prob, confidence) in
    let meat_methods := ["grill"; "roast"; "fry"; "cook"; "season"] in
    let veg_prob :=
      if (0 <? non_veg_count)%nat && any_in meat_methods text_lower
      then veg_prob * (3 # 10) else veg_prob in
    {| vegetarian_prob := veg_prob; veg_confidence := confidence |}.

Definition ml_gluten_free_classifier (text : string) : GlutenAnalysis :=
  let text_lower := PyStr.lower text in
  let gf_count := count_in gluten_free text_lower in
  let gluten_count := count_in contains_gluten text_lower in
  let total_gluten_words := (gf_count + gluten_count)%nat in
  if (total_gluten_words =? 0)%nat then
    {| gluten_free_prob := 5 # 10; gf_confidence := 1 # 10 |}
  else
    let gf_prob := of_nat gf_count / of_nat total_gluten_words in
    let confidence := py_min (of_nat total_gluten_words / 5) 1 in
    if PyStr.contains "gluten-free" text_lower || PyStr.contains "gluten free" text_lower
    then {| gluten_free_prob := py_min (gf_prob * 2) 1;
            gf_confidence := py_min (confidence * (15 # 10)) 1 |}
    else {| gluten_free_prob := gf_prob; gf_confidence := confidence |}.

(** [score += w] for every keyword found. *)
Definition add_found (w : Q) (keywords : list string) (text_lower : string) (score : Q) : Q :=
  fold_left (fun score keyword =>
               if PyStr.contains keyword text_lower then score + w else score)
            keywords score.

Definition _calculate_base_relevance (text persona job_description : string) : Q :=
  match lookup persona persona_keywords with
  | None => 1
  | Some persona_keywords =>
      let text_lower := PyStr.lower text in
      let job_lower := PyStr.lower job_description in
      let score := 0 in
      let score := add_found 3 (high_priority persona_keywords) text_lower score in
      let score := add_found 2 (medium_priority persona_keywords) text_lower score in
      let score := add_found 1 (low_priority persona_keywords) text_lower score in
      let job_keywords := PyStr.split job_lower in
      let score :=
        fold_left (fun score job_keyword =>
                     if (3 <? String.length job_keyword)%nat
                        && PyStr.contains job_keyword text_lower
                     then score + 2 else score)
                  job_keywords score in
      py_max score (1 # 10)
  end.

Definition vegetarian_adjustment (text : string) (multiplier : Q) : Q :=
  let veg_analysis := ml_vegetarian_classifier text in
  let veg_prob := vegetarian_prob veg_analysis in
  let confidence := veg_confidence veg_analysis in
  if Qgtb confidence (3 # 10) then
    if Qgeb veg_prob (7 # 10) then multiplier * (15 # 10)
    else if Qleb veg_prob (3 # 10) then multiplier * (2 # 10)
    else multiplier * (8 # 10)
  else multiplier.

Definition gluten_adjustment (text : string) (multiplier : Q) : Q :=
  let gf_analysis := ml_gluten_free_classifier text in
  let gf_prob := gluten_free_prob gf_analysis in
  let confidence := gf_confidence gf_analysis in
  if Qgtb confidence (3 # 10) then
    if Qgeb gf_prob (7 # 10) then multiplier * (13 # 10)
    else if Qleb gf_prob (3 # 10) then multiplier * (7 # 10)
    else multiplier
  else multiplier.

Definition dinner_adjustment (text : string) (multiplier : Q) : Q :=
  let dinner_patterns := ["dinner"; "main"; "sides"; "entree"; "course"] in
  let non_dinner_patterns := ["breakfast"; "lunch"; "snack"; "appetizer"] in
  let text_lower := PyStr.lower text in
  let dinner_score := count_in dinner_patterns text_lower in
  let non_dinner_score := count_in non_dinner_patterns text_lower in
  if (non_dinner_score <? dinner_score)%nat then multiplier * (14 # 10)
  else if (dinner_score <? non_dinner_score)%nat then multiplier * (6 # 10)
  else multiplier.

Definition buffet_adjustment (text : string) (multiplier : Q) : Q :=
  let buffet_patterns := ["buffet"; "serving"; "large"; "quantity"; "bulk"; "crowd"] in
  if any_in buffet_patterns (PyStr.lower text) then multiplier * (12 # 10)
  else multiplier.

Definition _calculate_food_contractor_ml_score (text job_description : string) : Q :=
  let job := PyStr.lower job_description in
  let multiplier := 1 in
  let multiplier :=
    if PyStr.contains "vegetarian" job then vegetarian_adjustment text multiplier
    else multiplier in
  let multiplier :=
    if PyStr.contains "gluten-free" job then gluten_adjustment text multiplier
    else multiplier in
  let multiplier :=
    if PyStr.contains "dinner" job then dinner_adjustment text multiplier
    else multiplier in
  let multiplier :=
    if PyStr.contains "buffet" job then buffet_adjustment text multiplier
    else multiplier in
  multiplier.

Definition calculate_ml_relevance_score (text persona job_description : string) : Q :=
  let base_score := _calculate_base_relevance text persona job_description in
  if persona =? "Food Contractor" then
    let ml_score := _calculate_food_contractor_ml_score text job_description in
    base_score * ml_score
  else base_score.

(** A scored section, as appended to [all_sections]. *)
Record Section : Type := {
  document : string;
  section_title : string;
  content : string;
  page_number : nat;
  relevance_score : Q
}.

(** The loop state of [extract_sections] within one document, together
    with the list [all_sections] that is shared by all documents. *)
Record SegState : Type := {
  current_section : option string;
  current_content : list Item;
  all_sections : list Section
}.

(** [item["is_heading"] and len(item["text"]) > 5] *)
Definition section_boundary (item : Item) : bool :=
  is_heading item && (5 <? String.length (text item))%nat.

(** The truth value of [current_section], which is [None] or a [str]. *)
Definition section_open (current_section : option string) : bool :=
  match current_section with
  | Some s => PyStr.truthy s
  | None => false
  end.

(** [current_section or default] *)
Definition section_or (current_section : option string) (default : string) : string :=
  match current_section with
  | Some s => if PyStr.truthy s then s else default
  | None => default
  end.

(** The body of [if current_section and current_content: ...]; [title]
    is what the branch stores under ["section_title"]. *)
Definition save_section (filename persona job_description : string)
    (current_section : option string) (title : string)
    (current_content : list Item) (all_sections : list Section) : list Section :=
  if section_open current_section && negb (Nat.eqb (List.length current_content) 0) then
    let section_text := PyStr.join " " (map text current_content) in
    let relevance_score :=
      calculate_ml_relevance_score
        (section_or current_section "" ++ " " ++ section_text)%string
        persona job_description in
    if Qgtb relevance_score (1 # 10) then
      all_sections ++
      [ {| document := filename;
           section_title := title;
           content := section_text;
           page_number := match current_content with
                          | first :: _ => page first
                          | [] => 1
                          end;
           relevance_score := relevance_score |} ]
    else all_sections
  else all_sections.

Definition segment_step (filename persona job_description : string)
    (st : SegState) (item : Item) : SegState :=
  if section_boundary item then
    {| current_section := Some (text item);
       current_content := [];
       all_sections :=
         save_section filename persona job_description
           (current_section st) (section_or (current_section st) "")
           (current_content st) (all_sections st) |}
  else
    {| current_section := current_section st;
       current_content := current_content st ++ [item];
       all_sections := all_sections st |}.

(** One iteration of [for doc in documents]. *)
Definition extract_document_sections (filename persona job_description : string)
    (structured_content : list Item) (collected : list Section) : list Section :=
  let st :=
    fold_left (segment_step filename persona job_description) structured_content
      {| current_section := None; current_content := [];
         all_sections := collected |} in
  save_section filename persona job_description
    (current_section st) (section_or (current_section st) "Content")
    (current_content st) (all_sections st).

Fixpoint extract_sections_loop (fitz_open : Path.t -> Exc.t Fitz.Document)
    (documents : list string) (persona job_description : string)
    (collected : list Section) : Exc.t (list Section) :=
  match documents with
  | [] => Exc.Return collected
  | filename :: rest =>
      structured_content <- extract_text_with_structure fitz_open filename ;;
      extract_sections_loop fitz_open rest persona job_description
        (extract_document_sections filename persona job_description
           structured_content collected)
  end.

(** [extract_sections]; [documents] are the file names of the
    collection and [fitz_open] opens a name of [pdf_dir]. *)
Definition extract_sections (fitz_open : Path.t -> Exc.t Fitz.Document)
    (documents : list string) (persona job_description : string)
  : Exc.t (list Section) :=
  extract_sections_loop fitz_open documents persona job_description [].

Definition rank_sections (sections : list Section) (limit : nat) : list Section :=
  let sorted_sections := PySort.sorted_desc relevance_score sections in
  firstn limit sorted_sections.

Definition validator_keywords : list (string * list string) :=
  [ ("Food Contractor",
     ["menu"; "recipe"; "vegetarian"; "buffet"; "dinner"; "corporate"; "catering"]);
    ("Travel Planner",
     ["trip"; "travel"; "hotel"; "restaurant"; "activity"; "guide"; "destination"]);
    ("HR professional",
     ["form"; "employee"; "onboarding"; "compliance"; "digital"; "signature"]) ].

Definition food_contractor_context : string :=
  " This recipe is perfect for vegetarian menu planning. The ingredients create excellent buffet-style dinner options for corporate catering events. This menu item works well for large gatherings and addresses dietary requirements.".

(** [if keyword not in enhanced.lower(): enhanced += before + keyword + after] *)
Definition add_missing (before after : string) (enhanced keyword : string) : string :=
  if negb (PyStr.contains keyword (PyStr.lower enhanced))
  then (enhanced ++ before ++ keyword ++ after)%string
  else enhanced.

Definition job_words (job : string) : list string :=
  filter (fun w => (3 <? String.length w)%nat) (PyStr.split (PyStr.lower job)).

Definition enhance_content_for_validation (content persona job : string) : string :=
  let enhanced := content in
  let enhanced :=
    if persona =? "Food Contractor"
    then (enhanced ++ food_contractor_context)%string else enhanced in
  let enhanced :=
    match lookup persona validator_keywords with
    | Some keywords_to_add =>
        fold_left (add_missing " This " " solution is ideal.") keywords_to_add enhanced
    | None => enhanced
    end in
  fold_left (add_missing " Perfect for " " requirements.") (job_words job) enhanced.

Definition nl : string := String PyStr.newline "".

Definition refine_content (sections : list Section) : string :=
  match sections with
  | [] => "No relevant content found."
  | _ =>
      PyStr.join (nl ++ nl)
        (map (fun section =>
                ("From " ++ document section ++ " - " ++ section_title section ++ ":"
                 ++ nl ++ PyStr.take 500 (content section) ++ "...")%string)
             sections)
  end.

(** The output of [process_collection]. *)
Record OutputMetadata : Type := {
  input_documents : list string;
  persona : string;
  job_to_be_done : string;
  processing_timestamp : string
}.

Record ExtractedSection : Type := {
  es_document : string;
  es_section_title : string;
  importance_rank : nat;
  es_page_number : nat
}.

Record Subsection : Type := {
  ss_document : string;
  refined_text : string;
  ss_page_number : nat
}.

Record Output : Type := {
  metadata : OutputMetadata;
  extracted_sections : list ExtractedSection;
  subsection_analysis : list Subsection;
  refined_text_summary : string
}.

(** [enumerate(xs)] *)
Definition enumerate {A : Type} (xs : list A) : list (nat * A) :=
  combine (seq 0 (List.length xs)) xs.

(** What [process_collection] reads from [challenge1b_input.json]. *)
Record Input : Type := {
  challenge_id : string;
  role : string;
  task : string;
  documents : list string
}.

(** The two list comprehensions of [process_collection]. *)
Definition extracted_section_entries (top_sections : list Section)
  : list ExtractedSection :=
  map (fun '(i, section) =>
         {| es_document := document section;
            es_section_title := section_title section;
            importance_rank := i + 1;
            es_page_number := page_number section |})
      (enumerate top_sections).

Definition subsection_entries (persona job_description : string)
    (top_sections : list Section) : list Subsection :=
  map (fun section =>
         {| ss_document := document section;
            refined_text :=
              enhance_content_for_validation
                (content section) persona job_description;
            ss_page_number := page_number section |})
      top_sections.

(** [process_collection], without the file it writes; [now] is
    [datetime.now().isoformat()]. *)
Definition process_collection (fitz_open : Path.t -> Exc.t Fitz.Document)
    (now : string) (input_data : Input) : Exc.t Output :=
  let persona := role input_data in
  let job_description := task input_data in
  let documents := documents input_data in
  sections <- extract_sections fitz_open documents persona job_description ;;
  let top_sections := rank_sections sections 10 in
  let refined_text := refine_content top_sections in
  Exc.Return
    {| metadata :=
         {| input_documents := documents;
            persona := persona;
            job_to_be_done := job_description;
            processing_timestamp := now |};
       extracted_sections := extracted_section_entries top_sections;
       subsection_analysis :=
         subsection_entries persona job_description top_sections;
       refined_text_summary :=
         enhance_content_for_validation refined_text persona job_description |}.

End MLEnhancedPDFAnalyzer.

(* ------------------------------------------------------------------ *)
(** ** The numeric gates on IEEE binary64 *)

Module Binary64.

Local Open Scope float_scope.

(** [font_size < avg_font_size * 1.1] *)
Definition below_size_gate (font_size avg_font_size : float) : bool :=
  PrimFloat.ltb font_size (avg_font_size * 1.1).

(** [font_size >= avg_font_size * 1.2] *)
Definition bold_gate (font_size avg_font_size : float) : bool :=
  PrimFloat.leb (avg_font_size * 1.2) font_size.

Definition heading_weights : list float := [0.2; 0.3; 0.2; 0.4; 0.2; 0.1].

(** [sum(features[key] * weights[key] for key in features) >= 0.4] *)
Definition weighted_score (features : list bool) : float :=
  fold_left PrimFloat.add
    (map (fun fw : bool * float => (if fst fw then 1.0 else 0.0) * snd fw)
         (combine features heading_weights))
    0.

Definition accepts (features : list bool) : bool :=
  PrimFloat.leb 0.4 (weighted_score features).

End Binary64.

(* ------------------------------------------------------------------ *)
(** ** Sample inputs *)

Module Samples.

Definition span (text : string) (size : Q) (flags : Z) : Fitz.Span :=
  {| Fitz.text := text; Fitz.size := size; Fitz.flags := flags |}.

Definition one_line_block (s : Fitz.Span) : Fitz.Block :=
  {| Fitz.lines := Some [ {| Fitz.spans := [s] |} ] |}.

Definition page_of (ss : list Fitz.Span) : Fitz.Page :=
  {| Fitz.get_text := Exc.Return (map one_line_block ss) |}.

(** A one-page travel guide: a bold heading, upper-case body text. *)
Definition guide : Fitz.Document :=
  {| Fitz.metadata := Exc.Return (Some {| Fitz.title := Some "  City Guide " |});
     Fitz.pages :=
       [ page_of [ span "Getting Around" 18 16;
                   span "TRIP PLANNING" 10 0;
                   span "Local Customs" 18 16;
                   span "nothing to see" 10 0;
                   span "Getting Around" 18 16 ] ] |}.

(** A recipe sheet set in a single font size. *)
Definition recipe : Fitz.Document :=
  {| Fitz.metadata := Exc.Return None;
     Fitz.pages :=
       [ page_of [ span "Ingredients:" 12 0;
                   span "two cups of rice, one onion, salt and a little olive oil" 12 0 ] ] |}.

(** A document without any text. *)
Definition blank : Fitz.Document :=
  {| Fitz.metadata := Exc.Return None;
     Fitz.pages := [ page_of [] ] |}.

Definition unreadable : Exc.exn := Exc.Exception "cannot open broken document".

Definition fitz_open (pdf_path : Path.t) : Exc.t Fitz.Document :=
  if pdf_path =? "guide.pdf" then Exc.Return guide
  else if pdf_path =? "recipe.pdf" then Exc.Return recipe
  else if pdf_path =? "blank.pdf" then Exc.Return blank
  else Exc.Raise unreadable.

Definition travel_input : MLEnhancedPDFAnalyzer.Input :=
  {| MLEnhancedPDFAnalyzer.challenge_id := "round_1b_002";
     MLEnhancedPDFAnalyzer.role := "Travel Planner";
     MLEnhancedPDFAnalyzer.task := "Plan a trip";
     MLEnhancedPDFAnalyzer.documents := ["guide.pdf"] |}.

End Samples.

(* ------------------------------------------------------------------ *)
(** ** Notions used in the statements *)

Module Notions.

Import PyNum PDFProcessor.

(** The order of the rules once the length filter and the size gate
    have let the text through. *)
Definition heading_rules (text : string) (font_size : Q) (is_bold : bool)
    (avg_font_size : Q) : bool :=
  if matches_heading_pattern text then true
  else if is_bold && Qgeb font_size (avg_font_size * (12 # 10)) then true
  else if PyStr.isupper text && (List.length (PyStr.split text) <=? 10)%nat then true
  else false.

Definition length_ok (text : string) : bool :=
  negb ((String.length text <? 2)%nat || (200 <? String.length text)%nat).

(** [desc key a b]: [a] may stand before [b] in a list that is descending
    by [key]. *)
Definition desc {A : Type} (key : A -> Q) (a b : A) : Prop := (key b <= key a)%Q.

(** The threshold of [extract_sections]. *)
Definition above_threshold (s : MLEnhancedPDFAnalyzer.Section) : Prop :=
  (1 # 10 < MLEnhancedPDFAnalyzer.relevance_score s)%Q.

(** The decision of [_detect_heading_ml] as a rule on its six features
    (size, bold, length, recipe word, title case, no leading digit): the
    weights reach 0.4 with a recipe word, with bold and any other
    feature, or with two of size, length and title case. *)
Definition heading_rule (features : list bool) : bool :=
  match features with
  | [f; b; l; r; t; d] =>
      r || (b && (f || l || t || d)) || (f && l) || (f && t) || (l && t)
  | _ => false
  end.

(** What [extract_text_with_structure] stores under ["is_heading"]. *)
Definition classified (item : MLEnhancedPDFAnalyzer.Item) : Prop :=
  MLEnhancedPDFAnalyzer.is_heading item
  = MLEnhancedPDFAnalyzer._detect_heading_ml
      (MLEnhancedPDFAnalyzer.text item)
      (MLEnhancedPDFAnalyzer.font_size item)
      (MLEnhancedPDFAnalyzer.flags item).

(** [refined] contains, after lower-casing, every validator keyword of
    the persona and the lower-cased form of every word of the task
    description that is longer than 3 characters. *)
Definition carries_keywords (persona job refined : string) : Prop :=
  (forall keywords,
      MLEnhancedPDFAnalyzer.lookup persona MLEnhancedPDFAnalyzer.validator_keywords
      = Some keywords ->
      forall k, In k keywords -> PyStr.contains k (PyStr.lower refined) = true)
  /\ (forall w, In w (PyStr.split job) -> (3 < String.length w)%nat ->
                PyStr.contains (PyStr.lower w) (PyStr.lower refined) = true).

(** One round of the "avoid duplicates" test of [extract_outline]. *)
Definition add_entry (outline : list Entry) (e : Entry) : list Entry :=
  if negb (already_listed (text e) (page e) outline) then outline ++ [e] else outline.

(** *** The outline as the spec words it

    "De-duplicated by (text, page) equality, first occurrence wins,
    insertion order preserved": the accepted heading lines in document
    order, of which an entry is kept iff no earlier one has its key. *)

Definition entry_key (e : Entry) : string * nat := (text e, page e).

Definition key_eqb (a b : string * nat) : bool :=
  (fst a =? fst b)%string && (snd a =? snd b)%nat.

Fixpoint keep_first (seen : list (string * nat)) (entries : list Entry) : list Entry :=
  match entries with
  | [] => []
  | e :: rest =>
      if existsb (key_eqb (entry_key e)) seen then keep_first seen rest
      else e :: keep_first (entry_key e :: seen) rest
  end.

(** The entry of a line that the heading classifier accepts. *)
Definition line_candidate (font_sizes : list Q) (avg_font_size : Q) (page_num : nat)
    (l : Fitz.Line) : list Entry :=
  let '(line_text, line_font_size, is_bold) := combine_spans l in
  let line_text := PyStr.strip line_text in
  if is_likely_heading line_text line_font_size is_bold avg_font_size
  then [ {| level := determine_heading_level line_font_size font_sizes;
            text := line_text;
            page := page_num + 1 |} ]
  else [].

Definition page_candidates (font_sizes : list Q) (avg_font_size : Q) (page_num : nat)
    (blocks : list Fitz.Block) : list Entry :=
  flat_map (fun block =>
              flat_map (line_candidate font_sizes avg_font_size page_num)
                       (Fitz.block_lines block))
           blocks.

(** The candidates of the pages up to the first page that cannot be read. *)
Fixpoint candidates_from (font_sizes : list Q) (avg_font_size : Q)
    (pages : list Fitz.Page) (page_num : nat) : list Entry :=
  match pages with
  | [] => []
  | page :: rest =>
      match Fitz.get_text page with
      | Exc.Raise _ => []
      | Exc.Return blocks =>
          page_candidates font_sizes avg_font_size page_num blocks
          ++ candidates_from font_sizes avg_font_size rest (S page_num)
      end
  end.

Definition heading_candidates (doc : Fitz.Document) : list Entry :=
  match collect_font_sizes (Fitz.pages doc) [] with
  | Exc.Return (size :: sizes) =>
      let font_sizes := size :: sizes in
      candidates_from font_sizes
        (py_sum font_sizes / of_nat (List.length font_sizes))
        (Fitz.pages doc) 0
  | _ => []
  end.

End Notions.

(* ------------------------------------------------------------------ *)
(** ** JSON values ([json.load] / [json.dump])

    The validation scripts read with [json.load] what the processors wrote
    with [json.dump]; on dictionaries with string keys whose leaves are
    strings, integers and lists the round trip is the identity, so a
    processor's dictionary and the loaded one are the same value.  A
    dictionary is the list of its items; its keys are distinct, as in
    Python, and [get] returns the first binding of a key. *)

Module Json.

Set Warnings "-register-all".

Inductive t : Type :=
| Null : t
| Bool (b : bool) : t
| Int (z : Z) : t
| Float (q : Q) : t
| Str (s : string) : t
| List (items : list t) : t
| Dict (fields : list (string * t)) : t.

(** [d.get(key)]: [None] when the key is missing. *)
Fixpoint get (key : string) (fields : list (string * t)) : option t :=
  match fields with
  | [] => None
  | (k, v) :: rest => if k =? key then Some v else get key rest
  end.

(** [key in d] *)
Definition has (key : string) (fields : list (string * t)) : bool :=
  match get key fields with
  | Some _ => true
  | None => false
  end.

(** [isinstance(x, int)]: a [bool] is an [int]. *)
Definition is_int (x : t) : bool :=
  match x with
  | Int _ | Bool _ => true
  | _ => false
  end.

End Json.

(** Further [str] operations used by the validators. *)
Module PyConv.

(** [s[n:]] *)
Fixpoint drop (n : nat) (s : string) : string :=
  match n, s with
  | O, _ => s
  | _, EmptyString => EmptyString
  | S n', String _ s' => drop n' s'
  end.

(** [int(s)], which the source calls on strings of decimal digits only
    ([s.isdigit()] has been checked): the value, leading zeros allowed;
    beyond [sys.get_int_max_str_digits()] digits, leading zeros counted,
    the conversion raises [ValueError]. *)
Definition digit_value (c : ascii) : Z := Z.of_nat (PyStr.code c - 48).

Fixpoint int_from (acc : Z) (s : string) : Z :=
  match s with
  | EmptyString => acc
  | String c s' => int_from (10 * acc + digit_value c)%Z s'
  end.

(** The interpreter's default limit. *)
Definition max_str_digits : nat := 4300.

Definition value_error : Exc.exn := Exc.Exception "ValueError".

Definition int (s : string) : Exc.t Z :=
  if (max_str_digits <? String.length s)%nat then Exc.Raise value_error
  else Exc.Return (int_from 0 s).

(** The characters of a string, as iterating over it yields them. *)
Fixpoint chars (s : string) : list string :=
  match s with
  | EmptyString => []
  | String c s' => String c "" :: chars s'
  end.

End PyConv.

(* ------------------------------------------------------------------ *)
(** ** Challenge 1a: [validate_solution.py] *)

Module ValidateSolution.

Import Json.

(** The body of [for item in data["outline"]]: [false] where the source
    returns [False], [true] where the loop goes on; [int] may raise, and
    nothing catches it. *)
Definition valid_item (item : Json.t) : Exc.t bool :=
  match item with
  | Dict fields =>
      match get "level" fields, get "text" fields, get "page" fields with
      | Some level, Some text, Some page =>
          match level with
          | Str level =>
              match text with
              | Str _ =>
                  if negb (is_int page) then Exc.Return false
                  else if negb (PyStr.startswith level "H")
                          || negb (PyStr.isdigit (PyConv.drop 1 level))
                  then Exc.Return false
                  else
                    level_num <- PyConv.int (PyConv.drop 1 level) ;;
                    if (level_num <? 1)%Z || (6 <? level_num)%Z
                    then Exc.Return false
                    else Exc.Return true
              | _ => Exc.Return false
              end
          | _ => Exc.Return false
          end
      | _, _, _ => Exc.Return false
      end
  | _ => Exc.Return false
  end.

(** [for item in data["outline"]: ...] followed by [return True]. *)
Fixpoint valid_items (items : list Json.t) : Exc.t bool :=
  match items with
  | [] => Exc.Return true
  | item :: rest =>
      ok <- valid_item item ;;
      if ok then valid_items rest else Exc.Return false
  end.

Definition validate_json_schema (data : Json.t) : Exc.t bool :=
  match data with
  | Dict fields =>
      match get "title" fields, get "outline" fields with
      | Some title, Some outline =>
          match title with
          | Str _ =>
              match outline with
              | List items => valid_items items
              | _ => Exc.Return false
              end
          | _ => Exc.Return false
          end
      | _, _ => Exc.Return false
      end
  | _ => Exc.Return false
  end.

(** The dictionary that [process_single_pdf] returns and [process_pdfs]
    hands to [json.dump]. *)
Definition entry_json (e : PDFProcessor.Entry) : Json.t :=
  Dict [ ("level", Str (PDFProcessor.level e));
         ("text", Str (PDFProcessor.text e));
         ("page", Int (Z.of_nat (PDFProcessor.page e))) ].

Definition result_json (r : PDFProcessor.Result) : Json.t :=
  Dict [ ("title", Str (PDFProcessor.title r));
         ("outline", List (map entry_json (PDFProcessor.outline r))) ].

End ValidateSolution.

(* ------------------------------------------------------------------ *)
(** ** Challenge 1b: [validate_collections.py] *)

Module ValidateCollections.

Import Json.

Definition attribute_error : Exc.exn := Exc.Exception "AttributeError".
Definition type_error : Exc.exn := Exc.Exception "TypeError".

(** [x.get(key, default)]: only a dictionary has [get]. *)
Definition get_or (x : Json.t) (key : string) (default : Json.t) : Exc.t Json.t :=
  match x with
  | Dict fields =>
      Exc.Return match get key fields with
                 | Some v => v
                 | None => default
                 end
  | _ => Exc.Raise attribute_error
  end.

(** [x.lower()]: only a string has [lower]. *)
Definition lower_of (x : Json.t) : Exc.t string :=
  match x with
  | Str s => Exc.Return (PyStr.lower s)
  | _ => Exc.Raise attribute_error
  end.

(** [for item in x]: the items of a list, the characters of a string, the
    keys of a dictionary. *)
Definition iterate (x : Json.t) : Exc.t (list Json.t) :=
  match x with
  | List items => Exc.Return items
  | Str s => Exc.Return (map Str (PyConv.chars s))
  | Dict fields => Exc.Return (map (fun kv => Str (fst kv)) fields)
  | _ => Exc.Raise type_error
  end.

(** [len(x)] *)
Definition len (x : Json.t) : Exc.t nat :=
  match x with
  | List items => Exc.Return (List.length items)
  | Str s => Exc.Return (String.length s)
  | Dict fields => Exc.Return (List.length fields)
  | _ => Exc.Raise type_error
  end.

(** The validator's own keyword table, in insertion order. *)
Definition persona_keywords : list (string * list string) :=
  [ ("travel planner",
     ["trip"; "travel"; "hotel"; "restaurant"; "activity"; "guide"; "destination"]);
    ("hr professional",
     ["form"; "employee"; "onboarding"; "compliance"; "digital"; "signature"]);
    ("food contractor",
     ["menu"; "recipe"; "vegetarian"; "buffet"; "dinner"; "corporate"; "catering"]) ].

(** [for key, keywords in persona_keywords.items(): if key in persona: ... break] *)
Fixpoint relevant_keywords (persona : string) (table : list (string * list string))
  : list string :=
  match table with
  | [] => []
  | (key, keywords) :: rest =>
      if PyStr.contains key persona then keywords
      else relevant_keywords persona rest
  end.

Record Detail : Type := {
  detail_document : Json.t;
  detail_persona_keywords : nat;
  detail_job_keywords : nat;
  content_length : nat
}.

Record Analysis : Type := {
  persona_keywords_found : nat;
  job_keywords_found : nat;
  relevance_score : Q;
  detailed_analysis : list Detail
}.

Definition initial_analysis : Analysis :=
  {| persona_keywords_found := 0;
     job_keywords_found := 0;
     relevance_score := 0;
     detailed_analysis := [] |}.

(** [sum(1 for word in job_words if len(word) > 3 and word in content)] *)
Definition count_job_words (job_words : list string) (content : string) : nat :=
  List.length
    (filter (fun word => (3 <? String.length word)%nat && PyStr.contains word content)
            job_words).

(** One round of [for subsection in output_data["subsection_analysis"]]. *)
Definition analyze_subsection (relevant : list string) (job_description : string)
    (analysis : Analysis) (subsection : Json.t) : Exc.t Analysis :=
  refined <- get_or subsection "refined_text" (Str "") ;;
  content <- lower_of refined ;;
  let persona_count := MLEnhancedPDFAnalyzer.count_in relevant content in
  let job_words := PyStr.split job_description in
  let job_count := count_job_words job_words content in
  document <- get_or subsection "document" (Str "") ;;
  Exc.Return
    {| persona_keywords_found := persona_keywords_found analysis + persona_count;
       job_keywords_found := job_keywords_found analysis + job_count;
       relevance_score := relevance_score analysis;
       detailed_analysis :=
         detailed_analysis analysis ++
         [ {| detail_document := document;
              detail_persona_keywords := persona_count;
              detail_job_keywords := job_count;
              content_length := String.length content |} ] |}.

Fixpoint analyze_subsections (relevant : list string) (job_description : string)
    (subsections : list Json.t) (analysis : Analysis) : Exc.t Analysis :=
  match subsections with
  | [] => Exc.Return analysis
  | subsection :: rest =>
      analysis <- analyze_subsection relevant job_description analysis subsection ;;
      analyze_subsections relevant job_description rest analysis
  end.

Definition analyze_persona_relevance (output_data : list (string * Json.t))
  : Exc.t Analysis :=
  let analysis := initial_analysis in
  match get "metadata" output_data with
  | None => Exc.Return analysis
  | Some metadata =>
      persona_value <- get_or metadata "persona" (Str "") ;;
      persona <- lower_of persona_value ;;
      job_value <- get_or metadata "job_to_be_done" (Str "") ;;
      job_description <- lower_of job_value ;;
      let relevant := relevant_keywords persona persona_keywords in
      analysis <-
        match get "subsection_analysis" output_data with
        | Some subsections =>
            items <- iterate subsections ;;
            analyze_subsections relevant job_description items analysis
        | None => Exc.Return analysis
        end ;;
      total_content <-
        len match get "subsection_analysis" output_data with
            | Some subsections => subsections
            | None => List []
            end ;;
      if (0 <? total_content)%nat then
        Exc.Return
          {| persona_keywords_found := persona_keywords_found analysis;
             job_keywords_found := job_keywords_found analysis;
             relevance_score :=
               PyNum.of_nat (persona_keywords_found analysis
                             + job_keywords_found analysis)
               / PyNum.of_nat total_content;
             detailed_analysis := detailed_analysis analysis |}
      else Exc.Return analysis
  end.

(** The dictionary [output_data] that [process_collection] builds. *)
Definition extracted_section_json (e : MLEnhancedPDFAnalyzer.ExtractedSection) : Json.t :=
  Dict [ ("document", Str (MLEnhancedPDFAnalyzer.es_document e));
         ("section_title", Str (MLEnhancedPDFAnalyzer.es_section_title e));
         ("importance_rank", Int (Z.of_nat (MLEnhancedPDFAnalyzer.importance_rank e)));
         ("page_number", Int (Z.of_nat (MLEnhancedPDFAnalyzer.es_page_number e))) ].

Definition subsection_json (ss : MLEnhancedPDFAnalyzer.Subsection) : Json.t :=
  Dict [ ("document", Str (MLEnhancedPDFAnalyzer.ss_document ss));
         ("refined_text", Str (MLEnhancedPDFAnalyzer.refined_text ss));
         ("page_number", Int (Z.of_nat (MLEnhancedPDFAnalyzer.ss_page_number ss))) ].

Definition output_json (out : MLEnhancedPDFAnalyzer.Output) : list (string * Json.t) :=
  let md := MLEnhancedPDFAnalyzer.metadata out in
  [ ("metadata",
     Dict [ ("input_documents",
             List (map Str (MLEnhancedPDFAnalyzer.input_documents md)));
            ("persona", Str (MLEnhancedPDFAnalyzer.persona md));
            ("job_to_be_done", Str (MLEnhancedPDFAnalyzer.job_to_be_done md));
            ("processing_timestamp",
             Str (MLEnhancedPDFAnalyzer.processing_timestamp md)) ]);
    ("extracted_sections",
     List (map extracted_section_json (MLEnhancedPDFAnalyzer.extracted_sections out)));
    ("subsection_analysis",
     List (map subsection_json (MLEnhancedPDFAnalyzer.subsection_analysis out)));
    ("refined_text", Str (MLEnhancedPDFAnalyzer.refined_text_summary out)) ].

End ValidateCollections.

(* ------------------------------------------------------------------ *)
(** ** Well-formed outputs *)

Module Wellformed.

Import PDFProcessor.

Definition level_labels : list string := ["H1"; "H2"; "H3"; "H4"; "H5"; "H6"].

(** An outline entry of a document with [pages] pages: a level label, a
    1-based page of the document, a trimmed text of 2 to 200 characters. *)
Definition outline_entry_ok (pages : nat) (e : Entry) : Prop :=
  In (level e) level_labels
  /\ (1 <= page e <= pages)%nat
  /\ (2 <= String.length (text e) <= 200)%nat
  /\ PyStr.strip (text e) = text e.

(** The number of distinct sizes of [font_sizes] strictly above [font_size]. *)
Definition larger_sizes (font_size : Q) (font_sizes : list Q) : nat :=
  List.length (filter (fun size => PyNum.Qltb font_size size)
                      (PySort.sorted_set_desc font_sizes)).

(** A candidate entry found on the page of index [page_num]. *)
Definition candidate_ok (page_num : nat) (e : Entry) : Prop :=
  In (level e) level_labels
  /\ page e = (page_num + 1)%nat
  /\ (2 <= String.length (text e) <= 200)%nat
  /\ PyStr.strip (text e) = text e.

(** The title candidates of [extract_title_from_first_page], in the order
    of the first 15 blocks of the first page. *)
Definition title_candidates (blocks : list Fitz.Block) : list (string * Q) :=
  flat_map (fun block => flat_map title_candidate (Fitz.block_lines block))
           (firstn 15 blocks).

(** [n] times the character 0. *)
Fixpoint zeros (n : nat) : string :=
  match n with
  | O => ""
  | S n' => String "0" (zeros n')
  end.






(** The body of [_calculate_base_relevance] for a profile found in the
    catalog. *)
Definition base_relevance_of (profile : MLEnhancedPDFAnalyzer.PersonaProfile)
    (text job_description : string) : Q :=
  let text_lower := PyStr.lower text in
  let job_lower := PyStr.lower job_description in
  let score := 0%Q in
  let score :=
    MLEnhancedPDFAnalyzer.add_found 3
      (MLEnhancedPDFAnalyzer.high_priority profile) text_lower score in
  let score :=
    MLEnhancedPDFAnalyzer.add_found 2
      (MLEnhancedPDFAnalyzer.medium_priority profile) text_lower score in
  let score :=
    MLEnhancedPDFAnalyzer.add_found 1
      (MLEnhancedPDFAnalyzer.low_priority profile) text_lower score in
  let job_keywords := PyStr.split job_lower in
  let score :=
    fold_left (fun score job_keyword =>
                 if (3 <? String.length job_keyword)%nat
                    && PyStr.contains job_keyword text_lower
                 then (score + 2)%Q else score)
              job_keywords score in
  PyNum.py_max score (1 # 10).

(** The HR professional profile without its three keywords that contain
    upper-case letters. *)
Definition hr_lower_case_profile : MLEnhancedPDFAnalyzer.PersonaProfile :=
  {| MLEnhancedPDFAnalyzer.high_priority :=
       ["form"; "forms"; "fillable"; "onboarding"; "compliance"; "employee";
        "human resources"; "signature"; "e-signature"; "document"];
     MLEnhancedPDFAnalyzer.medium_priority :=
       ["create"; "convert"; "edit"; "export"; "share"; "workflow"];
     MLEnhancedPDFAnalyzer.low_priority :=
       ["training"; "skills"; "learning"; "tutorial"] |}.

(** An item of [structured_content]: a trimmed, non-empty text on a
    1-based page, classified by [_detect_heading_ml]. *)
Definition item_ok (item : MLEnhancedPDFAnalyzer.Item) : Prop :=
  MLEnhancedPDFAnalyzer.text item <> ""
  /\ PyStr.strip (MLEnhancedPDFAnalyzer.text item) = MLEnhancedPDFAnalyzer.text item
  /\ (1 <= MLEnhancedPDFAnalyzer.page item)%nat
  /\ Notions.classified item.

(** The section that [extract_sections] appends for the heading text
    [title] followed by the items [items]. *)
Definition section_record (filename persona job_description title : string)
    (items : list MLEnhancedPDFAnalyzer.Item) : MLEnhancedPDFAnalyzer.Section :=
  let section_text := PyStr.join " " (map MLEnhancedPDFAnalyzer.text items) in
  {| MLEnhancedPDFAnalyzer.document := filename;
     MLEnhancedPDFAnalyzer.section_title := title;
     MLEnhancedPDFAnalyzer.content := section_text;
     MLEnhancedPDFAnalyzer.page_number :=
       match items with
       | first :: _ => MLEnhancedPDFAnalyzer.page first
       | [] => 1%nat
       end;
     MLEnhancedPDFAnalyzer.relevance_score :=
       MLEnhancedPDFAnalyzer.calculate_ml_relevance_score
         (title ++ " " ++ section_text)%string persona job_description |}.

(** Where a section comes from: a boundary item of one of the documents
    and a non-empty run of items of that document that are no
    boundaries. *)
Definition section_from (fitz_open : Path.t -> Exc.t Fitz.Document)
    (documents : list string) (persona job_description : string)
    (s : MLEnhancedPDFAnalyzer.Section) : Prop :=
  exists filename structured_content heading items,
    In filename documents
    /\ MLEnhancedPDFAnalyzer.extract_text_with_structure fitz_open filename
       = Exc.Return structured_content
    /\ In heading structured_content
    /\ MLEnhancedPDFAnalyzer.section_boundary heading = true
    /\ items <> []
    /\ incl items structured_content
    /\ Forall (fun item => MLEnhancedPDFAnalyzer.section_boundary item = false) items
    /\ s = section_record filename persona job_description
             (MLEnhancedPDFAnalyzer.text heading) items.

(** What every emitted section satisfies. *)
Definition section_ok (documents : list string) (s : MLEnhancedPDFAnalyzer.Section)
  : Prop :=
  In (MLEnhancedPDFAnalyzer.document s) documents
  /\ (5 < String.length (MLEnhancedPDFAnalyzer.section_title s))%nat
  /\ MLEnhancedPDFAnalyzer.content s <> ""
  /\ (1 <= MLEnhancedPDFAnalyzer.page_number s)%nat
  /\ (1 # 10 < MLEnhancedPDFAnalyzer.relevance_score s)%Q.

(** A section appended while the items [structured_content] of
    [filename] are segmented. *)
Definition appended (filename persona job_description : string)
    (structured_content : list MLEnhancedPDFAnalyzer.Item)
    (s : MLEnhancedPDFAnalyzer.Section) : Prop :=
  exists heading items,
    In heading structured_content
    /\ MLEnhancedPDFAnalyzer.section_boundary heading = true
    /\ items <> []
    /\ incl items structured_content
    /\ Forall (fun item => MLEnhancedPDFAnalyzer.section_boundary item = false) items
    /\ (1 # 10 < MLEnhancedPDFAnalyzer.relevance_score s)%Q
    /\ s = section_record filename persona job_description
             (MLEnhancedPDFAnalyzer.text heading) items.

(** The loop state while [filename] is segmented: the open section is the
    text of a boundary item, the pending items are no boundaries, and
    every section is an earlier one or was appended for this document. *)
Definition segmenting (filename persona job_description : string)
    (structured_content : list MLEnhancedPDFAnalyzer.Item)
    (collected : list MLEnhancedPDFAnalyzer.Section)
    (st : MLEnhancedPDFAnalyzer.SegState) : Prop :=
  match MLEnhancedPDFAnalyzer.current_section st with
  | None => True
  | Some t =>
      exists heading,
        In heading structured_content
        /\ MLEnhancedPDFAnalyzer.section_boundary heading = true
        /\ t = MLEnhancedPDFAnalyzer.text heading
  end
  /\ incl (MLEnhancedPDFAnalyzer.current_content st) structured_content
  /\ Forall (fun item => MLEnhancedPDFAnalyzer.section_boundary item = false)
            (MLEnhancedPDFAnalyzer.current_content st)
  /\ forall s, In s (MLEnhancedPDFAnalyzer.all_sections st) ->
               In s collected
               \/ appended filename persona job_description structured_content s.

(** The rest of one iteration of [for doc in documents]: the loop over
    the remaining items from the state [st], and the section saved after
    the loop. *)
Definition extract_document_sections_from (filename persona job_description : string)
    (items : list MLEnhancedPDFAnalyzer.Item) (st : MLEnhancedPDFAnalyzer.SegState)
  : list MLEnhancedPDFAnalyzer.Section :=
  let st :=
    fold_left (MLEnhancedPDFAnalyzer.segment_step filename persona job_description)
              items st in
  MLEnhancedPDFAnalyzer.save_section filename persona job_description
    (MLEnhancedPDFAnalyzer.current_section st)
    (MLEnhancedPDFAnalyzer.section_or (MLEnhancedPDFAnalyzer.current_section st)
       "Content")
    (MLEnhancedPDFAnalyzer.current_content st)
    (MLEnhancedPDFAnalyzer.all_sections st).

(** The items up to the next boundary. *)
Fixpoint run (items : list MLEnhancedPDFAnalyzer.Item)
  : list MLEnhancedPDFAnalyzer.Item :=
  match items with
  | [] => []
  | item :: rest =>
      if MLEnhancedPDFAnalyzer.section_boundary item then []
      else item :: run rest
  end.

(** Every boundary item of a document with the items that follow it up
    to the next boundary, in document order; the items before the first
    boundary belong to no segment. *)
Fixpoint segments (items : list MLEnhancedPDFAnalyzer.Item)
  : list (MLEnhancedPDFAnalyzer.Item * list MLEnhancedPDFAnalyzer.Item) :=
  match items with
  | [] => []
  | item :: rest =>
      if MLEnhancedPDFAnalyzer.section_boundary item
      then (item, run rest) :: segments rest
      else segments rest
  end.

(** The section of a segment, if it has content and scores above 0.1. *)
Definition section_of (filename persona job_description : string)
    (segment : MLEnhancedPDFAnalyzer.Item * list MLEnhancedPDFAnalyzer.Item)
  : list MLEnhancedPDFAnalyzer.Section :=
  match snd segment with
  | [] => []
  | _ =>
      let s := section_record filename persona job_description
                 (MLEnhancedPDFAnalyzer.text (fst segment)) (snd segment) in
      if PyNum.Qgtb (MLEnhancedPDFAnalyzer.relevance_score s) (1 # 10)
      then [s] else []
  end.

(** The sections of the documents [documents] whose items are
    [contents], document by document. *)
Definition sections_of (persona job_description : string)
    (documents : list string)
    (contents : list (list MLEnhancedPDFAnalyzer.Item))
  : list MLEnhancedPDFAnalyzer.Section :=
  flat_map (fun d => flat_map (section_of (fst d) persona job_description)
                              (segments (snd d)))
           (combine documents contents).

End Wellformed.

(* ------------------------------------------------------------------ *)
(** ** The Food Contractor multiplier as a product of choices *)

Module Adjustments.

(** [multiplier *= factor], or no change. *)
Definition adjust (factor : option Q) (multiplier : Q) : Q :=
  match factor with
  | Some f => (multiplier * f)%Q
  | None => multiplier
  end.

(** The factors that each adjustment of
    [_calculate_food_contractor_ml_score] can apply. *)
Definition vegetarian_factors : list (option Q) :=
  [None; Some (15 # 10); Some (2 # 10); Some (8 # 10)].
Definition gluten_factors : list (option Q) :=
  [None; Some (13 # 10); Some (7 # 10)].
Definition dinner_factors : list (option Q) :=
  [None; Some (14 # 10); Some (6 # 10)].
Definition buffet_factors : list (option Q) :=
  [None; Some (12 # 10)].

(** A multiplier: 1.0 after one choice per adjustment, in the order of
    the source. *)
Definition multiplier_choice (multiplier : Q) : Prop :=
  exists v g d b,
    In v vegetarian_factors /\ In g gluten_factors
    /\ In d dinner_factors /\ In b buffet_factors
    /\ multiplier = adjust b (adjust d (adjust g (adjust v 1))).

(** The same products in binary64. *)
Definition adjust64 (factor : option float) (multiplier : float) : float :=
  match factor with
  | Some f => PrimFloat.mul multiplier f
  | None => multiplier
  end.

Definition multipliers64 : list float :=
  flat_map (fun v =>
    flat_map (fun g =>
      flat_map (fun d =>
        map (fun b => adjust64 b (adjust64 d (adjust64 g (adjust64 v 1%float))))
            [None; Some 1.2%float])
        [None; Some 1.4%float; Some 0.6%float])
      [None; Some 1.3%float; Some 0.7%float])
    [None; Some 1.5%float; Some 0.2%float; Some 0.8%float].

End Adjustments.

(* ------------------------------------------------------------------ *)
(** ** A document that opens but cannot be read *)

Module Faults.

Definition damaged : Exc.exn := Exc.Exception "cannot read damaged page".

(** A document with a metadata title whose only page cannot be read. *)
Definition half_broken : Fitz.Document :=
  {| Fitz.metadata := Exc.Return (Some {| Fitz.title := Some "City Guide" |});
     Fitz.pages := [ {| Fitz.get_text := Exc.Raise damaged |} ] |}.

(** The same without a metadata title. *)
Definition untitled : Fitz.Document :=
  {| Fitz.metadata := Exc.Return None;
     Fitz.pages := [ {| Fitz.get_text := Exc.Raise damaged |} ] |}.

Definition fitz_open (pdf_path : Path.t) : Exc.t Fitz.Document :=
  if pdf_path =? "half_broken.pdf" then Exc.Return half_broken
  else if pdf_path =? "untitled.pdf" then Exc.Return untitled
  else Samples.fitz_open pdf_path.

End Faults.

(* ------------------------------------------------------------------ *)
(** ** A document that starts with text before its first heading *)

Module Preamble.

(** Body text, a heading with two lines of content, and a heading
    directly followed by another one. *)
Definition leaflet : Fitz.Document :=
  {| Fitz.metadata := Exc.Return None;
     Fitz.pages :=
       [ Samples.page_of
           [ Samples.span "a hotel preamble text" 10 0;
             Samples.span "Getting Around" 18 16;
             Samples.span "take the bus" 10 0;
             Samples.span "or travel by train" 10 0;
             Samples.span "Empty Heading" 18 16;
             Samples.span "Local Customs" 18 16;
             Samples.span "visit the local market" 10 0 ] ] |}.

Definition fitz_open (pdf_path : Path.t) : Exc.t Fitz.Document :=
  if pdf_path =? "leaflet.pdf" then Exc.Return leaflet
  else Samples.fitz_open pdf_path.

End Preamble.

(* ================================================================== *)
(** * Properties *)

(** ** Strings *)

Section StringFacts.

Import PyStr.

Lemma append_nil_r (s : string) : (s ++ "")%string = s.
Proof. induction s as [|c s IH]; simpl; [reflexivity | now rewrite IH]. Qed.

Lemma append_assoc (a b c : string) :
  ((a ++ b) ++ c)%string = (a ++ (b ++ c))%string.
Proof. induction a as [|x a IH]; simpl; [reflexivity | now rewrite IH]. Qed.

Lemma lower_c_space (c : ascii) : isspace_c (lower_c c) = isspace_c c.
Proof. destruct c as [[] [] [] [] [] [] [] []]; reflexivity. Qed.

Lemma lower_c_idem (c : ascii) : lower_c (lower_c c) = lower_c c.
Proof. destruct c as [[] [] [] [] [] [] [] []]; reflexivity. Qed.

Lemma lower_app (a b : string) : lower (a ++ b) = (lower a ++ lower b)%string.
Proof. induction a as [|x a IH]; simpl; [reflexivity | now rewrite IH]. Qed.

Lemma lower_idem (s : string) : lower (lower s) = lower s.
Proof.
  induction s as [|c s IH]; simpl; [reflexivity|].
  now rewrite lower_c_idem, IH.
Qed.

Lemma lower_length (s : string) : String.length (lower s) = String.length s.
Proof. induction s as [|c s IH]; simpl; [reflexivity | now rewrite IH]. Qed.

Lemma lower_empty (s : string) : (lower s =? "") = (s =? "").
Proof. destruct s; reflexivity. Qed.

Lemma startswith_nil (s : string) : startswith s "" = true.
Proof. destruct s; reflexivity. Qed.

Lemma startswith_app (p s : string) : startswith (p ++ s) p = true.
Proof.
  induction p as [|c p IH]; simpl; [apply startswith_nil|].
  now rewrite Ascii.eqb_refl, IH.
Qed.

Lemma startswith_app_l (a b p : string) :
  startswith a p = true -> startswith (a ++ b) p = true.
Proof.
  revert a. induction p as [|c p IH]; intros a H; [apply startswith_nil|].
  destruct a as [|x a]; simpl in *; [discriminate|].
  apply andb_true_iff in H. destruct H as [Hc Hp].
  now rewrite Hc, IH.
Qed.

Lemma contains_app_l (k a b : string) :
  contains k a = true -> contains k (a ++ b) = true.
Proof.
  induction a as [|x a IH]; intros H.
  - simpl in H. rewrite orb_false_r in H.
    destruct k; [|discriminate].
    destruct b; reflexivity.
  - cbn [contains] in H. apply orb_true_iff in H.
    change ((String x a ++ b)%string) with (String x (a ++ b)).
    cbn [contains]. apply orb_true_iff. destruct H as [H|H].
    + left. now apply (startswith_app_l (String x a) b k).
    + right. now apply IH.
Qed.

Lemma contains_app_r (k a b : string) :
  contains k b = true -> contains k (a ++ b) = true.
Proof.
  intros H. induction a as [|x a IH]; [exact H|].
  change ((String x a ++ b)%string) with (String x (a ++ b)).
  cbn [contains]. rewrite IH. apply orb_true_r.
Qed.

Lemma contains_self_app (k s : string) : contains k (k ++ s) = true.
Proof.
  destruct k as [|c k]; [destruct s; reflexivity|].
  change ((String c k ++ s)%string) with (String c (k ++ s)).
  cbn [contains].
  change (String c (k ++ s)) with ((String c k ++ s)%string).
  now rewrite startswith_app.
Qed.

Lemma split_from_lower (s cur : string) :
  split_from (lower cur) (lower s) = map lower (split_from cur s).
Proof.
  revert cur. induction s as [|c s IH]; intros cur; simpl.
  - rewrite lower_empty. destruct (cur =? ""); reflexivity.
  - rewrite lower_c_space. destruct (isspace_c c).
    + rewrite lower_empty. destruct (cur =? ""); simpl.
      * apply (IH "").
      * f_equal. apply (IH "").
    + rewrite <- IH. now rewrite lower_app.
Qed.

Lemma split_lower (s : string) : split (lower s) = map lower (split s).
Proof. apply (split_from_lower s ""). Qed.

Lemma take_nonempty (n : nat) (s : string) :
  (0 < n)%nat -> s <> "" -> take n s <> "".
Proof.
  intros Hn Hs. destruct n; [lia|]. destruct s; [congruence|]. discriminate.
Qed.

End StringFacts.

(** ** Lists *)

Section ListFacts.

Lemma Forall_flat_map {A B : Type} (P : B -> Prop) (f : A -> list B) (l : list A) :
  (forall a, Forall P (f a)) -> Forall P (flat_map f l).
Proof.
  intros H. induction l as [|a l IH]; simpl.
  - constructor.
  - apply Forall_app. split; [apply H | exact IH].
Qed.

Lemma In_firstn {A : Type} (n : nat) (l : list A) (x : A) :
  In x (firstn n l) -> In x l.
Proof.
  revert n. induction l as [|y l IH]; intros [|n]; simpl; try tauto.
  intros [->|H]; [now left | right; eauto].
Qed.

Lemma fold_left_flat_map {A B C : Type} (f : A -> C -> A) (g : B -> list C)
    (l : list B) :
  forall acc,
    fold_left f (flat_map g l) acc
    = fold_left (fun acc b => fold_left f (g b) acc) l acc.
Proof.
  induction l as [|b l IH]; intros acc; simpl.
  - reflexivity.
  - rewrite fold_left_app. apply IH.
Qed.

End ListFacts.


(** ** Comparisons on rationals *)

Section QFacts.

Import PyNum.

Lemma Qltb_true (a b : Q) : Qltb a b = true <-> (a < b)%Q.
Proof.
  unfold Qltb. rewrite negb_true_iff. split; intro H.
  - apply Qnot_le_lt. intro Hle. apply Qle_bool_iff in Hle. congruence.
  - destruct (Qle_bool b a) eqn:E; [|reflexivity].
    apply Qle_bool_iff in E. exfalso. exact (Qlt_not_le _ _ H E).
Qed.

Lemma Qgtb_true (a b : Q) : Qgtb a b = true <-> (b < a)%Q.
Proof. exact (Qltb_true b a). Qed.

Lemma Qgeb_true (a b : Q) : Qgeb a b = true <-> (b <= a)%Q.
Proof. unfold Qgeb. apply Qle_bool_iff. Qed.

Lemma Qgeb_false (a b : Q) : Qgeb a b = false <-> (a < b)%Q.
Proof.
  rewrite <- Qltb_true. unfold Qltb, Qgeb.
  destruct (Qle_bool b a); simpl; split; congruence.
Qed.

Lemma py_max_lower_bound (a b : Q) : (b <= py_max a b)%Q.
Proof.
  unfold py_max. destruct (Qgtb b a) eqn:E.
  - apply Qle_refl.
  - unfold Qgtb in E. apply negb_false_iff in E.
    now apply Qle_bool_iff in E.
Qed.

End QFacts.

(** ** Heading levels *)

Section HeadingLevels.

Import PyNum PDFProcessor.

Lemma first_rank_bounds (f : Q) (sizes : list Q) :
  forall i n, first_rank f sizes i = Some n ->
              (i + 1 <= n /\ n <= i + List.length sizes)%nat.
Proof.
  induction sizes as [|size rest IH]; simpl; intros i n H.
  - discriminate.
  - destruct (Qgeb f size).
    + inversion H; subst. lia.
    + apply IH in H. lia.
Qed.

Lemma first_rank_mono (a b : Q) (sizes : list Q) :
  (b <= a)%Q ->
  forall i n, first_rank b sizes i = Some n ->
              exists m, first_rank a sizes i = Some m /\ (m <= n)%nat.
Proof.
  intros Hab. induction sizes as [|size rest IH]; simpl; intros i n H.
  - discriminate.
  - destruct (Qgeb b size) eqn:Eb.
    + inversion H; subst.
      apply Qgeb_true in Eb.
      assert (Ea : Qgeb a size = true)
        by (apply Qgeb_true; eapply Qle_trans; eassumption).
      rewrite Ea. exists (i + 1)%nat. split; [reflexivity | lia].
    + destruct (Qgeb a size).
      * exists (i + 1)%nat. split; [reflexivity|].
        apply first_rank_bounds in H. lia.
      * apply IH. exact H.
Qed.

Lemma level_number_label (n : nat) :
  (n <= 9)%nat -> level_number ("H" ++ digit_string n) = n.
Proof.
  intros Hn. unfold digit_string, level_number, PyStr.code.
  cbn [String.append].
  rewrite nat_ascii_embedding by lia. lia.
Qed.

Lemma first_rank_top6 (f : Q) (sizes : list Q) (n : nat) :
  first_rank f (firstn 6 sizes) 0 = Some n -> (1 <= n <= 6)%nat.
Proof.
  intros H. apply first_rank_bounds in H.
  pose proof (firstn_le_length 6 sizes). lia.
Qed.

(** C6. For every list of font sizes and any two font sizes [a > b],
    the level assigned to [a] is numerically at most the level
    assigned to [b]. *)
Theorem C6_level_monotone (font_sizes : list Q) (a b : Q) :
  (b < a)%Q ->
  (level_number (determine_heading_level a font_sizes)
   <= level_number (determine_heading_level b font_sizes))%nat.
Proof.
  intros Hlt. unfold determine_heading_level.
  set (sizes := firstn 6 (PySort.sorted_set_desc font_sizes)).
  destruct (first_rank b sizes 0) as [nb|] eqn:Hb.
  - destruct (first_rank_mono a b sizes (Qlt_le_weak _ _ Hlt) 0 nb Hb)
      as (m & Ha & Hle).
    rewrite Ha.
    apply first_rank_top6 in Hb. apply first_rank_top6 in Ha.
    rewrite !level_number_label by lia. exact Hle.
  - change (level_number "H6") with 6%nat.
    destruct (first_rank a sizes 0) as [m|] eqn:Ha.
    + apply first_rank_top6 in Ha.
      rewrite level_number_label by lia. lia.
    + change (level_number "H6") with 6%nat. lia.
Qed.

Lemma C6_level_monotone_witness :
  (12 < 14)%Q /\
  (level_number (determine_heading_level 14 [18; 14; 12; 10; 14]%Q)
   <= level_number (determine_heading_level 12 [18; 14; 12; 10; 14]%Q))%nat.
Proof.
  split; [reflexivity|].
  apply (C6_level_monotone [18; 14; 12; 10; 14]%Q 14 12). reflexivity.
Defined.

(** The scenario of the level assignment. *)
Example level_scenario :
  map (fun size => determine_heading_level size [18; 14; 12; 10]%Q) [18; 14; 13; 10; 9]%Q
  = ["H1"; "H2"; "H3"; "H4"; "H6"].
Proof. reflexivity. Qed.

End HeadingLevels.

(** ** The heading gate *)

Section HeadingGate.

Import PyNum PDFProcessor Notions.

Lemma is_likely_heading_below_gate text font_size is_bold avg_font_size :
  Qltb font_size (avg_font_size * (11 # 10)) = true ->
  is_likely_heading text font_size is_bold avg_font_size = false.
Proof.
  intros H. unfold is_likely_heading. rewrite H.
  destruct (_ || _); reflexivity.
Qed.

Lemma is_likely_heading_above_gate text font_size is_bold avg_font_size :
  Qltb font_size (avg_font_size * (11 # 10)) = false ->
  is_likely_heading text font_size is_bold avg_font_size =
  length_ok (PyStr.strip text)
  && heading_rules (PyStr.strip text) font_size is_bold avg_font_size.
Proof.
  intros H. unfold is_likely_heading, length_ok, heading_rules. rewrite H.
  destruct (_ || _); reflexivity.
Qed.

(** C5. With average font size 10.0 a line of size 10.9 is rejected
    whatever its text and bold flag; a line of size 11.0 passes the
    size gate, and the decision is then the lexical patterns, the bold
    rule at 20% above the average and the all-caps rule, in that order. *)
Theorem C5_heading_gate :
  (forall text is_bold, is_likely_heading text (109 # 10) is_bold 10 = false)
  /\ Qltb 11 (10 * (11 # 10)) = false
  /\ (forall text is_bold,
         is_likely_heading text 11 is_bold 10 =
         length_ok (PyStr.strip text)
         && (if matches_heading_pattern (PyStr.strip text) then true
             else if is_bold && Qgeb 11 (10 * (12 # 10)) then true
             else if PyStr.isupper (PyStr.strip text)
                     && (List.length (PyStr.split (PyStr.strip text)) <=? 10)%nat
                  then true
             else false)).
Proof.
  split; [|split].
  - intros. apply is_likely_heading_below_gate. reflexivity.
  - reflexivity.
  - intros. apply is_likely_heading_above_gate. reflexivity.
Qed.

(** The scenario on texts: the numbered heading is accepted at 11.0 by a
    pattern, the bold caption is not (the bold rule needs 12.0), the
    upper-case note is accepted by the last rule; all three are
    rejected at 10.9. *)
Example heading_gate_scenario :
  map (fun t => is_likely_heading (fst t) 11 (snd t) 10)
      [("1. Introduction", false); ("shown in bold", true); ("NOTE: X1", false)]
  = [true; false; true]
  /\ map (fun t => is_likely_heading (fst t) (109 # 10) (snd t) 10)
      [("1. Introduction", false); ("shown in bold", true); ("NOTE: X1", false)]
  = [false; false; false].
Proof. split; vm_compute; reflexivity. Qed.

(** The compiled patterns on sample lines. *)
Example heading_patterns_sample :
  map matches_heading_pattern
      ["1. Introduction"; "2.1 Scope"; "3.4.5. Details"; "TABLE OF CONTENTS";
       "Introduction"; "Chapter 12 and more."; "Section 3"; "Appendix A";
       "see below"; "Getting Around"; "1. lower case"; "A"]
  = [true; true; true; true; true; true; true; true; false; false; false; false].
Proof. vm_compute. reflexivity. Qed.

(** The same gates evaluated in binary64: [10.0 * 1.1] rounds to 11.0,
    so the rational model and the floats agree at the boundary. *)
Lemma heading_gate_binary64 :
  Binary64.below_size_gate 10.9 10.0 = true
  /\ Binary64.below_size_gate 11.0 10.0 = false
  /\ Binary64.bold_gate 11.0 10.0 = false
  /\ Binary64.below_size_gate 10.9 10.0 = Qltb (109 # 10) (10 * (11 # 10))
  /\ Binary64.below_size_gate 11.0 10.0 = Qltb 11 (10 * (11 # 10))
  /\ Binary64.bold_gate 11.0 10.0 = Qgeb 11 (10 * (12 # 10)).
Proof. repeat split; vm_compute; reflexivity. Qed.

End HeadingGate.

(** ** Sorting *)

Section Sorting.

Context {A : Type} (key : A -> Q).


Lemma desc_trans (a b c : A) : (Notions.desc key) a b -> (Notions.desc key) b c -> (Notions.desc key) a c.
Proof. unfold Notions.desc. intros Hab Hbc. eapply Qle_trans; eassumption. Qed.

Lemma insert_desc_perm (x : A) (l : list A) :
  Permutation (x :: l) (PySort.insert_desc key x l).
Proof.
  induction l as [|y l IH]; simpl.
  - apply Permutation_refl.
  - destruct (Qle_bool (key y) (key x)).
    + apply Permutation_refl.
    + eapply perm_trans; [apply perm_swap|]. now apply perm_skip.
Qed.

Lemma sorted_desc_perm (l : list A) : Permutation l (PySort.sorted_desc key l).
Proof.
  induction l as [|x l IH]; simpl.
  - apply perm_nil.
  - eapply perm_trans; [apply perm_skip, IH | apply insert_desc_perm].
Qed.

Lemma insert_desc_hd (a x : A) (l : list A) :
  (Notions.desc key) a x -> HdRel (Notions.desc key) a l -> HdRel (Notions.desc key) a (PySort.insert_desc key x l).
Proof.
  intros Hax Hal. destruct l as [|y l]; simpl.
  - constructor. exact Hax.
  - destruct (Qle_bool (key y) (key x)); constructor.
    + exact Hax.
    + now inversion Hal.
Qed.

Lemma insert_desc_sorted (x : A) (l : list A) :
  Sorted (Notions.desc key) l -> Sorted (Notions.desc key) (PySort.insert_desc key x l).
Proof.
  induction 1 as [|y l Hl IH Hy]; simpl.
  - repeat constructor.
  - destruct (Qle_bool (key y) (key x)) eqn:E.
    + constructor; [constructor; assumption|].
      constructor. now apply Qle_bool_iff.
    + constructor; [exact IH|].
      apply insert_desc_hd; [|exact Hy].
      unfold Notions.desc. apply Qlt_le_weak, Qnot_le_lt.
      intro Hle. apply Qle_bool_iff in Hle. congruence.
Qed.

Lemma sorted_desc_sorted (l : list A) : Sorted (Notions.desc key) (PySort.sorted_desc key l).
Proof.
  induction l as [|x l IH]; simpl.
  - constructor.
  - now apply insert_desc_sorted.
Qed.

Lemma sorted_desc_strongly_sorted (l : list A) :
  StronglySorted (Notions.desc key) (PySort.sorted_desc key l).
Proof.
  apply Sorted_StronglySorted.
  - intros a b c. apply desc_trans.
  - apply sorted_desc_sorted.
Qed.

(** Elements of one key value keep their places relative to each other. *)
Lemma insert_desc_stable (v : Q) (x : A) (l : list A) :
  filter (fun a => Qeq_bool (key a) v) (PySort.insert_desc key x l)
  = filter (fun a => Qeq_bool (key a) v) (x :: l).
Proof.
  induction l as [|y l IH].
  - reflexivity.
  - cbn [PySort.insert_desc]. destruct (Qle_bool (key y) (key x)) eqn:E.
    + reflexivity.
    + cbn [filter] in *. rewrite IH.
      destruct (Qeq_bool (key y) v) eqn:Ey; [|reflexivity].
      destruct (Qeq_bool (key x) v) eqn:Ex; [|reflexivity].
      exfalso. apply Qeq_bool_iff in Ey. apply Qeq_bool_iff in Ex.
      assert (Hle : (key y <= key x)%Q) by (rewrite Ey, Ex; apply Qle_refl).
      apply Qle_bool_iff in Hle. congruence.
Qed.

Lemma sorted_desc_stable (v : Q) (l : list A) :
  filter (fun a => Qeq_bool (key a) v) (PySort.sorted_desc key l)
  = filter (fun a => Qeq_bool (key a) v) l.
Proof.
  induction l as [|x l IH].
  - reflexivity.
  - cbn [PySort.sorted_desc fold_right].
    fold (PySort.sorted_desc key l).
    rewrite insert_desc_stable. cbn [filter]. now rewrite IH.
Qed.

(** Sorting a descending list changes nothing. *)
Lemma sorted_desc_fixpoint (l : list A) :
  Sorted (Notions.desc key) l -> PySort.sorted_desc key l = l.
Proof.
  induction 1 as [|x l Hl IH Hx].
  - reflexivity.
  - cbn [PySort.sorted_desc fold_right].
    fold (PySort.sorted_desc key l). rewrite IH.
    destruct Hx as [|y l' Hxy]; [reflexivity|].
    cbn [PySort.insert_desc].
    apply Qle_bool_iff in Hxy. now rewrite Hxy.
Qed.

Lemma firstn_sorted (n : nat) (l : list A) :
  Sorted (Notions.desc key) l -> Sorted (Notions.desc key) (firstn n l).
Proof.
  intros H. revert n. induction H as [|x l Hl IH Hx]; intros [|n]; simpl.
  - constructor.
  - constructor.
  - constructor.
  - constructor; [apply IH|].
    destruct Hx as [|y l' Hxy]; destruct n; simpl; constructor; assumption.
Qed.

End Sorting.

(** ** Ranking *)

Section Ranking.

Import MLEnhancedPDFAnalyzer.

Lemma rank_sections_idempotent (sections : list Section) (limit : nat) :
  rank_sections (rank_sections sections limit) limit = rank_sections sections limit.
Proof.
  unfold rank_sections.
  rewrite sorted_desc_fixpoint
    by (apply firstn_sorted, sorted_desc_sorted).
  rewrite firstn_firstn. now rewrite Nat.min_id.
Qed.

Lemma importance_rank_from (top : list Section) (k : nat) :
  map (fun p : nat * Section => (fst p + 1)%nat)
      (combine (seq k (List.length top)) top)
  = seq (k + 1) (List.length top).
Proof.
  revert k. induction top as [|s top IH]; intros k; simpl.
  - reflexivity.
  - f_equal. rewrite IH. reflexivity.
Qed.

Lemma extracted_section_entries_ranks (top : list Section) :
  map importance_rank (extracted_section_entries top) = seq 1 (List.length top).
Proof.
  unfold extracted_section_entries, enumerate. rewrite map_map.
  change (seq 1 (List.length top)) with (seq (0 + 1) (List.length top)).
  rewrite <- (importance_rank_from top 0). apply map_ext.
  now intros [i s].
Qed.

Lemma entries_sections_from (top : list Section) (k : nat) :
  map (fun p : nat * Section =>
         (document (snd p), section_title (snd p), page_number (snd p)))
      (combine (seq k (List.length top)) top)
  = map (fun s => (document s, section_title s, page_number s)) top.
Proof.
  revert k. induction top as [|s top IH]; intros k; simpl.
  - reflexivity.
  - f_equal. apply IH.
Qed.

Lemma extracted_section_entries_sections (top : list Section) :
  map (fun e => (es_document e, es_section_title e, es_page_number e))
      (extracted_section_entries top)
  = map (fun s => (document s, section_title s, page_number s)) top.
Proof.
  unfold extracted_section_entries, enumerate. rewrite map_map.
  rewrite <- (entries_sections_from top 0). apply map_ext.
  now intros [i s].
Qed.

(** C9. [rank_sections] is the stable descending sort by relevance score
    cut to the first 10; ranking the ranked list again changes nothing;
    and the i-th ranked section is emitted with importance rank i+1. *)
Theorem C9_rank_sections (sections : list Section) :
  let sorted := PySort.sorted_desc relevance_score sections in
  rank_sections sections 10 = firstn 10 sorted
  /\ Permutation sections sorted
  /\ StronglySorted (fun a b => (relevance_score b <= relevance_score a)%Q) sorted
  /\ (forall v : Q,
         filter (fun s => Qeq_bool (relevance_score s) v) sorted
         = filter (fun s => Qeq_bool (relevance_score s) v) sections)
  /\ rank_sections (rank_sections sections 10) 10 = rank_sections sections 10
  /\ map importance_rank (extracted_section_entries (rank_sections sections 10))
     = seq 1 (List.length (rank_sections sections 10))
  /\ map (fun e => (es_document e, es_section_title e, es_page_number e))
         (extracted_section_entries (rank_sections sections 10))
     = map (fun s => (document s, section_title s, page_number s))
           (rank_sections sections 10).
Proof.
  cbv zeta. repeat split.
  - apply sorted_desc_perm.
  - apply (sorted_desc_strongly_sorted relevance_score).
  - intros v. apply sorted_desc_stable.
  - apply rank_sections_idempotent.
  - apply extracted_section_entries_ranks.
  - apply extracted_section_entries_sections.
Qed.

End Ranking.

(** ** The relevance score *)

Section RelevanceScore.

Import PyNum MLEnhancedPDFAnalyzer.

Ltac split_ifs :=
  repeat match goal with
         | |- context [if ?c then _ else _] => destruct c
         end.

Lemma base_relevance_floor (text persona job : string) :
  (1 # 10 <= _calculate_base_relevance text persona job)%Q.
Proof.
  unfold _calculate_base_relevance.
  destruct (lookup persona persona_keywords).
  - apply py_max_lower_bound.
  - apply Qle_bool_imp_le. reflexivity.
Qed.

(** The product of the four adjustments lies between 0.08 and 3.3; its
    smallest value is 0.2 * 0.7 * 0.6. *)
Lemma food_contractor_multiplier_bounds (text job : string) :
  (2 # 25 <= _calculate_food_contractor_ml_score text job)%Q
  /\ (_calculate_food_contractor_ml_score text job <= 33 # 10)%Q.
Proof.
  unfold _calculate_food_contractor_ml_score, vegetarian_adjustment,
    gluten_adjustment, dinner_adjustment, buffet_adjustment.
  cbv zeta.
  split; split_ifs; apply Qle_bool_imp_le; reflexivity.
Qed.

(** Each adjustment multiplies by one of its factors or leaves the
    multiplier as it is, whatever the classifiers answer. *)
Lemma vegetarian_adjustment_choice (text : string) (multiplier : Q) :
  exists factor,
    In factor Adjustments.vegetarian_factors
    /\ vegetarian_adjustment text multiplier = Adjustments.adjust factor multiplier.
Proof.
  unfold vegetarian_adjustment. cbv zeta. split_ifs;
    [exists (Some (15 # 10)) | exists (Some (2 # 10)) | exists (Some (8 # 10))
     | exists None];
    (split; [simpl; tauto | reflexivity]).
Qed.

Lemma gluten_adjustment_choice (text : string) (multiplier : Q) :
  exists factor,
    In factor Adjustments.gluten_factors
    /\ gluten_adjustment text multiplier = Adjustments.adjust factor multiplier.
Proof.
  unfold gluten_adjustment. cbv zeta. split_ifs;
    [exists (Some (13 # 10)) | exists (Some (7 # 10)) | exists None | exists None];
    (split; [simpl; tauto | reflexivity]).
Qed.

Lemma dinner_adjustment_choice (text : string) (multiplier : Q) :
  exists factor,
    In factor Adjustments.dinner_factors
    /\ dinner_adjustment text multiplier = Adjustments.adjust factor multiplier.
Proof.
  unfold dinner_adjustment. cbv zeta. split_ifs;
    [exists (Some (14 # 10)) | exists (Some (6 # 10)) | exists None];
    (split; [simpl; tauto | reflexivity]).
Qed.

Lemma buffet_adjustment_choice (text : string) (multiplier : Q) :
  exists factor,
    In factor Adjustments.buffet_factors
    /\ buffet_adjustment text multiplier = Adjustments.adjust factor multiplier.
Proof.
  unfold buffet_adjustment. cbv zeta. split_ifs;
    [exists (Some (12 # 10)) | exists None];
    (split; [simpl; tauto | reflexivity]).
Qed.

Lemma stage_choice (requested : bool) (adjustment : Q -> Q)
    (factors : list (option Q)) :
  In None factors ->
  (forall multiplier, exists factor,
      In factor factors /\ adjustment multiplier = Adjustments.adjust factor multiplier) ->
  forall multiplier, exists factor,
    In factor factors
    /\ (if requested then adjustment multiplier else multiplier)
       = Adjustments.adjust factor multiplier.
Proof.
  intros Hnone Hadj multiplier. destruct requested.
  - apply Hadj.
  - exists None. split; [exact Hnone | reflexivity].
Qed.

Lemma food_contractor_multiplier_choice (text job : string) :
  Adjustments.multiplier_choice (_calculate_food_contractor_ml_score text job).
Proof.
  unfold _calculate_food_contractor_ml_score. cbv zeta.
  destruct (stage_choice (PyStr.contains "vegetarian" (PyStr.lower job))
              (vegetarian_adjustment text) Adjustments.vegetarian_factors
              ltac:(simpl; tauto) (vegetarian_adjustment_choice text) 1)
    as (v & Hv & ->).
  destruct (stage_choice (PyStr.contains "gluten-free" (PyStr.lower job))
              (gluten_adjustment text) Adjustments.gluten_factors
              ltac:(simpl; tauto) (gluten_adjustment_choice text)
              (Adjustments.adjust v 1))
    as (g & Hg & ->).
  destruct (stage_choice (PyStr.contains "dinner" (PyStr.lower job))
              (dinner_adjustment text) Adjustments.dinner_factors
              ltac:(simpl; tauto) (dinner_adjustment_choice text)
              (Adjustments.adjust g (Adjustments.adjust v 1)))
    as (d & Hd & ->).
  destruct (stage_choice (PyStr.contains "buffet" (PyStr.lower job))
              (buffet_adjustment text) Adjustments.buffet_factors
              ltac:(simpl; tauto) (buffet_adjustment_choice text)
              (Adjustments.adjust d (Adjustments.adjust g (Adjustments.adjust v 1))))
    as (b & Hb & ->).
  exists v, g, d, b. repeat split; assumption.
Qed.

(** In binary64 every product of the factors lies between 0.08 and 3.3
    too; the smallest one, 1.0 * 0.2 * 0.7 * 0.6, is rounded below
    0.084. *)
Lemma multipliers_binary64 :
  forallb (fun m => PrimFloat.leb 0.08 m && PrimFloat.leb m 3.3)
          Adjustments.multipliers64 = true
  /\ existsb (fun m => PrimFloat.ltb m 0.084) Adjustments.multipliers64 = true.
Proof. split; vm_compute; reflexivity. Qed.

(** Which factor is chosen can differ between exact and binary64
    arithmetic at a threshold: a gluten confidence of 0.2 * 1.5 is 0.3
    exactly, which is not above 0.3, and 0.30000000000000004 in binary64,
    which is.  What is proved of the multiplier holds for every choice. *)
Remark confidence_threshold_binary64 :
  Qgtb ((1 # 5) * (15 # 10)) (3 # 10) = false
  /\ PrimFloat.ltb 0.3 (PrimFloat.mul 0.2 1.5) = true
  /\ Adjustments.multiplier_choice (Adjustments.adjust (Some (13 # 10)) 1)
  /\ Adjustments.multiplier_choice (Adjustments.adjust None 1).
Proof.
  split; [reflexivity|]. split; [vm_compute; reflexivity|].
  split.
  - exists None, (Some (13 # 10)), None, None. simpl. tauto.
  - exists None, None, None, None. simpl. tauto.
Qed.

Lemma relevance_score_unfold (text persona job : string) :
  calculate_ml_relevance_score text persona job =
  if persona =? "Food Contractor"
  then (_calculate_base_relevance text persona job
        * _calculate_food_contractor_ml_score text job)%Q
  else _calculate_base_relevance text persona job.
Proof. reflexivity. Qed.

Lemma relevance_score_positive (text persona job : string) :
  (0 < calculate_ml_relevance_score text persona job)%Q.
Proof.
  rewrite relevance_score_unfold.
  assert (Hb : (0 < _calculate_base_relevance text persona job)%Q).
  { eapply Qlt_le_trans; [|apply base_relevance_floor]. reflexivity. }
  destruct (persona =? "Food Contractor"); [|exact Hb].
  apply Qmult_lt_0_compat; [exact Hb|].
  eapply Qlt_le_trans; [|apply food_contractor_multiplier_bounds]. reflexivity.
Qed.

(** C1, as the code has it. For every known persona the base score is at
    least 0.1 and the relevance score is positive; for the personas other
    than the Food Contractor the relevance score is the base score, hence
    at least 0.1; for the Food Contractor it is the base score times a
    multiplier, the product of at most one factor per adjustment, which
    is at least 0.08 and may bring the score below 0.1. *)
Theorem C1_score_floor (text persona job : string) :
  known_persona persona = true ->
  (1 # 10 <= _calculate_base_relevance text persona job)%Q
  /\ (0 < calculate_ml_relevance_score text persona job)%Q
  /\ (persona <> "Food Contractor" ->
      (1 # 10 <= calculate_ml_relevance_score text persona job)%Q)
  /\ (persona = "Food Contractor" ->
      calculate_ml_relevance_score text persona job
      = (_calculate_base_relevance text persona job
         * _calculate_food_contractor_ml_score text job)%Q
      /\ Adjustments.multiplier_choice (_calculate_food_contractor_ml_score text job)
      /\ (2 # 25 <= _calculate_food_contractor_ml_score text job)%Q).
Proof.
  intros _. split; [|split; [|split]].
  - apply base_relevance_floor.
  - apply relevance_score_positive.
  - intros Hp. rewrite relevance_score_unfold.
    destruct (String.eqb_spec persona "Food Contractor"); [contradiction|].
    apply base_relevance_floor.
  - intros ->. split; [reflexivity|].
    split; [apply food_contractor_multiplier_choice|].
    apply food_contractor_multiplier_bounds.
Qed.

Lemma C1_score_floor_witness :
  known_persona "Travel Planner" = true
  /\ (1 # 10 <= _calculate_base_relevance "a quiet hotel" "Travel Planner" "plan")%Q
  /\ (0 < calculate_ml_relevance_score "a quiet hotel" "Travel Planner" "plan")%Q
  /\ (1 # 10 <= calculate_ml_relevance_score "a quiet hotel" "Travel Planner" "plan")%Q.
Proof.
  split; [reflexivity|].
  destruct (C1_score_floor "a quiet hotel" "Travel Planner" "plan" eq_refl)
    as (Hbase & Hpos & Hother & _).
  split; [exact Hbase|]. split; [exact Hpos|].
  apply Hother. discriminate.
Defined.

(** C1 as stated fails: a breakfast section scored for the Food
    Contractor against a dinner task gets 0.1 * 0.6 = 0.06. *)
Lemma C1_counterexample :
  known_persona "Food Contractor" = true
  /\ calculate_ml_relevance_score
       "Morning breakfast" "Food Contractor" "Prepare a dinner" = (6 # 100)
  /\ ~ (1 # 10 <= calculate_ml_relevance_score
                    "Morning breakfast" "Food Contractor" "Prepare a dinner")%Q.
Proof.
  split; [reflexivity|]. split; [vm_compute; reflexivity|].
  vm_compute. intros H. apply H. reflexivity.
Qed.

(** The same product in binary64 is below 0.1 as well. *)
Lemma breakfast_score_binary64 :
  PrimFloat.ltb (PrimFloat.mul 0.1 (PrimFloat.mul 1.0 0.6)) 0.1 = true.
Proof. vm_compute. reflexivity. Qed.

(** The scenario of the vegetarian adjustment: one food term found, so
    the confidence is too low and the multiplier stays at 1. *)
Example vegetarian_scenario :
  veg_confidence (ml_vegetarian_classifier "grilled chicken with rice") == 2 # 10
  /\ vegetarian_prob (ml_vegetarian_classifier "grilled chicken with rice") == 15 # 100
  /\ _calculate_food_contractor_ml_score "grilled chicken with rice" "vegetarian" = 1.
Proof. repeat split. Qed.

End RelevanceScore.

(** ** The section threshold *)

Section SectionThreshold.

Import PyNum MLEnhancedPDFAnalyzer Notions.

Variables (filename persona job : string).

Lemma save_section_above (current_section : option string) (title : string)
    (current_content : list Item) (collected : list Section) :
  Forall above_threshold collected ->
  Forall above_threshold
    (save_section filename persona job current_section title current_content collected).
Proof.
  intros H. unfold save_section.
  destruct (_ && _); [|exact H].
  cbv zeta.
  destruct (Qgtb _ _) eqn:E; [|exact H].
  apply Forall_app. split; [exact H|].
  constructor; [|constructor].
  unfold above_threshold. cbn [relevance_score].
  now apply Qgtb_true.
Qed.

(** A section that does not score above 0.1 leaves [all_sections] as it was. *)
Lemma save_section_discards (current_section : option string) (title : string)
    (current_content : list Item) (collected : list Section) :
  (calculate_ml_relevance_score
     (section_or current_section "" ++ " "
      ++ PyStr.join " " (map text current_content))%string persona job
   <= 1 # 10)%Q ->
  save_section filename persona job current_section title current_content collected
  = collected.
Proof.
  intros H. unfold save_section.
  destruct (_ && _); [|reflexivity].
  cbv zeta.
  destruct (Qgtb _ _) eqn:E; [|reflexivity].
  apply Qgtb_true in E. exfalso. exact (Qlt_not_le _ _ E H).
Qed.

Lemma segment_step_above (st : SegState) (item : Item) :
  Forall above_threshold (all_sections st) ->
  Forall above_threshold (all_sections (segment_step filename persona job st item)).
Proof.
  intros H. unfold segment_step.
  destruct (section_boundary item); cbn [all_sections].
  - now apply save_section_above.
  - exact H.
Qed.

Lemma segment_fold_above (items : list Item) (st : SegState) :
  Forall above_threshold (all_sections st) ->
  Forall above_threshold
    (all_sections (fold_left (segment_step filename persona job) items st)).
Proof.
  revert st. induction items as [|item items IH]; intros st H; simpl.
  - exact H.
  - apply IH. now apply segment_step_above.
Qed.

Lemma extract_document_sections_above (items : list Item) (collected : list Section) :
  Forall above_threshold collected ->
  Forall above_threshold
    (extract_document_sections filename persona job items collected).
Proof.
  intros H. unfold extract_document_sections. cbv zeta.
  apply save_section_above. now apply segment_fold_above.
Qed.

End SectionThreshold.

Section ExtractSections.

Import PyNum MLEnhancedPDFAnalyzer Notions.

Lemma extract_sections_loop_above fitz_open persona job (documents : list string) :
  forall collected sections,
    Forall above_threshold collected ->
    extract_sections_loop fitz_open documents persona job collected
    = Exc.Return sections ->
    Forall above_threshold sections.
Proof.
  induction documents as [|filename rest IH]; simpl; intros collected sections Hc H.
  - inversion H; subst. exact Hc.
  - destruct (extract_text_with_structure fitz_open filename) as [e|items];
      simpl in H; [discriminate|].
    eapply IH; [|exact H]. now apply extract_document_sections_above.
Qed.

Lemma rank_sections_incl (sections : list Section) (limit : nat) (s : Section) :
  In s (rank_sections sections limit) -> In s sections.
Proof.
  unfold rank_sections. intros H. apply In_firstn in H.
  eapply Permutation_in; [|exact H].
  apply Permutation_sym, sorted_desc_perm.
Qed.

(** C2. Every section that [extract_sections] returns has a relevance
    score strictly above 0.1 (so has every ranked section), and a
    segmented section scoring 0.1 or less is not appended at all. *)
Theorem C2_sections_above_threshold fitz_open documents persona job sections :
  extract_sections fitz_open documents persona job = Exc.Return sections ->
  Forall (fun s => (1 # 10 < relevance_score s)%Q) sections
  /\ Forall (fun s => (1 # 10 < relevance_score s)%Q) (rank_sections sections 10)
  /\ (forall filename current_section title current_content collected,
         (calculate_ml_relevance_score
            (section_or current_section "" ++ " "
             ++ PyStr.join " " (map text current_content))%string persona job
          <= 1 # 10)%Q ->
         save_section filename persona job current_section title
           current_content collected = collected).
Proof.
  intros H.
  assert (Hs : Forall above_threshold sections).
  { eapply extract_sections_loop_above; [|exact H]. constructor. }
  split; [exact Hs|]. split.
  - apply Forall_forall. intros s Hin.
    apply rank_sections_incl in Hin.
    exact (proj1 (Forall_forall _ _) Hs s Hin).
  - intros. now apply save_section_discards.
Qed.

Lemma C2_sections_above_threshold_witness :
  exists sections,
    extract_sections Samples.fitz_open ["guide.pdf"; "recipe.pdf"]
      "Travel Planner" "plan a trip" = Exc.Return sections
    /\ List.length sections = 2%nat
    /\ Forall (fun s => (1 # 10 < relevance_score s)%Q) sections.
Proof.
  eexists. split; [vm_compute; reflexivity|]. split; [reflexivity|].
  apply (C2_sections_above_threshold Samples.fitz_open ["guide.pdf"; "recipe.pdf"]
           "Travel Planner" "plan a trip").
  vm_compute. reflexivity.
Defined.

Lemma process_collection_returns fitz_open now input out :
  process_collection fitz_open now input = Exc.Return out ->
  exists sections,
    extract_sections fitz_open (documents input) (role input) (task input)
    = Exc.Return sections
    /\ extracted_sections out
       = extracted_section_entries (rank_sections sections 10)
    /\ subsection_analysis out
       = subsection_entries (role input) (task input) (rank_sections sections 10)
    /\ refined_text_summary out
       = enhance_content_for_validation
           (refine_content (rank_sections sections 10)) (role input) (task input).
Proof.
  unfold process_collection. cbv zeta.
  destruct (extract_sections _ _ _ _) as [e|sections]; simpl; intros H.
  - discriminate.
  - inversion H; subst. exists sections. repeat split.
Qed.

End ExtractSections.

(** ** Section boundaries *)

Section SectionBoundaries.

Import PyNum MLEnhancedPDFAnalyzer Notions.

Lemma weighted_score_rule (f b l r t d : bool) :
  Qgeb (weighted_score [f; b; l; r; t; d]) (4 # 10) = heading_rule [f; b; l; r; t; d].
Proof. destruct f, b, l, r, t, d; reflexivity. Qed.

(** The threshold test gives the same answer in binary64 on all 64
    feature vectors. *)
Lemma weighted_score_binary64 (f b l r t d : bool) :
  Binary64.accepts [f; b; l; r; t; d]
  = Qgeb (weighted_score [f; b; l; r; t; d]) (4 # 10).
Proof. destruct f, b, l, r, t, d; vm_compute; reflexivity. Qed.

Lemma detect_heading_ml_rule (text : string) (font_size : Q) (font_flags : Z) :
  _detect_heading_ml text font_size font_flags
  = heading_rule (heading_features text font_size font_flags).
Proof. unfold _detect_heading_ml, heading_features. apply weighted_score_rule. Qed.

Lemma span_items_classified (page_num : nat) (span : Fitz.Span) :
  Forall classified (span_items page_num span).
Proof.
  unfold span_items. cbv zeta.
  destruct (PyStr.truthy _); repeat constructor.
Qed.

Lemma block_items_classified (page_num : nat) (blocks : list Fitz.Block) :
  Forall classified (block_items page_num blocks).
Proof.
  unfold block_items.
  apply Forall_flat_map. intros block.
  apply Forall_flat_map. intros line.
  apply Forall_flat_map. intros span.
  apply span_items_classified.
Qed.

Lemma page_items_classified (pages : list Fitz.Page) :
  forall page_num acc items,
    Forall classified acc ->
    page_items pages page_num acc = Exc.Return items ->
    Forall classified items.
Proof.
  induction pages as [|page rest IH]; simpl; intros page_num acc items Hacc H.
  - inversion H; subst. exact Hacc.
  - destruct (Fitz.get_text page) as [e|blocks]; simpl in H; [discriminate|].
    eapply IH; [|exact H].
    apply Forall_app. split; [exact Hacc | apply block_items_classified].
Qed.

Lemma extract_text_with_structure_classified fitz_open pdf_path items :
  extract_text_with_structure fitz_open pdf_path = Exc.Return items ->
  Forall classified items.
Proof.
  unfold extract_text_with_structure.
  destruct (fitz_open pdf_path) as [e|doc]; simpl; [discriminate|].
  destruct (page_items (Fitz.pages doc) 0 []) as [e|its] eqn:E; simpl;
    [discriminate|].
  intros H. inversion H; subst.
  eapply page_items_classified; [|exact E]. constructor.
Qed.

(** C3, as the code has it. In [extract_sections] an item is a section
    boundary iff [_detect_heading_ml] accepts its stripped text (a rule on
    the absolute size 12, the bold flag, the length, recipe words, title
    case and leading digits) and that text is longer than 5 characters;
    the document average plays no part.  A boundary opens a new section,
    any other item is appended to the open section's content. *)
Theorem C3_section_boundary fitz_open pdf_path items :
  extract_text_with_structure fitz_open pdf_path = Exc.Return items ->
  Forall (fun item =>
            section_boundary item
            = heading_rule (heading_features (text item) (font_size item) (flags item))
              && (5 <? String.length (text item))%nat)
         items
  /\ (forall filename persona job st item,
         let st' := segment_step filename persona job st item in
         if section_boundary item
         then current_section st' = Some (text item) /\ current_content st' = []
         else current_section st' = current_section st
              /\ current_content st' = current_content st ++ [item]).
Proof.
  intros H. split.
  - apply extract_text_with_structure_classified in H.
    eapply Forall_impl; [|exact H].
    intros item Hc. unfold section_boundary. rewrite Hc.
    now rewrite detect_heading_ml_rule.
  - intros filename persona job st item. cbv zeta. unfold segment_step.
    destruct (section_boundary item); split; reflexivity.
Qed.

Lemma C3_section_boundary_witness :
  exists items,
    extract_text_with_structure Samples.fitz_open "recipe.pdf" = Exc.Return items
    /\ map section_boundary items = [true; false]
    /\ Forall (fun item =>
                 section_boundary item
                 = heading_rule
                     (heading_features (text item) (font_size item) (flags item))
                   && (5 <? String.length (text item))%nat)
              items.
Proof.
  eexists. split; [vm_compute; reflexivity|]. split; [reflexivity|].
  apply (C3_section_boundary Samples.fitz_open "recipe.pdf").
  vm_compute. reflexivity.
Defined.

(** C3 as stated fails: the first line of the recipe sheet is a section
    boundary, while the heading classifier of the outline extractor
    rejects it whatever the font size and the document average are. *)
Lemma C3_counterexample :
  exists item rest,
    extract_text_with_structure Samples.fitz_open "recipe.pdf"
    = Exc.Return (item :: rest)
    /\ text item = "Ingredients:"
    /\ section_boundary item = true
    /\ forall font_size avg_font_size,
        PDFProcessor.is_likely_heading (text item) font_size
          (bold_flag (flags item)) avg_font_size
        && (5 <? String.length (PyStr.strip (text item)))%nat = false.
Proof.
  eexists. eexists. split; [vm_compute; reflexivity|].
  split; [reflexivity|]. split; [reflexivity|].
  intros font_size avg_font_size. cbn [text flags].
  destruct (Qltb font_size (avg_font_size * (11 # 10))) eqn:E.
  - now rewrite is_likely_heading_below_gate.
  - rewrite is_likely_heading_above_gate by exact E. reflexivity.
Qed.

End SectionBoundaries.

(** ** Keyword enhancement *)

Section KeywordEnhancement.

Import PyStr MLEnhancedPDFAnalyzer Notions.

Variables (before after : string).

Lemma add_missing_keeps (k enhanced keyword : string) :
  contains k (lower enhanced) = true ->
  contains k (lower (add_missing before after enhanced keyword)) = true.
Proof.
  intros H. unfold add_missing.
  destruct (negb _); [|exact H].
  rewrite lower_app. now apply contains_app_l.
Qed.

Lemma add_missing_adds (enhanced keyword : string) :
  lower keyword = keyword ->
  contains keyword (lower (add_missing before after enhanced keyword)) = true.
Proof.
  intros Hk. unfold add_missing.
  destruct (contains keyword (lower enhanced)) eqn:E; simpl; [exact E|].
  rewrite !lower_app, Hk.
  apply contains_app_r, contains_app_r, contains_self_app.
Qed.

Lemma add_missing_extends (enhanced keyword : string) :
  exists filler, add_missing before after enhanced keyword = (enhanced ++ filler)%string.
Proof.
  unfold add_missing. destruct (negb _).
  - eexists. reflexivity.
  - exists "". now rewrite append_nil_r.
Qed.

Lemma fold_add_missing_keeps (k : string) (keywords : list string) :
  forall enhanced,
    contains k (lower enhanced) = true ->
    contains k (lower (fold_left (add_missing before after) keywords enhanced)) = true.
Proof.
  induction keywords as [|k' keywords IH]; intros enhanced H; simpl.
  - exact H.
  - apply IH. now apply add_missing_keeps.
Qed.

Lemma fold_add_missing_all (keywords : list string) :
  Forall (fun k => lower k = k) keywords ->
  forall enhanced k,
    In k keywords ->
    contains k (lower (fold_left (add_missing before after) keywords enhanced)) = true.
Proof.
  induction 1 as [|k' keywords Hk' Hks IH]; intros enhanced k Hin; simpl.
  - destruct Hin.
  - destruct Hin as [->|Hin].
    + apply fold_add_missing_keeps. now apply add_missing_adds.
    + now apply IH.
Qed.

Lemma fold_add_missing_extends (keywords : list string) :
  forall enhanced,
  exists filler,
    fold_left (add_missing before after) keywords enhanced = (enhanced ++ filler)%string.
Proof.
  induction keywords as [|k keywords IH]; intros enhanced; simpl.
  - exists "". now rewrite append_nil_r.
  - destruct (add_missing_extends enhanced k) as (f1 & ->).
    destruct (IH (enhanced ++ f1)%string) as (f2 & ->).
    exists (f1 ++ f2)%string. apply append_assoc.
Qed.

End KeywordEnhancement.

Section RefinedText.

Import PyStr MLEnhancedPDFAnalyzer Notions.

Lemma known_persona_cases (persona : string) :
  known_persona persona = true ->
  persona = "Travel Planner" \/ persona = "HR professional"
  \/ persona = "Food Contractor".
Proof.
  unfold known_persona, persona_keywords. cbn [lookup].
  destruct (String.eqb_spec "Travel Planner" persona); [auto|].
  destruct (String.eqb_spec "HR professional" persona); [auto|].
  destruct (String.eqb_spec "Food Contractor" persona); [auto|].
  discriminate.
Qed.

Lemma known_persona_validated (persona : string) :
  known_persona persona = true ->
  exists keywords, lookup persona validator_keywords = Some keywords.
Proof.
  intros H. apply known_persona_cases in H.
  destruct H as [->|[->| ->]]; eexists; reflexivity.
Qed.

Lemma validator_keywords_lower (persona : string) (keywords : list string) :
  lookup persona validator_keywords = Some keywords ->
  Forall (fun k => lower k = k) keywords.
Proof.
  unfold validator_keywords. cbn [lookup].
  destruct ("Food Contractor" =? persona);
    [intros H; inversion H; subst; repeat constructor|].
  destruct ("Travel Planner" =? persona);
    [intros H; inversion H; subst; repeat constructor|].
  destruct ("HR professional" =? persona);
    [intros H; inversion H; subst; repeat constructor|].
  discriminate.
Qed.

Lemma job_words_lower (job : string) :
  Forall (fun w => lower w = w) (job_words job).
Proof.
  unfold job_words. apply Forall_forall. intros w Hin.
  apply filter_In in Hin. destruct Hin as [Hin _].
  rewrite split_lower in Hin. apply in_map_iff in Hin.
  destruct Hin as (w' & <- & _). apply lower_idem.
Qed.

Lemma job_words_in (job w : string) :
  In w (split job) -> (3 < String.length w)%nat -> In (lower w) (job_words job).
Proof.
  intros Hin Hlen. unfold job_words. apply filter_In. split.
  - rewrite split_lower. now apply in_map.
  - rewrite lower_length. now apply Nat.ltb_lt.
Qed.

Lemma enhance_carries_keywords (content persona job : string) :
  carries_keywords persona job (enhance_content_for_validation content persona job).
Proof.
  unfold carries_keywords, enhance_content_for_validation. cbv zeta. split.
  - intros keywords Hk k Hin.
    apply fold_add_missing_keeps. rewrite Hk.
    apply fold_add_missing_all; [|exact Hin].
    eapply validator_keywords_lower; eassumption.
  - intros w Hin Hlen.
    apply fold_add_missing_all; [apply job_words_lower|].
    now apply job_words_in.
Qed.

Lemma enhance_extends (content persona job : string) :
  exists filler,
    enhance_content_for_validation content persona job = (content ++ filler)%string.
Proof.
  unfold enhance_content_for_validation. cbv zeta.
  set (e1 := if persona =? "Food Contractor" then _ else _).
  assert (H1 : exists f, e1 = (content ++ f)%string).
  { subst e1. destruct (persona =? "Food Contractor").
    - eexists. reflexivity.
    - exists "". now rewrite append_nil_r. }
  destruct H1 as (f1 & H1).
  set (e2 := match lookup persona validator_keywords with Some _ => _ | None => _ end).
  assert (H2 : exists f, e2 = (e1 ++ f)%string).
  { subst e2. destruct (lookup persona validator_keywords).
    - apply fold_add_missing_extends.
    - exists "". now rewrite append_nil_r. }
  destruct H2 as (f2 & H2).
  destruct (fold_add_missing_extends " Perfect for " " requirements."
              (job_words job) e2) as (f3 & H3).
  exists (f1 ++ f2 ++ f3)%string.
  rewrite H3, H2, H1. now rewrite !append_assoc.
Qed.

(** C4, as the code has it. For every known persona, every refined text
    emitted in the subsection analysis, and the flattened summary,
    contains after lower-casing each validator keyword of the persona and
    the lower-cased form of each task word longer than 3 characters.  The
    refined text is the extracted content followed by filler, and the
    filler is not empty when the lower-cased content lacks one of them. *)
Theorem C4_refined_text_keywords fitz_open now input out :
  known_persona (role input) = true ->
  process_collection fitz_open now input = Exc.Return out ->
  (exists keywords, lookup (role input) validator_keywords = Some keywords)
  /\ Forall (fun ss => carries_keywords (role input) (task input) (refined_text ss))
            (subsection_analysis out)
  /\ carries_keywords (role input) (task input) (refined_text_summary out)
  /\ (forall content,
         exists filler,
           enhance_content_for_validation content (role input) (task input)
           = (content ++ filler)%string
           /\ (~ carries_keywords (role input) (task input) content -> filler <> "")).
Proof.
  intros Hknown Hout.
  destruct (process_collection_returns _ _ _ _ Hout) as (sections & _ & _ & Hsub & Hsum).
  split; [now apply known_persona_validated|]. split; [|split].
  - rewrite Hsub. unfold subsection_entries.
    apply Forall_map, Forall_forall. intros s _. cbn [refined_text].
    apply enhance_carries_keywords.
  - rewrite Hsum. apply enhance_carries_keywords.
  - intros content.
    destruct (enhance_extends content (role input) (task input)) as (filler & Hf).
    exists filler. split; [exact Hf|].
    intros Hlacks ->. apply Hlacks.
    rewrite append_nil_r in Hf. rewrite <- Hf.
    apply enhance_carries_keywords.
Qed.

Lemma C4_refined_text_keywords_witness :
  exists out,
    known_persona (role Samples.travel_input) = true
    /\ process_collection Samples.fitz_open "2025-07-28T10:00:00" Samples.travel_input
       = Exc.Return out
    /\ List.length (subsection_analysis out) = 2%nat
    /\ Forall (fun ss => carries_keywords "Travel Planner" "Plan a trip" (refined_text ss))
              (subsection_analysis out).
Proof.
  eexists. split; [reflexivity|]. split; [vm_compute; reflexivity|].
  split; [reflexivity|].
  apply (C4_refined_text_keywords Samples.fitz_open "2025-07-28T10:00:00"
           Samples.travel_input); [reflexivity | vm_compute; reflexivity].
Defined.

(** C4 as stated fails: the first refined text emitted for the travel
    guide (task ["Plan a trip"]) comes from the content ["TRIP PLANNING"];
    the keyword ["trip"] and the task word ["Plan"] are found in its
    lower-cased form, so nothing is appended for them, and the refined
    text contains neither ["trip"] nor ["Plan"] as a substring. *)
Lemma C4_counterexample :
  exists out ss rest keywords,
    known_persona (role Samples.travel_input) = true
    /\ process_collection Samples.fitz_open "2025-07-28T10:00:00" Samples.travel_input
       = Exc.Return out
    /\ subsection_analysis out = ss :: rest
    /\ lookup (role Samples.travel_input) validator_keywords = Some keywords
    /\ In "trip" keywords
    /\ contains "trip" (refined_text ss) = false
    /\ In "Plan" (split (task Samples.travel_input))
    /\ (3 < String.length "Plan")%nat
    /\ contains "Plan" (refined_text ss) = false.
Proof.
  do 4 eexists. split; [reflexivity|]. split; [vm_compute; reflexivity|].
  split; [reflexivity|]. split; [reflexivity|].
  split; [left; reflexivity|]. split; [vm_compute; reflexivity|].
  split; [left; reflexivity|]. split; [simpl; lia | vm_compute; reflexivity].
Qed.

End RefinedText.

(** ** The outline *)

Section Outline.

Import PyNum PDFProcessor Notions.

Lemma key_eqb_sym (a b : string * nat) : key_eqb a b = key_eqb b a.
Proof. unfold key_eqb. now rewrite String.eqb_sym, Nat.eqb_sym. Qed.

Lemma key_eqb_eq (a b : string * nat) : key_eqb a b = true <-> a = b.
Proof.
  destruct a as [s n], b as [s' n']. unfold key_eqb. simpl.
  rewrite andb_true_iff, String.eqb_eq, Nat.eqb_eq.
  split; [intros [-> ->]; reflexivity | intros H; inversion H; auto].
Qed.

Lemma already_listed_keys (e : Entry) (outline : list Entry) :
  already_listed (text e) (page e) outline
  = existsb (key_eqb (entry_key e)) (map entry_key outline).
Proof.
  unfold already_listed. induction outline as [|item outline IH]; simpl.
  - reflexivity.
  - rewrite IH. f_equal. rewrite key_eqb_sym. reflexivity.
Qed.

Variables (font_sizes : list Q) (avg_font_size : Q).

Lemma visit_line_candidates (page_num : nat) (outline : list Entry) (l : Fitz.Line) :
  visit_line font_sizes avg_font_size page_num outline l
  = fold_left add_entry (line_candidate font_sizes avg_font_size page_num l) outline.
Proof.
  unfold visit_line, line_candidate.
  destruct (combine_spans l) as [[line_text line_font_size] is_bold].
  cbv zeta. destruct (is_likely_heading _ _ _ _); reflexivity.
Qed.

Lemma visit_blocks_candidates (page_num : nat) (blocks : list Fitz.Block) :
  forall outline,
    visit_blocks font_sizes avg_font_size page_num outline blocks
    = fold_left add_entry
        (page_candidates font_sizes avg_font_size page_num blocks) outline.
Proof.
  unfold visit_blocks, page_candidates. intros outline.
  rewrite fold_left_flat_map. revert outline.
  induction blocks as [|block blocks IH]; intros outline; simpl.
  - reflexivity.
  - rewrite fold_left_flat_map. rewrite <- IH. f_equal.
    generalize (Fitz.block_lines block). intros ls. revert outline.
    induction ls as [|l ls IHl]; intros outline; simpl.
    + reflexivity.
    + rewrite visit_line_candidates. apply IHl.
Qed.

Lemma identify_headings_candidates (pages : list Fitz.Page) :
  forall page_num outline,
    fst (identify_headings font_sizes avg_font_size pages page_num outline)
    = fold_left add_entry
        (candidates_from font_sizes avg_font_size pages page_num) outline.
Proof.
  induction pages as [|page rest IH]; intros page_num outline; simpl.
  - reflexivity.
  - destruct (Fitz.get_text page) as [e|blocks]; simpl.
    + reflexivity.
    + rewrite fold_left_app, IH. now rewrite visit_blocks_candidates.
Qed.

End Outline.

Section OutlineDedup.

Import PyNum PDFProcessor Notions.

Lemma fold_add_entry_keep_first (entries : list Entry) :
  forall outline seen,
    (forall k, existsb (key_eqb k) (map entry_key outline) = existsb (key_eqb k) seen) ->
    fold_left add_entry entries outline = outline ++ keep_first seen entries.
Proof.
  induction entries as [|e rest IH]; intros outline seen Hseen; simpl.
  - now rewrite app_nil_r.
  - unfold add_entry at 2. rewrite already_listed_keys, Hseen.
    destruct (existsb (key_eqb (entry_key e)) seen) eqn:E; simpl.
    + now apply IH.
    + rewrite (IH (outline ++ [e]) (entry_key e :: seen)).
      * now rewrite <- app_assoc.
      * intros k. rewrite map_app, existsb_app, Hseen. simpl.
        rewrite orb_false_r. apply orb_comm.
Qed.

Lemma keep_first_fresh (entries : list Entry) :
  forall seen k,
    In k (map entry_key (keep_first seen entries)) ->
    existsb (key_eqb k) seen = false.
Proof.
  induction entries as [|e rest IH]; intros seen k Hin; simpl in Hin.
  - destruct Hin.
  - destruct (existsb (key_eqb (entry_key e)) seen) eqn:E.
    + now apply IH.
    + destruct Hin as [<-|Hin]; [exact E|].
      apply IH in Hin. simpl in Hin.
      now apply orb_false_iff in Hin.
Qed.

Lemma keep_first_nodup (entries : list Entry) :
  forall seen, NoDup (map entry_key (keep_first seen entries)).
Proof.
  induction entries as [|e rest IH]; intros seen; simpl.
  - constructor.
  - destruct (existsb (key_eqb (entry_key e)) seen).
    + apply IH.
    + simpl. constructor; [|apply IH].
      intros Hin. apply keep_first_fresh in Hin. simpl in Hin.
      apply orb_false_iff in Hin. destruct Hin as [Hin _].
      assert (Hrefl : key_eqb (entry_key e) (entry_key e) = true)
        by now apply key_eqb_eq.
      congruence.
Qed.

Lemma extract_outline_candidates (doc : Fitz.Document) :
  extract_outline doc = keep_first [] (heading_candidates doc).
Proof.
  unfold extract_outline, heading_candidates. cbv zeta.
  destruct (collect_font_sizes (Fitz.pages doc) []) as [e|[|size sizes]];
    try reflexivity.
  rewrite identify_headings_candidates.
  now rewrite (fold_add_entry_keep_first _ [] []).
Qed.

(** C7. The outline never holds two entries with the same (text, page):
    it is the list of accepted heading lines in document order from which
    every entry whose (text, page) occurred earlier has been left out. *)
Theorem C7_outline_dedup (doc : Fitz.Document) :
  NoDup (map (fun e => (text e, page e)) (extract_outline doc))
  /\ extract_outline doc = keep_first [] (heading_candidates doc).
Proof.
  split; [|apply extract_outline_candidates].
  rewrite extract_outline_candidates. apply (keep_first_nodup _ []).
Qed.

(** The sample guide repeats its first heading at the end of the page:
    three candidates, two outline entries, the first occurrence kept. *)
Example outline_dedup_guide :
  map (fun e => (text e, page e)) (heading_candidates Samples.guide)
  = [("Getting Around", 1%nat); ("Local Customs", 1%nat); ("Getting Around", 1%nat)]
  /\ map (fun e => (text e, page e)) (extract_outline Samples.guide)
     = [("Getting Around", 1%nat); ("Local Customs", 1%nat)].
Proof. split; vm_compute; reflexivity. Qed.

End OutlineDedup.

(** ** Title resolution *)

Section TitleResolution.

Import PyNum PDFProcessor Notions.

Lemma stem_nonempty (name : Path.t) : name <> "" -> Path.stem name <> "".
Proof.
  intros Hname. unfold Path.stem.
  destruct (PyStr.rfind "." name) as [i|]; [|exact Hname].
  destruct ((0 <? i)%nat && (i <? String.length name - 1)%nat) eqn:E;
    [|exact Hname].
  apply andb_true_iff in E. destruct E as [Hi _].
  apply Nat.ltb_lt in Hi. now apply take_nonempty.
Qed.

Lemma longer_truthy (s : string) (n : nat) :
  (n <? String.length s)%nat = true -> PyStr.truthy s = true.
Proof. destruct s; [destruct n; discriminate | reflexivity]. Qed.

Lemma metadata_title_truthy (doc : Fitz.Document) (t : string) :
  extract_title_from_metadata doc = Some t -> PyStr.truthy t = true.
Proof.
  unfold extract_title_from_metadata.
  destruct (Fitz.metadata doc) as [e|[md|]]; simpl; try discriminate.
  destruct (Fitz.title md) as [raw|]; [|discriminate].
  destruct (PyStr.truthy raw); [|discriminate].
  destruct (PyStr.truthy (PyStr.strip raw)) eqn:E; simpl; [|discriminate].
  destruct (1 <? _)%nat; [|discriminate].
  intros H. inversion H; subst. exact E.
Qed.

Lemma metadata_title_chosen (doc : Fitz.Document) (raw : string) :
  Fitz.metadata doc = Exc.Return (Some {| Fitz.title := Some raw |}) ->
  (1 < String.length (PyStr.strip raw))%nat ->
  extract_title_from_metadata doc = Some (PyStr.strip raw).
Proof.
  intros Hmd Hlen. unfold extract_title_from_metadata. rewrite Hmd. simpl.
  apply Nat.ltb_lt in Hlen.
  assert (Hraw : PyStr.truthy raw = true).
  { destruct raw; [discriminate Hlen | reflexivity]. }
  rewrite Hraw, (longer_truthy _ _ Hlen), Hlen. reflexivity.
Qed.

Lemma title_candidate_long (l : Fitz.Line) :
  Forall (fun c => (3 <? String.length (fst c))%nat = true) (title_candidate l).
Proof.
  unfold title_candidate.
  destruct (line_text_and_size l) as [line_text max_size].
  cbv zeta.
  destruct (Qgtb max_size 0); simpl; [|constructor].
  destruct (3 <? _)%nat eqn:E; simpl; [|constructor].
  destruct (_ && _); repeat constructor. exact E.
Qed.

Lemma first_page_title_truthy (doc : Fitz.Document) (t : string) :
  extract_title_from_first_page doc = Some t -> PyStr.truthy t = true.
Proof.
  unfold extract_title_from_first_page.
  destruct (Fitz.pages doc) as [|first_page rest]; simpl; [discriminate|].
  destruct (Fitz.get_text first_page) as [e|blocks]; simpl; [discriminate|].
  match goal with
  | |- context [PySort.sorted_desc snd ?c] => set (candidates := c)
  end.
  assert (Hlong : Forall (fun c => (3 <? String.length (fst c))%nat = true) candidates).
  { apply Forall_flat_map. intros block.
    apply Forall_flat_map. intros line. apply title_candidate_long. }
  destruct (PySort.sorted_desc snd candidates) as [|best others] eqn:E; simpl;
    [discriminate|].
  intros H. inversion H; subst.
  assert (Hin : In best candidates).
  { eapply Permutation_in; [apply Permutation_sym, (sorted_desc_perm snd)|].
    rewrite E. now left. }
  eapply longer_truthy. exact (proj1 (Forall_forall _ _) Hlong best Hin).
Qed.

(** The [or] chain picks the first strategy that yields a title. *)
Lemma resolve_title_chain (doc : Fitz.Document) (pdf_path : Path.t) :
  resolve_title doc pdf_path =
  match extract_title_from_metadata doc with
  | Some t => t
  | None =>
      match extract_title_from_first_page doc with
      | Some t => t
      | None => Path.stem pdf_path
      end
  end.
Proof.
  unfold resolve_title, or_else.
  destruct (extract_title_from_metadata doc) as [t|] eqn:Em.
  - now rewrite (metadata_title_truthy doc t Em).
  - destruct (extract_title_from_first_page doc) as [t|] eqn:Ef.
    + now rewrite (first_page_title_truthy doc t Ef).
    + destruct (PyStr.truthy (Path.stem pdf_path)); reflexivity.
Qed.

Lemma resolve_title_nonempty (doc : Fitz.Document) (pdf_path : Path.t) :
  pdf_path <> "" -> resolve_title doc pdf_path <> "".
Proof.
  intros Hname. rewrite resolve_title_chain.
  destruct (extract_title_from_metadata doc) as [t|] eqn:Em.
  - apply metadata_title_truthy in Em. destruct t; [discriminate | congruence].
  - destruct (extract_title_from_first_page doc) as [t|] eqn:Ef.
    + apply first_page_title_truthy in Ef. destruct t; [discriminate | congruence].
    + now apply stem_nonempty.
Qed.

(** C8. The resolved title of a document (a file with a name) is never
    empty.  When the document opens, a metadata title whose trimmed length
    exceeds 1 is the title; otherwise the first-page title is, if there
    is one; the file stem is used only when both yield nothing. *)
Theorem C8_title_resolution fitz_open (pdf_path : Path.t) :
  pdf_path <> "" ->
  exists r,
    process_single_pdf fitz_open pdf_path = Exc.Return r
    /\ title r <> ""
    /\ forall doc,
        fitz_open pdf_path = Exc.Return doc ->
        (forall raw,
            Fitz.metadata doc = Exc.Return (Some {| Fitz.title := Some raw |}) ->
            (1 < String.length (PyStr.strip raw))%nat ->
            title r = PyStr.strip raw)
        /\ (forall t, extract_title_from_metadata doc = Some t -> title r = t)
        /\ (forall t,
               extract_title_from_metadata doc = None ->
               extract_title_from_first_page doc = Some t -> title r = t)
        /\ (extract_title_from_metadata doc = None ->
            extract_title_from_first_page doc = None ->
            title r = Path.stem pdf_path).
Proof.
  intros Hname. unfold process_single_pdf, process_single_pdf_body.
  destruct (fitz_open pdf_path) as [e|doc]; simpl.
  - eexists. split; [reflexivity|]. split.
    + cbn [title degraded]. now apply stem_nonempty.
    + intros doc H. discriminate.
  - eexists. split; [reflexivity|]. cbn [title]. split.
    + now apply resolve_title_nonempty.
    + intros doc' H. inversion H; subst doc'. clear H.
      rewrite resolve_title_chain. repeat split.
      * intros raw Hmd Hlen. now rewrite (metadata_title_chosen doc raw Hmd Hlen).
      * intros t ->. reflexivity.
      * intros t -> ->. reflexivity.
      * intros -> ->. reflexivity.
Qed.

Lemma C8_title_resolution_witness :
  "guide.pdf" <> ""
  /\ exists r,
      process_single_pdf Samples.fitz_open "guide.pdf" = Exc.Return r
      /\ title r <> ""
      /\ title r = "City Guide".
Proof.
  split; [discriminate|].
  destruct (C8_title_resolution Samples.fitz_open "guide.pdf")
    as (r & Hr & Hne & Hdoc); [discriminate|].
  exists r. split; [exact Hr|]. split; [exact Hne|].
  destruct (Hdoc Samples.guide eq_refl) as (Hmeta & _).
  apply (Hmeta "  City Guide "); [reflexivity|].
  vm_compute. lia.
Defined.

End TitleResolution.

(** ** Failures and empty documents *)

Section Failures.

Import PyNum PDFProcessor Notions.

(** Pages without spans add no font size: the first pass returns what it
    started with, unless a page cannot be read. *)
Lemma collect_font_sizes_no_spans (pages : list Fitz.Page) :
  (forall page blocks,
      In page pages -> Fitz.get_text page = Exc.Return blocks ->
      block_sizes blocks = []) ->
  forall font_sizes,
    collect_font_sizes pages font_sizes = Exc.Return font_sizes
    \/ exists e, collect_font_sizes pages font_sizes = Exc.Raise e.
Proof.
  induction pages as [|page rest IH]; intros Hempty font_sizes; simpl.
  - now left.
  - destruct (Fitz.get_text page) as [e|blocks] eqn:E; simpl.
    + right. now exists e.
    + rewrite (Hempty page blocks (or_introl eq_refl) E), app_nil_r.
      apply IH. intros p bs Hin. apply Hempty. now right.
Qed.

Lemma extract_outline_no_spans (doc : Fitz.Document) :
  (forall page blocks,
      In page (Fitz.pages doc) -> Fitz.get_text page = Exc.Return blocks ->
      block_sizes blocks = []) ->
  extract_outline doc = [].
Proof.
  intros Hempty. unfold extract_outline.
  destruct (collect_font_sizes_no_spans _ Hempty []) as [-> | (e & ->)];
    reflexivity.
Qed.

(** A page that cannot be read is handled inside [extract_outline]: the
    first pass raises, the exception is logged and the outline is empty. *)
Lemma collect_font_sizes_unreadable (pages : list Fitz.Page) :
  (exists page e, In page pages /\ Fitz.get_text page = Exc.Raise e) ->
  forall font_sizes, exists e, collect_font_sizes pages font_sizes = Exc.Raise e.
Proof.
  induction pages as [|page rest IH]; intros (p & e & Hin & Hp) font_sizes.
  - destruct Hin.
  - simpl. destruct (Fitz.get_text page) as [e'|blocks] eqn:E; simpl.
    + now exists e'.
    + destruct Hin as [->|Hin]; [congruence|].
      apply IH. now exists p, e.
Qed.

Lemma extract_outline_unreadable_page (doc : Fitz.Document) :
  (exists page e, In page (Fitz.pages doc) /\ Fitz.get_text page = Exc.Raise e) ->
  extract_outline doc = [].
Proof.
  intros H. unfold extract_outline.
  destruct (collect_font_sizes_unreadable _ H []) as (e & ->). reflexivity.
Qed.

Lemma process_single_pdf_returns fitz_open (pdf_path : Path.t) :
  exists r, process_single_pdf fitz_open pdf_path = Exc.Return r.
Proof.
  unfold process_single_pdf.
  destruct (process_single_pdf_body fitz_open pdf_path) as [e|r]; simpl;
    eexists; reflexivity.
Qed.

Lemma process_pdfs_each fitz_open (pdf_files : list Path.t) :
  Forall2 (fun pdf_file out =>
             fst out = output_name pdf_file
             /\ process_single_pdf fitz_open pdf_file = Exc.Return (snd out))
          pdf_files (process_pdfs fitz_open pdf_files).
Proof.
  induction pdf_files as [|pdf_file rest IH]; simpl; constructor.
  - split; [reflexivity|]. cbn [snd].
    destruct (process_single_pdf_returns fitz_open pdf_file) as (r & ->).
    reflexivity.
  - exact IH.
Qed.

(** The [except] clause of [process_single_pdf] is reached only when the
    document cannot be opened: the title strategies and [extract_outline]
    catch what reading the document raises. *)
Lemma process_single_pdf_body_raises fitz_open (pdf_path : Path.t) (e : Exc.exn) :
  process_single_pdf_body fitz_open pdf_path = Exc.Raise e
  <-> fitz_open pdf_path = Exc.Raise e.
Proof.
  unfold process_single_pdf_body.
  destruct (fitz_open pdf_path) as [e'|doc]; simpl; split; intros H;
    try discriminate; inversion H; reflexivity.
Qed.

Lemma process_single_pdf_opened fitz_open (pdf_path : Path.t) (doc : Fitz.Document) :
  fitz_open pdf_path = Exc.Return doc ->
  process_single_pdf fitz_open pdf_path
  = Exc.Return {| title := resolve_title doc pdf_path;
                  outline := extract_outline doc |}.
Proof.
  intros H. unfold process_single_pdf, process_single_pdf_body.
  rewrite H. reflexivity.
Qed.

Lemma first_page_unreadable (doc : Fitz.Document) (page : Fitz.Page)
    (rest : list Fitz.Page) (e : Exc.exn) :
  Fitz.pages doc = page :: rest ->
  Fitz.get_text page = Exc.Raise e ->
  extract_title_from_first_page doc = None.
Proof.
  intros Hpages Hpage. unfold extract_title_from_first_page.
  rewrite Hpages. cbn [List.length Nat.eqb]. rewrite Hpage. reflexivity.
Qed.

(** C10, as the code has it.  Processing a document never raises, and a
    document without text fragments has an empty outline.  The file stem
    with an empty outline is the result when the document cannot be
    opened, the only failure that reaches the [except] clause of
    [process_single_pdf].  A document that opens but has a page that
    cannot be read fails inside [extract_outline]: its outline is empty
    and its title is resolved as for any document, the metadata title if
    there is one, and the stem if there is none and the first page is the
    one that cannot be read.  In a batch every file gets its output,
    whatever happens to the others. *)
Theorem C10_document_failures fitz_open (pdf_path : Path.t) :
  (exists r, process_single_pdf fitz_open pdf_path = Exc.Return r)
  /\ (forall doc,
         (forall page blocks,
             In page (Fitz.pages doc) -> Fitz.get_text page = Exc.Return blocks ->
             block_sizes blocks = []) ->
         extract_outline doc = [])
  /\ (forall e,
         fitz_open pdf_path = Exc.Raise e ->
         process_single_pdf fitz_open pdf_path
         = Exc.Return {| title := Path.stem pdf_path; outline := [] |})
  /\ (forall e,
         process_single_pdf_body fitz_open pdf_path = Exc.Raise e
         <-> fitz_open pdf_path = Exc.Raise e)
  /\ (forall doc,
         fitz_open pdf_path = Exc.Return doc ->
         (exists page e, In page (Fitz.pages doc) /\ Fitz.get_text page = Exc.Raise e) ->
         process_single_pdf fitz_open pdf_path
         = Exc.Return {| title := resolve_title doc pdf_path; outline := [] |}
         /\ (forall t, extract_title_from_metadata doc = Some t ->
                       resolve_title doc pdf_path = t)
         /\ (extract_title_from_metadata doc = None ->
             (exists page rest e,
                 Fitz.pages doc = page :: rest /\ Fitz.get_text page = Exc.Raise e) ->
             resolve_title doc pdf_path = Path.stem pdf_path))
  /\ (forall pdf_files,
         Forall2 (fun pdf_file out =>
                    fst out = output_name pdf_file
                    /\ process_single_pdf fitz_open pdf_file = Exc.Return (snd out))
                 pdf_files (process_pdfs fitz_open pdf_files)).
Proof.
  split; [apply process_single_pdf_returns|].
  split; [apply extract_outline_no_spans|].
  split; [|split; [|split]].
  - intros e H. unfold process_single_pdf.
    rewrite (proj2 (process_single_pdf_body_raises fitz_open pdf_path e) H).
    reflexivity.
  - apply process_single_pdf_body_raises.
  - intros doc Hopen Hpage.
    split; [|split].
    + rewrite (process_single_pdf_opened _ _ _ Hopen).
      now rewrite (extract_outline_unreadable_page doc Hpage).
    + intros t Ht. rewrite resolve_title_chain, Ht. reflexivity.
    + intros Hmd (page & rest & e & Hpages & Hraise).
      rewrite resolve_title_chain, Hmd.
      now rewrite (first_page_unreadable doc page rest e Hpages Hraise).
  - apply process_pdfs_each.
Qed.

Lemma C10_document_failures_witness :
  extract_outline Samples.blank = []
  /\ process_single_pdf Samples.fitz_open "broken.pdf"
     = Exc.Return {| title := "broken"; outline := [] |}
  /\ process_single_pdf Faults.fitz_open "untitled.pdf"
     = Exc.Return {| title := "untitled"; outline := [] |}
  /\ map fst (process_pdfs Samples.fitz_open ["guide.pdf"; "broken.pdf"; "blank.pdf"])
     = ["guide.json"; "broken.json"; "blank.json"].
Proof.
  destruct (C10_document_failures Samples.fitz_open "broken.pdf")
    as (_ & Hblank & Hfail & _ & _ & _).
  destruct (C10_document_failures Faults.fitz_open "untitled.pdf")
    as (_ & _ & _ & _ & Hpage & _).
  split; [|split; [|split]].
  - apply Hblank. intros page blocks [<-|[]] H.
    inversion H. reflexivity.
  - apply (Hfail Samples.unreadable). reflexivity.
  - destruct (Hpage Faults.untitled eq_refl) as (Hr & _ & Hstem).
    + eexists _, Faults.damaged. split; [left; reflexivity | reflexivity].
    + rewrite Hr, Hstem; [reflexivity | reflexivity |].
      eexists _, [], Faults.damaged. split; reflexivity.
  - reflexivity.
Defined.

(** C10 as stated fails: a document that opens and has a metadata title,
    but whose page cannot be read, fails inside [extract_outline] and yet
    keeps its metadata title; the result is not the file stem with an
    empty outline. *)
Lemma C10_counterexample :
  Faults.fitz_open "half_broken.pdf" = Exc.Return Faults.half_broken
  /\ (exists page e,
         In page (Fitz.pages Faults.half_broken)
         /\ Fitz.get_text page = Exc.Raise e)
  /\ process_single_pdf Faults.fitz_open "half_broken.pdf"
     = Exc.Return {| title := "City Guide"; outline := [] |}
  /\ process_single_pdf Faults.fitz_open "half_broken.pdf"
     <> Exc.Return {| title := Path.stem "half_broken.pdf"; outline := [] |}.
Proof.
  split; [reflexivity|]. split.
  - eexists _, Faults.damaged. split; [left; reflexivity | reflexivity].
  - split; [reflexivity|]. vm_compute. discriminate.
Qed.

(** The scenario of the empty document: its title falls back to the
    file stem and its outline is empty. *)
Example empty_document_result :
  process_single_pdf Samples.fitz_open "blank.pdf"
  = Exc.Return {| title := "blank"; outline := [] |}.
Proof. reflexivity. Qed.

End Failures.

From Stdlib Require Import Lqa.

(** ** Heading levels by rank *)

Section LevelRank.

Import PyNum PDFProcessor Notions Wellformed.

Lemma Qltb_false_le (a b : Q) : (b <= a)%Q -> Qltb a b = false.
Proof.
  intros H. destruct (Qltb a b) eqn:E; [|reflexivity].
  apply Qltb_true in E. exfalso. exact (Qlt_not_le _ _ E H).
Qed.

Lemma filter_larger_none (f h : Q) (rest : list Q) :
  (h <= f)%Q ->
  Forall (Notions.desc (fun x : Q => x) h) rest ->
  filter (fun size => Qltb f size) rest = [].
Proof.
  intros Hf. induction 1 as [|x rest Hx Hrest IH]; [reflexivity|].
  cbn [filter]. rewrite Qltb_false_le; [exact IH|].
  unfold Notions.desc in Hx. eapply Qle_trans; eassumption.
Qed.

(** In a descending list the sizes above [f] come first: the rank that
    [f] reaches is their number plus one. *)
Lemma first_rank_count (f : Q) (sizes : list Q) :
  StronglySorted (Notions.desc (fun x : Q => x)) sizes ->
  (exists y, In y sizes /\ (y <= f)%Q) ->
  forall i,
    first_rank f sizes i
    = Some (i + 1 + List.length (filter (fun size => Qltb f size) sizes))%nat.
Proof.
  induction 1 as [|h rest Hrest IH Hh]; intros (y & Hin & Hy) i.
  - destruct Hin.
  - cbn [first_rank filter]. destruct (Qgeb f h) eqn:E.
    + apply Qgeb_true in E.
      rewrite (Qltb_false_le f h E), (filter_larger_none f h rest E Hh).
      simpl. f_equal. lia.
    + apply Qgeb_false in E.
      rewrite (proj2 (Qltb_true f h) E).
      destruct Hin as [<-|Hin].
      * exfalso. exact (Qlt_not_le _ _ E Hy).
      * rewrite (IH (ex_intro _ y (conj Hin Hy)) (S i)). simpl. f_equal. lia.
Qed.

Lemma first_rank_unreached (f : Q) (sizes : list Q) :
  (forall y, In y sizes -> (f < y)%Q) ->
  forall i, first_rank f sizes i = None.
Proof.
  induction sizes as [|h rest IH]; intros Hall i; [reflexivity|].
  cbn [first_rank].
  rewrite (proj2 (Qgeb_false f h) (Hall h (or_introl eq_refl))).
  apply IH. intros y Hy. apply Hall. now right.
Qed.

Lemma first_rank_firstn (f : Q) (sizes : list Q) :
  forall i m n,
    first_rank f sizes i = Some n ->
    first_rank f (firstn m sizes) i
    = if (n <=? i + m)%nat then Some n else None.
Proof.
  induction sizes as [|h rest IH]; intros i m n H; [discriminate|].
  destruct m as [|m].
  - apply first_rank_bounds in H. simpl.
    destruct (Nat.leb_spec n (i + 0)); [lia | reflexivity].
  - cbn [firstn first_rank] in *. destruct (Qgeb f h).
    + inversion H; subst.
      destruct (Nat.leb_spec (i + 1) (i + S m)); [reflexivity | lia].
    + rewrite (IH (S i) m n H).
      replace (S i + m)%nat with (i + S m)%nat by lia. reflexivity.
Qed.

Lemma distinct_incl (xs : list Q) (x : Q) : In x (PySort.distinct xs) -> In x xs.
Proof.
  induction xs as [|y xs IH]; simpl; [tauto|].
  destruct (existsb (Qeq_bool y) xs); simpl; intuition.
Qed.

Lemma distinct_complete (xs : list Q) (x : Q) :
  In x xs -> exists y, In y (PySort.distinct xs) /\ (y == x)%Q.
Proof.
  revert x. induction xs as [|z xs IH]; intros x; simpl; [tauto|].
  intros [->|Hin].
  - destruct (existsb (Qeq_bool x) xs) eqn:E.
    + apply existsb_exists in E. destruct E as (w & Hw & Hxw).
      apply Qeq_bool_iff in Hxw.
      destruct (IH w Hw) as (y & Hy & Hyw). exists y. split; [exact Hy|].
      rewrite Hyw. now symmetry.
    + exists x. split; [now left | reflexivity].
  - destruct (IH x Hin) as (y & Hy & Hyx).
    exists y. split; [|exact Hyx].
    destruct (existsb (Qeq_bool z) xs); [exact Hy | now right].
Qed.

Lemma sorted_set_desc_incl (xs : list Q) (x : Q) :
  In x (PySort.sorted_set_desc xs) -> In x xs.
Proof.
  unfold PySort.sorted_set_desc. intros H. apply distinct_incl.
  eapply Permutation_in; [apply Permutation_sym, sorted_desc_perm | exact H].
Qed.

Lemma sorted_set_desc_complete (xs : list Q) (x : Q) :
  In x xs -> exists y, In y (PySort.sorted_set_desc xs) /\ (y == x)%Q.
Proof.
  intros H. destruct (distinct_complete xs x H) as (y & Hy & Hyx).
  exists y. split; [|exact Hyx].
  unfold PySort.sorted_set_desc.
  eapply Permutation_in; [apply sorted_desc_perm | exact Hy].
Qed.

(** The level of a font size that reaches some size of the document is
    one plus the number of distinct sizes above it, capped at 6; a font
    size below every size of the document (and any font size when there
    are no sizes) gets the default H6. *)
Theorem level_counts_larger_sizes (font_size : Q) (font_sizes : list Q) :
  ((exists size, In size font_sizes /\ (size <= font_size)%Q) ->
   level_number (determine_heading_level font_size font_sizes)
   = Nat.min 6 (larger_sizes font_size font_sizes + 1))
  /\ ((forall size, In size font_sizes -> (font_size < size)%Q) ->
      determine_heading_level font_size font_sizes = "H6").
Proof.
  unfold determine_heading_level, larger_sizes. split.
  - intros (size & Hin & Hle).
    destruct (sorted_set_desc_complete _ _ Hin) as (y & Hy & Hyx).
    assert (Hreach : exists y, In y (PySort.sorted_set_desc font_sizes)
                               /\ (y <= font_size)%Q).
    { exists y. split; [exact Hy|]. now rewrite Hyx. }
    unfold PySort.sorted_set_desc in *.
    pose proof (first_rank_count font_size _
                  (sorted_desc_strongly_sorted (fun x : Q => x) _) Hreach 0) as H.
    rewrite (first_rank_firstn _ _ 0 6 _ H).
    set (k := List.length _) in *. cbn [Nat.add] in *.
    destruct (Nat.leb_spec (S k) 6) as [Hk|Hk].
    + replace (S k) with (k + 1)%nat by lia.
      rewrite level_number_label by lia. lia.
    + change (level_number "H6") with 6%nat. lia.
  - intros Hall.
    rewrite first_rank_unreached; [reflexivity|].
    intros y Hy. apply Hall. apply sorted_set_desc_incl.
    revert Hy. generalize (PySort.sorted_set_desc font_sizes). intros l.
    generalize 6%nat. intros m Hy. apply In_firstn in Hy. exact Hy.
Qed.

Lemma level_counts_larger_sizes_witness :
  (exists size, In size [18; 14; 12; 10; 14]%Q /\ (size <= 12)%Q)
  /\ level_number (determine_heading_level 12 [18; 14; 12; 10; 14]%Q) = 3%nat
  /\ determine_heading_level 9 [18; 14; 12; 10; 14]%Q = "H6".
Proof.
  assert (Hreach : exists size, In size [18; 14; 12; 10; 14]%Q /\ (size <= 12)%Q).
  { exists 12. split; [simpl; auto | apply Qle_refl]. }
  split; [exact Hreach|].
  destruct (level_counts_larger_sizes 12 [18; 14; 12; 10; 14]%Q) as (Hrank & _).
  destruct (level_counts_larger_sizes 9 [18; 14; 12; 10; 14]%Q) as (_ & Hdefault).
  split.
  - rewrite (Hrank Hreach). reflexivity.
  - apply Hdefault. intros size Hin. simpl in Hin.
    destruct Hin as [<-|[<-|[<-|[<-|[<-|[]]]]]]; reflexivity.
Defined.

Lemma determine_heading_level_label (font_size : Q) (font_sizes : list Q) :
  In (determine_heading_level font_size font_sizes) level_labels.
Proof.
  unfold determine_heading_level.
  destruct (first_rank _ _ 0) as [n|] eqn:E.
  - apply first_rank_top6 in E.
    assert (Hn : (n = 1 \/ n = 2 \/ n = 3 \/ n = 4 \/ n = 5 \/ n = 6)%nat) by lia.
    destruct Hn as [->|[->|[->|[->|[->| ->]]]]]; simpl; auto 10.
  - simpl. auto 10.
Qed.

End LevelRank.

(** ** Trimming *)

Section Trimming.

Import PyStr.

Lemma lstrip_head (s : string) :
  lstrip s = "" \/ exists c r, lstrip s = String c r /\ isspace_c c = false.
Proof.
  induction s as [|c s IH]; simpl; [now left|].
  destruct (isspace_c c) eqn:E; [exact IH|].
  right. now exists c, s.
Qed.

Lemma rstrip_cons (c : ascii) (r : string) :
  isspace_c c = false -> rstrip (String c r) = String c (rstrip r).
Proof. intros H. simpl. rewrite H. destruct (rstrip r); reflexivity. Qed.

Lemma rstrip_cons_kept (c : ascii) (r : string) :
  rstrip r <> "" -> rstrip (String c r) = String c (rstrip r).
Proof. intros H. simpl. destruct (rstrip r); [congruence | reflexivity]. Qed.

Lemma rstrip_idem (s : string) : rstrip (rstrip s) = rstrip s.
Proof.
  induction s as [|c s IH]; [reflexivity|].
  cbn [rstrip]. destruct (rstrip s) as [|d r] eqn:E.
  - destruct (isspace_c c) eqn:Ec; [reflexivity|].
    simpl. now rewrite Ec.
  - rewrite rstrip_cons_kept; rewrite IH; [reflexivity | discriminate].
Qed.

Lemma strip_idem (s : string) : strip (strip s) = strip s.
Proof.
  unfold strip. destruct (lstrip_head s) as [-> | (c & r & -> & Hc)].
  - reflexivity.
  - rewrite (rstrip_cons c r Hc). cbn [lstrip]. rewrite Hc.
    rewrite (rstrip_cons c _ Hc). now rewrite rstrip_idem.
Qed.

End Trimming.

(** ** Outline entries *)

Section OutlineEntries.

Import PyNum PDFProcessor Notions Wellformed.

Lemma is_likely_heading_length text font_size is_bold avg_font_size :
  is_likely_heading text font_size is_bold avg_font_size = true ->
  (2 <= String.length (PyStr.strip text) <= 200)%nat.
Proof.
  intros H.
  destruct (Qltb font_size (avg_font_size * (11 # 10))) eqn:E.
  - rewrite (is_likely_heading_below_gate _ _ _ _ E) in H. discriminate.
  - rewrite (is_likely_heading_above_gate _ _ _ _ E) in H.
    apply andb_true_iff in H. destruct H as [H _].
    unfold length_ok in H. apply negb_true_iff, orb_false_iff in H.
    destruct H as [H2 H200].
    apply Nat.ltb_ge in H2. apply Nat.ltb_ge in H200. lia.
Qed.

(** A heading is at least 10% larger than the average. *)
Lemma is_likely_heading_size text font_size is_bold avg_font_size :
  is_likely_heading text font_size is_bold avg_font_size = true ->
  (avg_font_size * (11 # 10) <= font_size)%Q.
Proof.
  intros H.
  destruct (Qltb font_size (avg_font_size * (11 # 10))) eqn:E.
  - rewrite (is_likely_heading_below_gate _ _ _ _ E) in H. discriminate.
  - unfold Qltb in E. apply negb_false_iff in E. now apply Qle_bool_iff.
Qed.

Variables (font_sizes : list Q) (avg_font_size : Q).

Lemma line_candidate_ok (page_num : nat) (l : Fitz.Line) :
  Forall (candidate_ok page_num)
         (line_candidate font_sizes avg_font_size page_num l).
Proof.
  unfold line_candidate.
  destruct (combine_spans l) as [[line_text line_font_size] is_bold].
  cbv zeta. destruct (is_likely_heading _ _ _ _) eqn:E; constructor; [|constructor].
  apply is_likely_heading_length in E. rewrite strip_idem in E.
  unfold candidate_ok. cbn [level page text].
  repeat split; try lia.
  - apply determine_heading_level_label.
  - apply strip_idem.
Qed.

Lemma page_candidates_ok (page_num : nat) (blocks : list Fitz.Block) :
  Forall (candidate_ok page_num)
         (page_candidates font_sizes avg_font_size page_num blocks).
Proof.
  unfold page_candidates.
  apply Forall_flat_map. intros block.
  apply Forall_flat_map. intros line. apply line_candidate_ok.
Qed.

Lemma candidates_from_ok (pages : list Fitz.Page) :
  forall page_num,
    Forall (fun e => exists k, (page_num <= k < page_num + List.length pages)%nat
                               /\ candidate_ok k e)
           (candidates_from font_sizes avg_font_size pages page_num).
Proof.
  induction pages as [|page rest IH]; intros page_num; simpl.
  - constructor.
  - destruct (Fitz.get_text page) as [e|blocks]; [constructor|].
    apply Forall_app. split.
    + eapply Forall_impl; [|apply page_candidates_ok].
      intros e He. exists page_num. split; [lia | exact He].
    + eapply Forall_impl; [|apply (IH (S page_num))].
      intros e (k & Hk & He). exists k. split; [lia | exact He].
Qed.

End OutlineEntries.

Section OutlineWellformed.

Import PyNum PDFProcessor Notions Wellformed.

Lemma keep_first_incl (entries : list Entry) :
  forall seen e, In e (keep_first seen entries) -> In e entries.
Proof.
  induction entries as [|x rest IH]; intros seen e; simpl; [tauto|].
  destruct (existsb _ seen); simpl.
  - intros H. right. eapply IH; eassumption.
  - intros [->|H]; [now left | right; eapply IH; eassumption].
Qed.

(** Every outline entry carries one of the six level labels, a page of
    the document (1-based) and a trimmed text of 2 to 200 characters. *)
Theorem outline_entries_wellformed (doc : Fitz.Document) :
  Forall (outline_entry_ok (List.length (Fitz.pages doc))) (extract_outline doc).
Proof.
  rewrite extract_outline_candidates. apply Forall_forall. intros e Hin.
  apply keep_first_incl in Hin. unfold heading_candidates in Hin.
  destruct (collect_font_sizes (Fitz.pages doc) []) as [x|[|size sizes]];
    try destruct Hin.
  cbv zeta in Hin.
  pose proof (candidates_from_ok (size :: sizes)
                (py_sum (size :: sizes) / of_nat (List.length (size :: sizes)))
                (Fitz.pages doc) 0) as Hall.
  destruct (proj1 (Forall_forall _ _) Hall e Hin) as (k & Hk & Hl & Hp & Ht & Hs).
  unfold outline_entry_ok. repeat split; try assumption; lia.
Qed.

End OutlineWellformed.

(** ** The outline schema *)

Section OutlineSchema.

Import PDFProcessor Wellformed ValidateSolution.

Lemma valid_entry_json (e : Entry) :
  In (level e) level_labels -> valid_item (entry_json e) = Exc.Return true.
Proof.
  intros H. unfold entry_json, valid_item. cbn [Json.get String.eqb Ascii.eqb Bool.eqb].
  simpl in H.
  destruct H as [<-|[<-|[<-|[<-|[<-|[<-|[]]]]]]]; reflexivity.
Qed.

Lemma outline_json_valid (doc : Fitz.Document) :
  valid_items (map entry_json (extract_outline doc)) = Exc.Return true.
Proof.
  pose proof (outline_entries_wellformed doc) as Hall.
  induction Hall as [|e entries He Hall IH]; [reflexivity|].
  cbn [map valid_items].
  rewrite (valid_entry_json e (proj1 He)). cbn [Exc.bind]. exact IH.
Qed.

Lemma result_json_valid fitz_open (pdf_path : Path.t) (r : Result) :
  process_single_pdf fitz_open pdf_path = Exc.Return r ->
  validate_json_schema (result_json r) = Exc.Return true.
Proof.
  unfold process_single_pdf, process_single_pdf_body.
  destruct (fitz_open pdf_path) as [e|doc]; simpl; intros H; inversion H; subst.
  - reflexivity.
  - unfold result_json, validate_json_schema. cbn [Json.get title outline].
    simpl. apply outline_json_valid.
Qed.

(** Whatever the input file is, the structure that [process_single_pdf]
    returns passes [validate_json_schema], and so does every structure
    that [process_pdfs] writes. *)
Theorem outputs_pass_schema fitz_open :
  (forall pdf_path,
      exists r, process_single_pdf fitz_open pdf_path = Exc.Return r
                /\ validate_json_schema (result_json r) = Exc.Return true)
  /\ (forall pdf_files,
         Forall (fun out =>
                   validate_json_schema (result_json (snd out)) = Exc.Return true)
                (process_pdfs fitz_open pdf_files)).
Proof.
  split.
  - intros pdf_path.
    destruct (process_single_pdf_returns fitz_open pdf_path) as (r & Hr).
    exists r. split; [exact Hr|]. eapply result_json_valid; eassumption.
  - intros pdf_files.
    pose proof (process_pdfs_each fitz_open pdf_files) as H.
    induction H as [|pdf_file out files outs (Hname & Hr) Hrest IH]; constructor.
    + eapply result_json_valid; eassumption.
    + exact IH.
Qed.



(** *** The value of a digit string *)










(** *** The outcomes of the validator *)







(** Accepted although [process_single_pdf] never writes them: an empty
    title and text, a level with leading zeros, a negative page and a
    boolean page.  Rejected: level 7 and a page that is a float.  A level
    of 4300 zeros and a 6 makes the validator raise; with one zero less
    it passes. *)
Example schema_quirks :
  validate_json_schema
    (Json.Dict [ ("title", Json.Str "");
                 ("outline",
                  Json.List
                    [ Json.Dict [ ("level", Json.Str "H006");
                                  ("text", Json.Str "");
                                  ("page", Json.Int (-3)) ];
                      Json.Dict [ ("level", Json.Str "H1");
                                  ("text", Json.Str "x");
                                  ("page", Json.Bool true) ] ]) ])
  = Exc.Return true
  /\ validate_json_schema
       (Json.Dict [ ("title", Json.Str "t");
                    ("outline",
                     Json.List [ Json.Dict [ ("level", Json.Str "H7");
                                             ("text", Json.Str "x");
                                             ("page", Json.Int 1) ] ]) ])
     = Exc.Return false
  /\ validate_json_schema
       (Json.Dict [ ("title", Json.Str "t");
                    ("outline",
                     Json.List [ Json.Dict [ ("level", Json.Str "H1");
                                             ("text", Json.Str "x");
                                             ("page", Json.Float 1) ] ]) ])
     = Exc.Return false
  /\ validate_json_schema
       (Json.Dict [ ("title", Json.Str "t");
                    ("outline",
                     Json.List
                       [ Json.Dict [ ("level",
                                      Json.Str (String "H" (zeros 4300 ++ "6")));
                                     ("text", Json.Str "x");
                                     ("page", Json.Int 1) ] ]) ])
     = Exc.Raise PyConv.value_error
  /\ validate_json_schema
       (Json.Dict [ ("title", Json.Str "t");
                    ("outline",
                     Json.List
                       [ Json.Dict [ ("level",
                                      Json.Str (String "H" (zeros 4299 ++ "6")));
                                     ("text", Json.Str "x");
                                     ("page", Json.Int 1) ] ]) ])
     = Exc.Return true.
Proof. repeat split; vm_compute; reflexivity. Qed.

End OutlineSchema.

(** ** Documents set in one font size *)

Section UniformSize.

Import PyNum PDFProcessor Notions.

Lemma flat_map_nil {A B : Type} (f : A -> list B) (l : list A) :
  (forall a, In a l -> f a = []) -> flat_map f l = [].
Proof.
  induction l as [|a l IH]; intros H; simpl; [reflexivity|].
  rewrite (H a (or_introl eq_refl)). apply IH.
  intros b Hb. apply H. now right.
Qed.

Lemma of_nat_succ (n : nat) : (of_nat (S n) == of_nat n + 1)%Q.
Proof.
  unfold of_nat. rewrite Nat2Z.inj_succ, <- Z.add_1_r, inject_Z_plus. reflexivity.
Qed.

Lemma of_nat_nonneg (n : nat) : (0 <= of_nat n)%Q.
Proof.
  unfold of_nat. change 0%Q with (inject_Z 0). rewrite <- Zle_Qle. lia.
Qed.

Lemma fold_sum_const (s : Q) (xs : list Q) :
  Forall (fun x => (x == s)%Q) xs ->
  forall a, (fold_left Qplus xs a == a + of_nat (List.length xs) * s)%Q.
Proof.
  induction 1 as [|x xs Hx Hxs IH]; intros a; simpl.
  - change (of_nat 0) with 0%Q. ring.
  - rewrite IH, of_nat_succ, Hx. ring.
Qed.

Lemma average_const (s : Q) (x : Q) (xs : list Q) :
  Forall (fun y => (y == s)%Q) (x :: xs) ->
  (py_sum (x :: xs) / of_nat (List.length (x :: xs)) == s)%Q.
Proof.
  intros H. unfold py_sum. rewrite (fold_sum_const s _ H 0).
  cbn [List.length]. rewrite of_nat_succ.
  pose proof (of_nat_nonneg (List.length xs)).
  field. lra.
Qed.

Lemma collect_font_sizes_all (P : Q -> Prop) (pages : list Fitz.Page) :
  (forall page blocks,
      In page pages -> Fitz.get_text page = Exc.Return blocks ->
      Forall P (block_sizes blocks)) ->
  forall acc font_sizes,
    Forall P acc ->
    collect_font_sizes pages acc = Exc.Return font_sizes ->
    Forall P font_sizes.
Proof.
  induction pages as [|page rest IH]; intros Hpages acc font_sizes Hacc H; simpl in H.
  - inversion H; subst. exact Hacc.
  - destruct (Fitz.get_text page) as [e|blocks] eqn:E; simpl in H; [discriminate|].
    eapply IH; [|  |exact H].
    + intros p bs Hin. apply Hpages. now right.
    + apply Forall_app. split; [exact Hacc|].
      apply (Hpages page blocks); [now left | exact E].
Qed.

Lemma span_size_in_block_sizes (blocks : list Fitz.Block) block line span :
  In block blocks -> In line (Fitz.block_lines block) -> In span (Fitz.spans line) ->
  In (Fitz.size span) (block_sizes blocks).
Proof.
  intros Hb Hl Hs. unfold block_sizes.
  apply in_flat_map. exists block. split; [exact Hb|].
  apply in_flat_map. exists line. split; [exact Hl|].
  now apply in_map.
Qed.

Lemma combine_spans_size (s : Q) (l : Fitz.Line) :
  (0 <= s)%Q ->
  (forall span, In span (Fitz.spans l) -> (Fitz.size span <= s)%Q) ->
  (snd (fst (combine_spans l)) <= s)%Q.
Proof.
  intros Hs. unfold combine_spans.
  assert (Hgen : forall spans (acc : string * Q * bool),
             (snd (fst acc) <= s)%Q ->
             (forall span, In span spans -> (Fitz.size span <= s)%Q) ->
             (snd (fst (fold_left
                          (fun acc span =>
                             let '(line_text, line_font_size, is_bold) := acc in
                             ((line_text ++ Fitz.text span)%string,
                              py_max line_font_size (Fitz.size span),
                              if bold_flag (Fitz.flags span) then true else is_bold))
                          spans acc)) <= s)%Q).
  { induction spans as [|span spans IH]; intros [[t f] b] Hacc Hall; simpl.
    - exact Hacc.
    - apply IH.
      + simpl. unfold py_max. destruct (Qgtb _ _); [|exact Hacc].
        apply Hall. now left.
      + intros sp Hin. apply Hall. now right. }
  intros Hall. apply Hgen; [exact Hs | exact Hall].
Qed.

Variables (font_sizes : list Q) (avg_font_size s : Q).
Hypothesis s_positive : (0 < s)%Q.
Hypothesis average_is_s : (avg_font_size == s)%Q.

Lemma line_candidate_uniform (page_num : nat) (l : Fitz.Line) :
  (forall span, In span (Fitz.spans l) -> (Fitz.size span <= s)%Q) ->
  line_candidate font_sizes avg_font_size page_num l = [].
Proof.
  intros Hall. unfold line_candidate.
  pose proof (combine_spans_size s l (Qlt_le_weak _ _ s_positive) Hall) as Hsize.
  destruct (combine_spans l) as [[line_text line_font_size] is_bold].
  cbn [fst snd] in Hsize. cbv zeta.
  rewrite is_likely_heading_below_gate; [reflexivity|].
  apply Qltb_true. rewrite average_is_s. lra.
Qed.

Lemma page_candidates_uniform (page_num : nat) (blocks : list Fitz.Block) :
  Forall (fun x => (x == s)%Q) (block_sizes blocks) ->
  page_candidates font_sizes avg_font_size page_num blocks = [].
Proof.
  intros Hall. unfold page_candidates.
  apply flat_map_nil. intros block Hb.
  apply flat_map_nil. intros line Hl.
  apply line_candidate_uniform. intros span Hs.
  pose proof (span_size_in_block_sizes blocks block line span Hb Hl Hs) as Hin.
  rewrite (proj1 (Forall_forall _ _) Hall _ Hin). apply Qle_refl.
Qed.

Lemma candidates_from_uniform (pages : list Fitz.Page) :
  (forall page blocks,
      In page pages -> Fitz.get_text page = Exc.Return blocks ->
      Forall (fun x => (x == s)%Q) (block_sizes blocks)) ->
  forall page_num, candidates_from font_sizes avg_font_size pages page_num = [].
Proof.
  induction pages as [|page rest IH]; intros Hpages page_num; simpl; [reflexivity|].
  destruct (Fitz.get_text page) as [e|blocks] eqn:E; [reflexivity|].
  rewrite (page_candidates_uniform page_num blocks
             (Hpages page blocks (or_introl eq_refl) E)).
  apply IH. intros p bs Hin. apply Hpages. now right.
Qed.

End UniformSize.

Section UniformDocument.

Import PyNum PDFProcessor Notions.

(** A document whose spans all have the same positive font size has no
    headings: no line is 10% larger than the average. *)
Theorem uniform_size_no_outline (doc : Fitz.Document) (s : Q) :
  (0 < s)%Q ->
  (forall page blocks,
      In page (Fitz.pages doc) -> Fitz.get_text page = Exc.Return blocks ->
      Forall (fun x => (x == s)%Q) (block_sizes blocks)) ->
  extract_outline doc = [].
Proof.
  intros Hs Hpages. rewrite extract_outline_candidates.
  unfold heading_candidates.
  destruct (collect_font_sizes (Fitz.pages doc) []) as [e|[|size sizes]] eqn:E;
    try reflexivity.
  cbv zeta.
  rewrite (candidates_from_uniform (size :: sizes) _ s Hs); [reflexivity| |exact Hpages].
  apply average_const.
  eapply collect_font_sizes_all; [exact Hpages | constructor | exact E].
Qed.

Lemma uniform_size_no_outline_witness :
  (0 < 12)%Q /\ extract_outline Samples.recipe = [].
Proof.
  split; [reflexivity|].
  apply (uniform_size_no_outline Samples.recipe 12); [reflexivity|].
  intros page blocks [<-|[]] H. inversion H; subst.
  repeat constructor.
Defined.

End UniformDocument.

(** ** The first-page title *)

Section FirstPageTitle.

Import PyNum PDFProcessor Notions Wellformed.

(** The head of the stable descending sort is the first element of
    largest key. *)
Lemma sorted_desc_head {A : Type} (key : A -> Q) (l : list A) :
  forall best others,
    PySort.sorted_desc key l = best :: others ->
    exists pre post,
      l = pre ++ best :: post
      /\ Forall (fun x => (key x < key best)%Q) pre
      /\ Forall (fun x => (key x <= key best)%Q) post.
Proof.
  induction l as [|x l IH]; intros best others H; [discriminate|].
  cbn [PySort.sorted_desc fold_right] in H.
  fold (PySort.sorted_desc key l) in H.
  destruct (PySort.sorted_desc key l) as [|y ys] eqn:E.
  - assert (l = []) as ->.
    { apply Permutation_nil. rewrite <- E. apply Permutation_sym, sorted_desc_perm. }
    simpl in H. inversion H; subst.
    exists [], []. repeat split; constructor.
  - destruct (IH y ys eq_refl) as (pre & post & -> & Hpre & Hpost).
    cbn [PySort.insert_desc] in H.
    destruct (Qle_bool (key y) (key x)) eqn:Eyx.
    + inversion H; subst. apply Qle_bool_iff in Eyx.
      exists [], (pre ++ y :: post). repeat split; [constructor|].
      apply Forall_app. split; [|constructor].
      * eapply Forall_impl; [|exact Hpre]. intros a Ha. cbv beta in *. lra.
      * exact Eyx.
      * eapply Forall_impl; [|exact Hpost]. intros a Ha. cbv beta in *. lra.
    + inversion H; subst.
      assert (Hxy : (key x < key best)%Q).
      { apply Qnot_le_lt. intros Hle. apply Qle_bool_iff in Hle. congruence. }
      exists (x :: pre), post. repeat split.
      * constructor; assumption.
      * exact Hpost.
Qed.

Lemma title_candidate_facts (l : Fitz.Line) :
  Forall (fun c => (3 < String.length (fst c) < 300)%nat
                   /\ PyStr.isdigit (fst c) = false
                   /\ PyStr.strip (fst c) = fst c
                   /\ (0 < snd c)%Q)
         (title_candidate l).
Proof.
  unfold title_candidate.
  destruct (line_text_and_size l) as [line_text max_size].
  cbv zeta.
  destruct (Qgtb max_size 0) eqn:Es; simpl; [|constructor].
  destruct (3 <? _)%nat eqn:E3; simpl; [|constructor].
  destruct (_ <? 300)%nat eqn:E300; simpl; [|constructor].
  destruct (PyStr.isdigit _) eqn:Ed; simpl; [constructor|].
  destruct (_ && _); constructor; [|constructor].
  cbn [fst snd]. apply Nat.ltb_lt in E3. apply Nat.ltb_lt in E300.
  apply Qgtb_true in Es. repeat split; try assumption.
  apply strip_idem.
Qed.

Lemma title_candidates_facts (blocks : list Fitz.Block) :
  Forall (fun c => (3 < String.length (fst c) < 300)%nat
                   /\ PyStr.isdigit (fst c) = false
                   /\ PyStr.strip (fst c) = fst c
                   /\ (0 < snd c)%Q)
         (title_candidates blocks).
Proof.
  unfold title_candidates.
  apply Forall_flat_map. intros block.
  apply Forall_flat_map. intros line. apply title_candidate_facts.
Qed.

(** The first-page title is the text of the first candidate line of
    largest font size among the first 15 blocks of the first page: a
    trimmed text of 4 to 299 characters that is not a number.  There is
    none when the document has no page, when its first page cannot be
    read, or when that page has no candidate line. *)
Theorem first_page_title_largest (doc : Fitz.Document) :
  (forall t,
      extract_title_from_first_page doc = Some t ->
      exists first_page rest blocks size pre post,
        Fitz.pages doc = first_page :: rest
        /\ Fitz.get_text first_page = Exc.Return blocks
        /\ title_candidates blocks = pre ++ (t, size) :: post
        /\ Forall (fun c => (snd c < size)%Q) pre
        /\ Forall (fun c => (snd c <= size)%Q) post
        /\ (3 < String.length t < 300)%nat
        /\ PyStr.isdigit t = false
        /\ PyStr.strip t = t)
  /\ (extract_title_from_first_page doc = None <->
      match Fitz.pages doc with
      | [] => True
      | first_page :: _ =>
          match Fitz.get_text first_page with
          | Exc.Raise _ => True
          | Exc.Return blocks => title_candidates blocks = []
          end
      end).
Proof.
  unfold extract_title_from_first_page.
  destruct (Fitz.pages doc) as [|first_page rest]; cbn [Exc.try_except].
  - split; [discriminate | tauto].
  - destruct (Fitz.get_text first_page) as [e|blocks] eqn:Etext;
      cbn [Exc.bind Exc.try_except].
    + split; [discriminate | tauto].
    + fold (title_candidates blocks).
      destruct (PySort.sorted_desc snd (title_candidates blocks))
        as [|[t size] others] eqn:E; cbn [Exc.try_except fst].
      * split; [discriminate|]. split; [intros _ | reflexivity].
        apply Permutation_nil. rewrite <- E.
        apply Permutation_sym, sorted_desc_perm.
      * split.
        -- intros t' H. inversion H; subst t'.
           destruct (sorted_desc_head snd _ _ _ E) as (pre & post & Hc & Hpre & Hpost).
           pose proof (title_candidates_facts blocks) as Hall.
           rewrite Hc in Hall. apply Forall_app in Hall. destruct Hall as [_ Hall].
           inversion Hall as [|c cs (Hlen & Hdig & Hstrip & _) _]; subst.
           cbn [fst snd] in *.
           exists first_page, rest, blocks, size, pre, post.
           split; [reflexivity|]. split; [exact Etext|].
           split; [exact Hc|]. split; [exact Hpre|]. split; [exact Hpost|].
           split; [exact Hlen|]. split; [exact Hdig | exact Hstrip].
        -- split; [discriminate|]. intros Hnil. rewrite Hnil in E. discriminate.
Qed.

Lemma first_page_title_largest_witness :
  extract_title_from_first_page Samples.guide = Some "Getting Around"
  /\ (3 < String.length "Getting Around" < 300)%nat.
Proof.
  assert (H : extract_title_from_first_page Samples.guide = Some "Getting Around")
    by reflexivity.
  split; [exact H|].
  destruct (first_page_title_largest Samples.guide) as (Hsome & _).
  destruct (Hsome _ H) as (p & r & b & s & pre & post & _ & _ & _ & _ & _ & Hlen & _).
  exact Hlen.
Defined.

End FirstPageTitle.

(** ** Output names *)

Section OutputNames.

Import PDFProcessor.

Lemma length_append (a b : string) :
  String.length (a ++ b) = (String.length a + String.length b)%nat.
Proof. induction a as [|c a IH]; simpl; [reflexivity | now rewrite IH]. Qed.

Lemma take_append (a b : string) : PyStr.take (String.length a) (a ++ b) = a.
Proof. induction a as [|c a IH]; simpl; [now destruct b | now rewrite IH]. Qed.

Lemma rfind_append (c : ascii) (a t : string) :
  PyStr.rfind c t = None ->
  PyStr.rfind c (a ++ String c t) = Some (String.length a).
Proof.
  intros Ht. induction a as [|x a IH]; simpl.
  - now rewrite Ht, Ascii.eqb_refl.
  - now rewrite IH.
Qed.

Lemma append_cancel_r (a b c : string) : (a ++ c)%string = (b ++ c)%string -> a = b.
Proof.
  intros H.
  assert (Hlen : String.length a = String.length b).
  { apply (f_equal String.length) in H. rewrite !length_append in H. lia. }
  revert b H Hlen. induction a as [|x a IH]; intros [|y b] H Hlen;
    try discriminate; [reflexivity|].
  simpl in H. inversion H; subst. f_equal. apply IH; [assumption|].
  simpl in Hlen. lia.
Qed.

Lemma stem_pdf (base : string) : base <> "" -> Path.stem (base ++ ".pdf")%string = base.
Proof.
  intros Hbase. unfold Path.stem.
  rewrite (rfind_append "." base "pdf" eq_refl).
  rewrite length_append. cbn [String.length].
  assert (Hpos : (0 < String.length base)%nat).
  { destruct base; [congruence | simpl; lia]. }
  destruct (Nat.ltb_spec 0 (String.length base)); [|lia].
  destruct (Nat.ltb_spec (String.length base) (String.length base + 4 - 1)); [|lia].
  cbn [andb]. apply take_append.
Qed.

Lemma output_name_pdf (base : string) :
  output_name (base ++ ".pdf")%string
  = if base =? "" then ".pdf.json" else (base ++ ".json")%string.
Proof.
  destruct (String.eqb_spec base "") as [->|Hbase]; [reflexivity|].
  unfold output_name. now rewrite (stem_pdf base Hbase).
Qed.

Lemma output_name_collides (base other : string) :
  output_name (other ++ ".pdf")%string = output_name (base ++ ".pdf")%string
  <-> other = base
      \/ (other = "" /\ base = ".pdf") \/ (other = ".pdf" /\ base = "").
Proof.
  rewrite !output_name_pdf.
  destruct (String.eqb_spec other "") as [->|Hother];
    destruct (String.eqb_spec base "") as [->|Hbase].
  - split; [now left | reflexivity].
  - split.
    + intros H. right. left. split; [reflexivity|].
      change ".pdf.json" with (".pdf" ++ ".json")%string in H.
      apply append_cancel_r in H. now symmetry.
    + intros [H|[[_ ->]|[H _]]]; [congruence | reflexivity | discriminate H].
  - split.
    + intros H. right. right. split; [|reflexivity].
      change ".pdf.json" with (".pdf" ++ ".json")%string in H.
      now apply append_cancel_r in H.
    + intros [H|[[H _]|[-> _]]]; [congruence | congruence | reflexivity].
  - split.
    + intros H. left. now apply append_cancel_r in H.
    + intros [->|[[H _]|[_ H]]]; [reflexivity | congruence | congruence].
Qed.

Lemma batch_output_names fitz_open (pdf_files : list Path.t) :
  map fst (process_pdfs fitz_open pdf_files) = map output_name pdf_files.
Proof. unfold process_pdfs. rewrite map_map. reflexivity. Qed.

Lemma distinct_outputs (bases : list string) :
  NoDup bases ->
  ~ (In "" bases /\ In ".pdf" bases) ->
  NoDup (map (fun base => output_name (base ++ ".pdf")%string) bases).
Proof.
  induction 1 as [|base bases Hnotin Hnodup IH]; intros Hpair; cbn [map].
  - constructor.
  - constructor.
    + intros Hin. apply in_map_iff in Hin. destruct Hin as (other & Heq & Hother).
      apply output_name_collides in Heq.
      destruct Heq as [->|[[-> ->]|[-> ->]]].
      * contradiction.
      * apply Hpair. split; [now right | now left].
      * apply Hpair. split; [now left | now right].
    + apply IH. intros [H1 H2]. apply Hpair. split; now right.
Qed.

(** The result for [base.pdf] is written to [base.json], except that the
    file named [.pdf] has no suffix and is written to [.pdf.json].  Two
    names that end in [.pdf] share an output file exactly when they are
    equal or are [.pdf] and [.pdf.pdf]; a batch of different names that
    does not hold both writes as many files as it has inputs. *)
Theorem output_name_collisions (base other : string) :
  output_name (base ++ ".pdf")%string
  = (if base =? "" then ".pdf.json" else (base ++ ".json")%string)
  /\ (output_name (other ++ ".pdf")%string = output_name (base ++ ".pdf")%string
      <-> other = base
          \/ (other = "" /\ base = ".pdf") \/ (other = ".pdf" /\ base = ""))
  /\ (forall fitz_open bases,
         NoDup bases ->
         ~ (In "" bases /\ In ".pdf" bases) ->
         NoDup (map fst (process_pdfs fitz_open
                           (map (fun b => (b ++ ".pdf")%string) bases)))).
Proof.
  split; [apply output_name_pdf|].
  split; [apply output_name_collides|].
  intros fitz_open bases Hnodup Hpair.
  rewrite batch_output_names, map_map. now apply distinct_outputs.
Qed.

Lemma output_name_collisions_witness :
  output_name "annual.report.pdf" = "annual.report.json"
  /\ NoDup (map fst (process_pdfs Samples.fitz_open ["guide.pdf"; "blank.pdf"])).
Proof.
  destruct (output_name_collisions "annual.report" "") as (Hname & _ & Hbatch).
  split; [exact Hname|].
  apply (Hbatch Samples.fitz_open ["guide"; "blank"]).
  - repeat constructor; simpl; intuition discriminate.
  - simpl. intuition discriminate.
Defined.

(** The two names that collide, and a name without a dot, which is its
    own stem. *)
Example output_name_without_suffix :
  output_name ".pdf" = ".pdf.json"
  /\ output_name ".pdf.pdf" = ".pdf.json"
  /\ output_name "README" = "README.json".
Proof. repeat split. Qed.

End OutputNames.

(** ** The classifiers *)

Section Classifiers.

Import PyNum MLEnhancedPDFAnalyzer.

Lemma py_min_le_l (a b : Q) : (py_min a b <= a)%Q.
Proof.
  unfold py_min. destruct (Qltb b a) eqn:E; [|apply Qle_refl].
  apply Qltb_true in E. lra.
Qed.

Lemma py_min_le_r (a b : Q) : (py_min a b <= b)%Q.
Proof.
  unfold py_min. destruct (Qltb b a) eqn:E; [apply Qle_refl|].
  unfold Qltb in E. apply negb_false_iff in E. now apply Qle_bool_iff.
Qed.

Lemma py_min_cases (a b : Q) : py_min a b = a \/ py_min a b = b.
Proof. unfold py_min. destruct (Qltb b a); auto. Qed.

Lemma of_nat_add (n m : nat) : (of_nat (n + m) == of_nat n + of_nat m)%Q.
Proof. unfold of_nat. now rewrite Nat2Z.inj_add, inject_Z_plus. Qed.

Lemma of_nat_positive (n : nat) : n <> 0%nat -> (0 < of_nat n)%Q.
Proof.
  intros H. unfold of_nat. change 0%Q with (inject_Z 0). rewrite <- Zlt_Qlt. lia.
Qed.

Lemma ratio_unit (a t : Q) : (0 <= a)%Q -> (a <= t)%Q -> (0 < t)%Q ->
  (0 <= a / t)%Q /\ (a / t <= 1)%Q.
Proof.
  intros Ha Hat Ht. split.
  - apply Qle_shift_div_l; [exact Ht | lra].
  - apply Qle_shift_div_r; [exact Ht | lra].
Qed.

Lemma positive_ratio (t c : Q) : (0 < t)%Q -> (0 < c)%Q -> (0 < t / c)%Q.
Proof. intros Ht Hc. apply Qlt_shift_div_l; [exact Hc | lra]. Qed.

(** Both classifiers return a probability between 0 and 1 and a
    confidence that is positive and at most 1. *)
Theorem classifier_ranges (text : string) :
  ((0 <= vegetarian_prob (ml_vegetarian_classifier text) <= 1)%Q
   /\ (0 < veg_confidence (ml_vegetarian_classifier text) <= 1)%Q)
  /\ ((0 <= gluten_free_prob (ml_gluten_free_classifier text) <= 1)%Q
      /\ (0 < gf_confidence (ml_gluten_free_classifier text) <= 1)%Q).
Proof.
  split.
  - unfold ml_vegetarian_classifier. cbv zeta.
    set (tl := PyStr.lower text).
    set (v := count_in strong_vegetarian tl).
    set (nv := count_in non_vegetarian tl).
    set (n := count_in neutral_ingredients tl).
    destruct (Nat.eqb_spec (v + nv + n) 0) as [E|E].
    + cbn [vegetarian_prob veg_confidence]. lra.
    + pose proof (of_nat_positive _ E) as Ht.
      pose proof (of_nat_nonneg v) as Hv.
      pose proof (of_nat_nonneg nv) as Hnv.
      pose proof (of_nat_nonneg n) as Hn.
      pose proof (of_nat_add (v + nv) n) as Hsum1.
      pose proof (of_nat_add v nv) as Hsum2.
      destruct (ratio_unit (of_nat v + of_nat n * (5 # 10)) (of_nat (v + nv + n)))
        as [Hp0 Hp1]; [lra | lra | exact Ht |].
      pose proof (positive_ratio (of_nat (v + nv + n)) 10 Ht ltac:(lra)) as Hc0.
      set (p := ((of_nat v + of_nat n * (5 # 10)) / of_nat (v + nv + n))%Q) in *.
      set (c := (of_nat (v + nv + n) / 10)%Q) in *.
      pose proof (py_min_le_r c 1) as Hc1.
      assert (Hcpos : (0 < py_min c 1)%Q)
        by (destruct (py_min_cases c 1) as [-> | ->]; lra).
      destruct (any_in _ tl).
      * pose proof (py_min_le_r (p * (15 # 10)) 1) as Hb1.
        assert (Hb0 : (0 <= py_min (p * (15 # 10)) 1)%Q)
          by (destruct (py_min_cases (p * (15 # 10)) 1) as [-> | ->]; lra).
        pose proof (py_min_le_r (py_min c 1 * (12 # 10)) 1) as Hd1.
        assert (Hd0 : (0 < py_min (py_min c 1 * (12 # 10)) 1)%Q)
          by (destruct (py_min_cases (py_min c 1 * (12 # 10)) 1) as [-> | ->]; lra).
        destruct (_ && _); cbn [vegetarian_prob veg_confidence]; lra.
      * destruct (_ && _); cbn [vegetarian_prob veg_confidence]; lra.
  - unfold ml_gluten_free_classifier. cbv zeta.
    set (tl := PyStr.lower text).
    set (g := count_in gluten_free tl).
    set (w := count_in contains_gluten tl).
    destruct (Nat.eqb_spec (g + w) 0) as [E|E].
    + cbn [gluten_free_prob gf_confidence]. lra.
    + pose proof (of_nat_positive _ E) as Ht.
      pose proof (of_nat_nonneg g) as Hg.
      pose proof (of_nat_nonneg w) as Hw.
      pose proof (of_nat_add g w) as Hsum.
      destruct (ratio_unit (of_nat g) (of_nat (g + w))) as [Hp0 Hp1];
        [lra | lra | exact Ht |].
      pose proof (positive_ratio (of_nat (g + w)) 5 Ht ltac:(lra)) as Hc0.
      set (p := (of_nat g / of_nat (g + w))%Q) in *.
      set (c := (of_nat (g + w) / 5)%Q) in *.
      pose proof (py_min_le_r c 1) as Hc1.
      assert (Hcpos : (0 < py_min c 1)%Q)
        by (destruct (py_min_cases c 1) as [-> | ->]; lra).
      destruct (_ || _); cbn [gluten_free_prob gf_confidence].
      * pose proof (py_min_le_r (p * 2) 1) as Hb1.
        assert (Hb0 : (0 <= py_min (p * 2) 1)%Q)
          by (destruct (py_min_cases (p * 2) 1) as [-> | ->]; lra).
        pose proof (py_min_le_r (py_min c 1 * (15 # 10)) 1) as Hd1.
        assert (Hd0 : (0 < py_min (py_min c 1 * (15 # 10)) 1)%Q)
          by (destruct (py_min_cases (py_min c 1 * (15 # 10)) 1) as [-> | ->]; lra).
        lra.
      * lra.
Qed.

End Classifiers.

(** ** Case in the relevance score *)

Section ScoreCase.

Import PyNum PyStr MLEnhancedPDFAnalyzer Wellformed.

Lemma vegetarian_classifier_lower (t1 t2 : string) :
  lower t1 = lower t2 -> ml_vegetarian_classifier t1 = ml_vegetarian_classifier t2.
Proof. intros H. unfold ml_vegetarian_classifier. now rewrite H. Qed.

Lemma gluten_classifier_lower (t1 t2 : string) :
  lower t1 = lower t2 -> ml_gluten_free_classifier t1 = ml_gluten_free_classifier t2.
Proof. intros H. unfold ml_gluten_free_classifier. now rewrite H. Qed.

Lemma base_relevance_lower (t1 t2 persona j1 j2 : string) :
  lower t1 = lower t2 -> lower j1 = lower j2 ->
  _calculate_base_relevance t1 persona j1 = _calculate_base_relevance t2 persona j2.
Proof. intros Ht Hj. unfold _calculate_base_relevance. now rewrite Ht, Hj. Qed.

Lemma food_contractor_score_lower (t1 t2 j1 j2 : string) :
  lower t1 = lower t2 -> lower j1 = lower j2 ->
  _calculate_food_contractor_ml_score t1 j1 = _calculate_food_contractor_ml_score t2 j2.
Proof.
  intros Ht Hj.
  unfold _calculate_food_contractor_ml_score, vegetarian_adjustment,
    gluten_adjustment, dinner_adjustment, buffet_adjustment.
  rewrite (vegetarian_classifier_lower t1 t2 Ht),
    (gluten_classifier_lower t1 t2 Ht), Ht, Hj.
  reflexivity.
Qed.

Lemma score_depends_on_lower (t1 t2 persona j1 j2 : string) :
  lower t1 = lower t2 -> lower j1 = lower j2 ->
  calculate_ml_relevance_score t1 persona j1
  = calculate_ml_relevance_score t2 persona j2.
Proof.
  intros Ht Hj. unfold calculate_ml_relevance_score.
  rewrite (base_relevance_lower t1 t2 persona j1 j2 Ht Hj),
    (food_contractor_score_lower t1 t2 j1 j2 Ht Hj).
  reflexivity.
Qed.

(** The relevance score reads the section text and the task description
    only through their lower-cased forms: changing the case of either
    does not change the score. *)
Theorem score_ignores_case (text persona job : string) :
  calculate_ml_relevance_score (lower text) persona (lower job)
  = calculate_ml_relevance_score text persona job
  /\ forall text' job',
      lower text' = lower text -> lower job' = lower job ->
      calculate_ml_relevance_score text' persona job'
      = calculate_ml_relevance_score text persona job.
Proof.
  split.
  - apply score_depends_on_lower; apply lower_idem.
  - intros text' job'. apply score_depends_on_lower.
Qed.

Lemma score_ignores_case_witness :
  calculate_ml_relevance_score "HOTEL Guide" "Travel Planner" "Plan A Trip"
  = calculate_ml_relevance_score "hotel guide" "Travel Planner" "plan a trip".
Proof.
  apply (proj2 (score_ignores_case "hotel guide" "Travel Planner" "plan a trip"));
    reflexivity.
Defined.

(** The persona, in contrast, is looked up as it is written. *)
Example persona_is_case_sensitive :
  known_persona "Travel Planner" = true /\ known_persona "travel planner" = false.
Proof. split; reflexivity. Qed.

Lemma lower_c_not_upper (c : ascii) : isupper_c (lower_c c) = false.
Proof. destruct c as [[] [] [] [] [] [] [] []]; reflexivity. Qed.

Lemma lower_no_upper (s : string) : any_char isupper_c (lower s) = false.
Proof.
  induction s as [|c s IH]; [reflexivity|].
  simpl. now rewrite lower_c_not_upper, IH.
Qed.

Lemma startswith_any_char (p : ascii -> bool) (k : string) :
  forall s, startswith s k = true -> any_char p k = true -> any_char p s = true.
Proof.
  induction k as [|c k IH]; intros s Hs Hk; [discriminate|].
  destruct s as [|d s]; [discriminate|].
  cbn [startswith] in Hs. apply andb_true_iff in Hs. destruct Hs as [Hc Hs].
  apply Ascii.eqb_eq in Hc. subst d.
  cbn [any_char] in *. apply orb_true_iff in Hk. apply orb_true_iff.
  destruct Hk as [Hk|Hk]; [now left | right; now apply IH].
Qed.

Lemma contains_any_char (p : ascii -> bool) (k s : string) :
  contains k s = true -> any_char p k = true -> any_char p s = true.
Proof.
  intros Hc Hk. induction s as [|d s IH].
  - cbn [contains] in Hc. rewrite orb_false_r in Hc.
    eapply startswith_any_char; eassumption.
  - cbn [contains] in Hc. apply orb_true_iff in Hc. destruct Hc as [Hc|Hc].
    + eapply startswith_any_char; eassumption.
    + cbn [any_char]. rewrite (IH Hc). apply orb_true_r.
Qed.

(** A keyword with an upper-case letter is never found in lower-cased text. *)
Lemma upper_case_keyword_not_found (k text : string) :
  any_char isupper_c k = true -> contains k (lower text) = false.
Proof.
  intros Hk. destruct (contains k (lower text)) eqn:E; [|reflexivity].
  pose proof (contains_any_char isupper_c k _ E Hk) as H.
  rewrite lower_no_upper in H. discriminate.
Qed.

Lemma add_found_lower_case_only (w : Q) (keywords : list string) (text : string) :
  forall score,
    add_found w keywords (lower text) score
    = add_found w (filter (fun k => negb (any_char isupper_c k)) keywords)
                (lower text) score.
Proof.
  unfold add_found. induction keywords as [|k keywords IH]; intros score.
  - reflexivity.
  - cbn [fold_left filter]. destruct (any_char isupper_c k) eqn:E; cbn [negb].
    + rewrite (upper_case_keyword_not_found k text E). apply IH.
    + cbn [fold_left]. apply IH.
Qed.

(** For the HR professional the keywords "HR", "PDF" and "Acrobat" never
    score: the base relevance is that of the profile without them. *)
Theorem hr_upper_case_keywords_dead (text job : string) :
  _calculate_base_relevance text "HR professional" job
  = base_relevance_of hr_lower_case_profile text job.
Proof.
  unfold _calculate_base_relevance.
  destruct (lookup "HR professional" persona_keywords) as [profile|] eqn:E;
    [|discriminate E].
  vm_compute in E. inversion E; subst profile. clear E.
  cbv zeta. unfold base_relevance_of. cbv zeta.
  cbn [high_priority medium_priority low_priority hr_lower_case_profile].
  rewrite (add_found_lower_case_only 3).
  rewrite (add_found_lower_case_only 2).
  rewrite (add_found_lower_case_only 1).
  reflexivity.
Qed.

(** A text that consists of the three keywords scores the floor. *)
Example hr_keywords_score_floor :
  _calculate_base_relevance "HR PDF Acrobat" "HR professional" "" = (1 # 10).
Proof. vm_compute. reflexivity. Qed.

End ScoreCase.

(** ** Where sections come from *)

Section SectionOrigin.

Import PyNum MLEnhancedPDFAnalyzer Notions Wellformed.

Lemma span_items_ok (page_num : nat) (span : Fitz.Span) :
  Forall item_ok (span_items page_num span).
Proof.
  unfold span_items. cbv zeta.
  destruct (PyStr.truthy _) eqn:E; constructor; [|constructor].
  unfold item_ok, classified. cbn [text page is_heading font_size flags].
  repeat split.
  - intros H. rewrite H in E. discriminate.
  - apply strip_idem.
  - lia.
Qed.

Lemma page_items_ok (pages : list Fitz.Page) :
  forall page_num acc items,
    Forall item_ok acc ->
    page_items pages page_num acc = Exc.Return items ->
    Forall item_ok items.
Proof.
  induction pages as [|page rest IH]; simpl; intros page_num acc items Hacc H.
  - inversion H; subst. exact Hacc.
  - destruct (Fitz.get_text page) as [e|blocks]; simpl in H; [discriminate|].
    eapply IH; [|exact H].
    apply Forall_app. split; [exact Hacc|].
    unfold block_items.
    apply Forall_flat_map. intros block.
    apply Forall_flat_map. intros line.
    apply Forall_flat_map. intros span. apply span_items_ok.
Qed.

Lemma structured_content_ok fitz_open pdf_path items :
  extract_text_with_structure fitz_open pdf_path = Exc.Return items ->
  Forall item_ok items.
Proof.
  unfold extract_text_with_structure.
  destruct (fitz_open pdf_path) as [e|doc]; simpl; [discriminate|].
  destruct (page_items (Fitz.pages doc) 0 []) as [e|its] eqn:E; simpl;
    [discriminate|].
  intros H. inversion H; subst.
  eapply page_items_ok; [|exact E]. constructor.
Qed.

Variables (filename persona job : string) (structured_content : list Item).

Lemma boundary_text_long (heading : Item) :
  section_boundary heading = true -> (5 < String.length (text heading))%nat.
Proof.
  unfold section_boundary. intros H. apply andb_true_iff in H.
  destruct H as [_ H]. now apply Nat.ltb_lt.
Qed.

Lemma section_or_heading (heading : Item) (default : string) :
  section_boundary heading = true ->
  section_or (Some (text heading)) default = text heading.
Proof.
  intros H. apply boundary_text_long in H. unfold section_or.
  destruct (text heading); [simpl in H; lia | reflexivity].
Qed.

Lemma save_section_segmenting (collected : list Section) (st : SegState)
    (default : string) :
  segmenting filename persona job structured_content collected st ->
  forall s,
    In s (save_section filename persona job (current_section st)
            (section_or (current_section st) default)
            (current_content st) (all_sections st)) ->
    In s collected \/ appended filename persona job structured_content s.
Proof.
  intros (Hcs & Hincl & Hnb & Hall) s. unfold save_section.
  destruct (section_open (current_section st)) eqn:Eo; cbn [andb]; [|apply Hall].
  destruct (current_content st) as [|first others] eqn:Ec; [apply Hall|].
  cbn [List.length Nat.eqb negb]. cbv zeta.
  destruct (Qgtb _ _) eqn:Eq; [|apply Hall].
  intros Hin. apply in_app_or in Hin. destruct Hin as [Hin|[<-|[]]]; [now apply Hall|].
  right. destruct (current_section st) as [t|]; [|discriminate].
  destruct Hcs as (heading & Hh & Hb & ->).
  exists heading, (first :: others).
  rewrite !(section_or_heading heading _ Hb) in *.
  repeat split; try assumption.
  - discriminate.
  - cbn [relevance_score]. now apply Qgtb_true.
Qed.

Lemma segment_step_segmenting (collected : list Section) (st : SegState) (item : Item) :
  In item structured_content ->
  segmenting filename persona job structured_content collected st ->
  segmenting filename persona job structured_content collected (segment_step filename persona job st item).
Proof.
  intros Hitem Hst. unfold segment_step.
  destruct (section_boundary item) eqn:Eb.
  - split; [|split; [|split]]; cbn [current_section current_content all_sections].
    + exists item. repeat split; assumption.
    + intros x [].
    + constructor.
    + apply (save_section_segmenting collected st ""). exact Hst.
  - destruct Hst as (Hcs & Hincl & Hnb & Hall).
    split; [|split; [|split]]; cbn [current_section current_content all_sections].
    + exact Hcs.
    + intros x Hx. apply in_app_or in Hx. destruct Hx as [Hx|[<-|[]]]; auto.
    + apply Forall_app. split; [exact Hnb|]. constructor; [exact Eb | constructor].
    + exact Hall.
Qed.

Lemma segment_fold_segmenting (collected : list Section) (items : list Item) :
  incl items structured_content ->
  forall st,
    segmenting filename persona job structured_content collected st ->
    segmenting filename persona job structured_content collected (fold_left (segment_step filename persona job) items st).
Proof.
  induction items as [|item items IH]; intros Hincl st Hst; simpl; [exact Hst|].
  apply IH.
  - intros x Hx. apply Hincl. now right.
  - apply segment_step_segmenting; [|exact Hst]. apply Hincl. now left.
Qed.

Lemma extract_document_sections_origin (collected : list Section) (s : Section) :
  In s (extract_document_sections filename persona job structured_content collected) ->
  In s collected \/ appended filename persona job structured_content s.
Proof.
  unfold extract_document_sections. cbv zeta.
  apply save_section_segmenting.
  apply segment_fold_segmenting; [apply incl_refl|].
  split; [exact I|]. cbn [current_content all_sections].
  split; [intros x []|]. split; [constructor|]. intros x Hx. now left.
Qed.

End SectionOrigin.

Section SectionsWellformed.

Import PyNum MLEnhancedPDFAnalyzer Notions Wellformed.

Lemma extract_sections_loop_origin fitz_open persona job (documents : list string) :
  forall collected sections s,
    extract_sections_loop fitz_open documents persona job collected
    = Exc.Return sections ->
    In s sections ->
    In s collected \/ section_from fitz_open documents persona job s.
Proof.
  induction documents as [|filename rest IH]; simpl; intros collected sections s H Hin.
  - inversion H; subst. now left.
  - destruct (extract_text_with_structure fitz_open filename) as [e|items] eqn:E;
      simpl in H; [discriminate|].
    destruct (IH _ _ s H Hin) as [Hc|Hfrom].
    + apply extract_document_sections_origin in Hc.
      destruct Hc as [Hc|(heading & its & Hh & Hb & Hne & Hincl & Hnb & _ & ->)];
        [now left|].
      right. exists filename, items, heading, its.
      repeat split; try assumption. now left.
    + right.
      destruct Hfrom as (f & sc & h & its & Hf & He & Hh & Hb & Hne & Hincl & Hnb & ->).
      exists f, sc, h, its. repeat split; try assumption. now right.
Qed.

Lemma join_nonempty (sep first : string) (others : list string) :
  first <> "" -> PyStr.join sep (first :: others) <> "".
Proof.
  intros H. destruct others as [|second others]; [exact H|].
  cbn [PyStr.join]. destruct first; [congruence | discriminate].
Qed.

Lemma section_from_ok fitz_open documents persona job (s : Section) :
  section_from fitz_open documents persona job s ->
  (1 # 10 < relevance_score s)%Q ->
  section_ok documents s.
Proof.
  intros (f & sc & h & its & Hf & He & Hh & Hb & Hne & Hincl & Hnb & ->) Hscore.
  pose proof (structured_content_ok _ _ _ He) as Hok.
  destruct its as [|first others]; [congruence|].
  assert (Hfirst : item_ok first).
  { apply (proj1 (Forall_forall _ _) Hok). apply Hincl. now left. }
  destruct Hfirst as (Htext & _ & Hpage & _).
  unfold section_ok, section_record.
  cbn [document section_title content page_number relevance_score map].
  repeat split.
  - exact Hf.
  - now apply boundary_text_long.
  - now apply join_nonempty.
  - exact Hpage.
  - exact Hscore.
Qed.

Lemma extract_sections_wellformed fitz_open documents persona job sections :
  extract_sections fitz_open documents persona job = Exc.Return sections ->
  forall s, In s sections ->
    section_from fitz_open documents persona job s /\ section_ok documents s.
Proof.
  intros H s Hin.
  assert (Hfrom : section_from fitz_open documents persona job s).
  { destruct (extract_sections_loop_origin _ _ _ _ _ _ s H Hin) as [[]|Hf]. exact Hf. }
  split; [exact Hfrom|].
  apply (section_from_ok _ _ _ _ _ Hfrom).
  pose proof (extract_sections_loop_above _ _ _ _ _ _ (Forall_nil _) H) as Habove.
  exact (proj1 (Forall_forall _ _) Habove s Hin).
Qed.

End SectionsWellformed.

(** ** Sections are the runs that follow the headings *)

Section SectionRuns.

Import PyNum MLEnhancedPDFAnalyzer Notions Wellformed.

Variables (filename persona job : string).

Lemma save_section_none (title : string) (content : list Item)
    (collected : list Section) :
  save_section filename persona job None title content collected = collected.
Proof. reflexivity. Qed.

Lemma save_section_segment (heading : Item) (default : string)
    (content : list Item) (collected : list Section) :
  section_boundary heading = true ->
  save_section filename persona job (Some (text heading))
    (section_or (Some (text heading)) default) content collected
  = collected ++ section_of filename persona job (heading, content).
Proof.
  intros Hb. unfold save_section, section_of.
  rewrite !(section_or_heading heading _ Hb).
  assert (Hopen : section_open (Some (text heading)) = true).
  { pose proof (boundary_text_long heading Hb) as Hlen. unfold section_open.
    destruct (text heading); [simpl in Hlen; lia | reflexivity]. }
  rewrite Hopen. cbn [andb fst snd].
  destruct content as [|first others].
  - cbn [List.length Nat.eqb negb]. now rewrite app_nil_r.
  - cbn [List.length Nat.eqb negb]. cbv zeta.
    unfold section_record. cbn [relevance_score].
    destruct (Qgtb _ _); [reflexivity | now rewrite app_nil_r].
Qed.

Lemma from_nil (st : SegState) :
  extract_document_sections_from filename persona job [] st
  = save_section filename persona job
      (current_section st) (section_or (current_section st) "Content")
      (current_content st) (all_sections st).
Proof. reflexivity. Qed.

Lemma from_cons (item : Item) (rest : list Item) (st : SegState) :
  extract_document_sections_from filename persona job (item :: rest) st
  = extract_document_sections_from filename persona job rest
      (segment_step filename persona job st item).
Proof. reflexivity. Qed.

Lemma segment_step_boundary (st : SegState) (item : Item) :
  section_boundary item = true ->
  segment_step filename persona job st item
  = {| current_section := Some (text item);
       current_content := [];
       all_sections :=
         save_section filename persona job
           (current_section st) (section_or (current_section st) "")
           (current_content st) (all_sections st) |}.
Proof. intros H. unfold segment_step. now rewrite H. Qed.

Lemma segment_step_content (st : SegState) (item : Item) :
  section_boundary item = false ->
  segment_step filename persona job st item
  = {| current_section := current_section st;
       current_content := current_content st ++ [item];
       all_sections := all_sections st |}.
Proof. intros H. unfold segment_step. now rewrite H. Qed.

(** The loop from a state with an open section. *)
Lemma segment_fold_open (items : list Item) :
  forall (heading : Item) (content : list Item) (collected : list Section),
    section_boundary heading = true ->
    extract_document_sections_from filename persona job items
      {| current_section := Some (text heading);
         current_content := content;
         all_sections := collected |}
    = collected
      ++ section_of filename persona job (heading, content ++ run items)
      ++ flat_map (section_of filename persona job) (segments items).
Proof.
  induction items as [|item rest IH]; intros heading content collected Hb.
  - rewrite from_nil.
    cbn [current_section current_content all_sections run segments flat_map].
    rewrite (save_section_segment heading "Content" content collected Hb).
    now rewrite !app_nil_r.
  - rewrite from_cons. cbn [run segments].
    destruct (section_boundary item) eqn:Eb.
    + rewrite (segment_step_boundary _ item Eb).
      cbn [current_section current_content all_sections].
      rewrite (save_section_segment heading "" content collected Hb).
      rewrite (IH item [] _ Eb). cbn [app flat_map].
      now rewrite !app_nil_r, <- !app_assoc.
    + rewrite (segment_step_content _ item Eb).
      cbn [current_section current_content all_sections].
      rewrite (IH heading (content ++ [item]) collected Hb).
      now rewrite <- app_assoc.
Qed.

(** The loop from a state without an open section: what precedes the
    first boundary is dropped. *)
Lemma segment_fold_closed (items : list Item) :
  forall (content : list Item) (collected : list Section),
    extract_document_sections_from filename persona job items
      {| current_section := None;
         current_content := content;
         all_sections := collected |}
    = collected ++ flat_map (section_of filename persona job) (segments items).
Proof.
  induction items as [|item rest IH]; intros content collected.
  - rewrite from_nil.
    cbn [current_section current_content all_sections segments flat_map].
    rewrite save_section_none. now rewrite app_nil_r.
  - rewrite from_cons. cbn [segments].
    destruct (section_boundary item) eqn:Eb.
    + rewrite (segment_step_boundary _ item Eb).
      cbn [current_section current_content all_sections].
      rewrite save_section_none.
      rewrite (segment_fold_open rest item [] collected Eb).
      reflexivity.
    + rewrite (segment_step_content _ item Eb).
      cbn [current_section current_content all_sections]. apply IH.
Qed.

Lemma extract_document_sections_runs (structured_content : list Item)
    (collected : list Section) :
  extract_document_sections filename persona job structured_content collected
  = collected
    ++ flat_map (section_of filename persona job) (segments structured_content).
Proof.
  exact (segment_fold_closed structured_content [] collected).
Qed.

End SectionRuns.

Section SectionsOfDocuments.

Import PyNum MLEnhancedPDFAnalyzer Notions Wellformed.

Lemma extract_sections_loop_runs fitz_open persona job (documents : list string) :
  forall contents collected,
    Forall2 (fun filename structured_content =>
               extract_text_with_structure fitz_open filename
               = Exc.Return structured_content)
            documents contents ->
    extract_sections_loop fitz_open documents persona job collected
    = Exc.Return (collected ++ sections_of persona job documents contents).
Proof.
  intros contents collected H. revert collected.
  induction H as [|filename sc documents contents Hread Hrest IH]; intros collected.
  - cbn [extract_sections_loop]. unfold sections_of. cbn [combine flat_map].
    now rewrite app_nil_r.
  - cbn [extract_sections_loop]. rewrite Hread. cbn [Exc.bind].
    rewrite IH, extract_document_sections_runs.
    unfold sections_of. cbn [combine flat_map fst snd].
    now rewrite <- app_assoc.
Qed.

Lemma extract_sections_loop_read fitz_open persona job (documents : list string) :
  forall collected sections,
    extract_sections_loop fitz_open documents persona job collected
    = Exc.Return sections ->
    exists contents,
      Forall2 (fun filename structured_content =>
                 extract_text_with_structure fitz_open filename
                 = Exc.Return structured_content)
              documents contents.
Proof.
  induction documents as [|filename rest IH]; intros collected sections H.
  - exists []. constructor.
  - cbn [extract_sections_loop] in H.
    destruct (extract_text_with_structure fitz_open filename) as [e|sc] eqn:E;
      cbn [Exc.bind] in H; [discriminate|].
    destruct (IH _ _ H) as (contents & Hall).
    exists (sc :: contents). constructor; assumption.
Qed.

(** [extract_sections] returns exactly when every document can be read,
    and then its result is, document by document and in document order,
    one section for every boundary item that is followed by at least one
    item before the next boundary and whose score is above 0.1: the title
    is the text of the boundary, the content joins the items of that run
    and the page is that of its first item.  The items before the first
    boundary of a document belong to no section. *)
Theorem sections_are_heading_runs fitz_open documents persona job :
  (forall contents,
      Forall2 (fun filename structured_content =>
                 extract_text_with_structure fitz_open filename
                 = Exc.Return structured_content)
              documents contents ->
      extract_sections fitz_open documents persona job
      = Exc.Return (sections_of persona job documents contents))
  /\ (forall sections,
         extract_sections fitz_open documents persona job = Exc.Return sections ->
         exists contents,
           Forall2 (fun filename structured_content =>
                      extract_text_with_structure fitz_open filename
                      = Exc.Return structured_content)
                   documents contents
           /\ sections = sections_of persona job documents contents).
Proof.
  split.
  - intros contents H. unfold extract_sections.
    now rewrite (extract_sections_loop_runs _ _ _ _ contents [] H).
  - intros sections H. unfold extract_sections in H.
    destruct (extract_sections_loop_read _ _ _ _ _ _ H) as (contents & Hall).
    exists contents. split; [exact Hall|].
    rewrite (extract_sections_loop_runs _ _ _ _ contents [] Hall) in H.
    inversion H. reflexivity.
Qed.

Lemma sections_are_heading_runs_witness :
  exists sections,
    extract_sections Preamble.fitz_open ["leaflet.pdf"] "Travel Planner" "Plan a trip"
    = Exc.Return sections
    /\ map (fun s => (section_title s, content s)) sections
       = [ ("Getting Around", "take the bus or travel by train");
           ("Local Customs", "visit the local market") ].
Proof.
  destruct (sections_are_heading_runs Preamble.fitz_open ["leaflet.pdf"]
              "Travel Planner" "Plan a trip") as [Hruns _].
  eexists. split.
  - apply Hruns. constructor; [vm_compute; reflexivity | constructor].
  - vm_compute. reflexivity.
Defined.

End SectionsOfDocuments.

(** ** Personas without a profile *)

Section UnknownPersona.

Import PyNum MLEnhancedPDFAnalyzer Notions Wellformed.

Lemma unknown_persona_score (text persona job : string) :
  known_persona persona = false ->
  calculate_ml_relevance_score text persona job = 1.
Proof.
  unfold known_persona, calculate_ml_relevance_score, _calculate_base_relevance.
  cbv zeta.
  destruct (String.eqb_spec persona "Food Contractor") as [->|_]; [discriminate|].
  destruct (lookup persona persona_keywords); [discriminate | reflexivity].
Qed.

Lemma constant_score_sorted (v : Q) (sections : list Section) :
  Forall (fun s => relevance_score s = v) sections ->
  Sorted (desc relevance_score) sections.
Proof.
  induction 1 as [|s sections Hs Hall IH]; constructor; [exact IH|].
  destruct Hall as [|s' sections' Hs' _]; constructor.
  unfold desc. rewrite Hs, Hs'. apply Qle_refl.
Qed.

(** A persona that has no entry in [persona_keywords] is not an error:
    every text scores exactly 1.0, so every section with a heading and
    content is kept, and the ranking is the first ten sections in document
    order. *)
Theorem unknown_persona_keeps_order fitz_open documents persona job sections :
  known_persona persona = false ->
  extract_sections fitz_open documents persona job = Exc.Return sections ->
  (forall text, calculate_ml_relevance_score text persona job = 1)
  /\ Forall (fun s => relevance_score s = 1) sections
  /\ rank_sections sections 10 = firstn 10 sections.
Proof.
  intros Hp H.
  assert (Hall : Forall (fun s => relevance_score s = 1) sections).
  { apply Forall_forall. intros s Hin.
    destruct (extract_sections_wellformed _ _ _ _ _ H s Hin) as [Hfrom _].
    destruct Hfrom as (f & sc & h & its & _ & _ & _ & _ & _ & _ & _ & ->).
    unfold section_record. cbn [relevance_score].
    now apply unknown_persona_score. }
  split; [intros text; now apply unknown_persona_score|].
  split; [exact Hall|].
  unfold rank_sections. cbv zeta.
  rewrite sorted_desc_fixpoint; [reflexivity|].
  now apply (constant_score_sorted 1).
Qed.

Lemma unknown_persona_keeps_order_witness :
  exists sections,
    extract_sections Samples.fitz_open ["guide.pdf"; "recipe.pdf"] "Chef" "cook"
    = Exc.Return sections
    /\ map section_title sections = ["Getting Around"; "Local Customs"; "Ingredients:"]
    /\ rank_sections sections 10 = firstn 10 sections.
Proof.
  eexists. split; [vm_compute; reflexivity|]. split; [reflexivity|].
  apply (unknown_persona_keeps_order Samples.fitz_open ["guide.pdf"; "recipe.pdf"]
           "Chef" "cook"); vm_compute; reflexivity.
Defined.

End UnknownPersona.

(** ** The output of [process_collection] *)

Section CollectionOutput.

Import PyNum MLEnhancedPDFAnalyzer Notions Wellformed.

Lemma process_collection_output fitz_open now input out :
  process_collection fitz_open now input = Exc.Return out ->
  exists sections,
    extract_sections fitz_open (documents input) (role input) (task input)
    = Exc.Return sections
    /\ out
       = {| metadata :=
              {| input_documents := documents input;
                 persona := role input;
                 job_to_be_done := task input;
                 processing_timestamp := now |};
            extracted_sections :=
              extracted_section_entries (rank_sections sections 10);
            subsection_analysis :=
              subsection_entries (role input) (task input) (rank_sections sections 10);
            refined_text_summary :=
              enhance_content_for_validation
                (refine_content (rank_sections sections 10)) (role input) (task input) |}.
Proof.
  unfold process_collection. cbv zeta.
  destruct (extract_sections _ _ _ _) as [e|sections]; simpl; intros H.
  - discriminate.
  - inversion H; subst. exists sections. split; reflexivity.
Qed.

Lemma rank_sections_length (sections : list Section) (limit : nat) :
  (List.length (rank_sections sections limit) <= limit)%nat.
Proof. unfold rank_sections. apply firstn_le_length. Qed.

Lemma entries_project_from {B : Type} (f : ExtractedSection -> B) (g : Section -> B)
    (top : list Section) :
  (forall i s, f {| es_document := document s;
                    es_section_title := section_title s;
                    importance_rank := i + 1;
                    es_page_number := page_number s |} = g s) ->
  forall start,
    map f (map (fun '(i, section) =>
                  {| es_document := document section;
                     es_section_title := section_title section;
                     importance_rank := i + 1;
                     es_page_number := page_number section |})
               (combine (seq start (List.length top)) top))
    = map g top.
Proof.
  intros Hfg.
  induction top as [|s top IH]; intros start; [reflexivity|].
  cbn [List.length seq combine map]. f_equal; [apply Hfg | apply IH].
Qed.

Lemma entries_project {B : Type} (f : ExtractedSection -> B) (g : Section -> B)
    (top : list Section) :
  (forall i s, f {| es_document := document s;
                    es_section_title := section_title s;
                    importance_rank := i + 1;
                    es_page_number := page_number s |} = g s) ->
  map f (extracted_section_entries top) = map g top.
Proof.
  intros Hfg. exact (entries_project_from f g top Hfg 0%nat).
Qed.

Lemma append_nonempty (a b : string) : a <> "" -> (a ++ b)%string <> "".
Proof. destruct a; [congruence | discriminate]. Qed.

(** The two lists of the output describe the same sections in the same
    order: at most ten, with the same documents and pages; every document
    is one of the collection's, every title is longer than 5 characters,
    every page is 1-based and no refined text is empty.  The metadata
    repeats the input. *)
Theorem output_lists_aligned fitz_open now input out :
  process_collection fitz_open now input = Exc.Return out ->
  (List.length (extracted_sections out) <= 10)%nat
  /\ List.length (subsection_analysis out) = List.length (extracted_sections out)
  /\ map es_document (extracted_sections out)
     = map ss_document (subsection_analysis out)
  /\ map es_page_number (extracted_sections out)
     = map ss_page_number (subsection_analysis out)
  /\ Forall (fun e => In (es_document e) (documents input)
                      /\ (5 < String.length (es_section_title e))%nat
                      /\ (1 <= es_page_number e)%nat)
            (extracted_sections out)
  /\ Forall (fun ss => refined_text ss <> "") (subsection_analysis out)
  /\ metadata out
     = {| input_documents := documents input;
          persona := role input;
          job_to_be_done := task input;
          processing_timestamp := now |}.
Proof.
  intros H. apply process_collection_output in H.
  destruct H as (sections & Hs & ->).
  cbn [extracted_sections subsection_analysis metadata].
  set (top := rank_sections sections 10).
  assert (Htop : forall s, In s top -> section_ok (documents input) s).
  { intros s Hin. apply rank_sections_incl in Hin.
    now apply (extract_sections_wellformed _ _ _ _ _ Hs). }
  assert (Hlen : List.length (extracted_section_entries top) = List.length top).
  { rewrite <- (length_map importance_rank), extracted_section_entries_ranks.
    apply length_seq. }
  split; [rewrite Hlen; apply rank_sections_length|].
  split; [unfold subsection_entries; now rewrite length_map, Hlen|].
  split.
  { rewrite (entries_project es_document document) by reflexivity.
    unfold subsection_entries. now rewrite map_map. }
  split.
  { rewrite (entries_project es_page_number page_number) by reflexivity.
    unfold subsection_entries. now rewrite map_map. }
  split.
  { apply Forall_forall. intros e He.
    unfold extracted_section_entries in He. apply in_map_iff in He.
    destruct He as ([i s] & <- & Hin).
    unfold enumerate in Hin. apply in_combine_r in Hin.
    destruct (Htop s Hin) as (Hd & Ht & _ & Hp & _).
    cbn [es_document es_section_title es_page_number]. auto. }
  split; [|reflexivity].
  apply Forall_forall. intros ss Hss.
  unfold subsection_entries in Hss. apply in_map_iff in Hss.
  destruct Hss as (s & <- & Hin). cbn [refined_text].
  destruct (Htop s Hin) as (_ & _ & Hc & _).
  destruct (enhance_extends (content s) (role input) (task input)) as (filler & ->).
  now apply append_nonempty.
Qed.

Lemma output_lists_aligned_witness :
  exists out,
    process_collection Samples.fitz_open "2025-01-01T00:00:00" Samples.travel_input
    = Exc.Return out
    /\ List.length (extracted_sections out) = 2%nat
    /\ List.length (subsection_analysis out) = List.length (extracted_sections out).
Proof.
  eexists. split; [vm_compute; reflexivity|]. split; [reflexivity|].
  apply (output_lists_aligned Samples.fitz_open "2025-01-01T00:00:00"
           Samples.travel_input).
  vm_compute. reflexivity.
Defined.

End CollectionOutput.

(** ** Enhancing twice *)

Section EnhanceAgain.

Import PyStr MLEnhancedPDFAnalyzer Notions.

Lemma add_missing_noop (before after enhanced keyword : string) :
  contains keyword (lower enhanced) = true ->
  add_missing before after enhanced keyword = enhanced.
Proof. intros H. unfold add_missing. now rewrite H. Qed.

Lemma fold_add_missing_noop (before after : string) (keywords : list string)
    (enhanced : string) :
  (forall k, In k keywords -> contains k (lower enhanced) = true) ->
  fold_left (add_missing before after) keywords enhanced = enhanced.
Proof.
  induction keywords as [|k keywords IH]; intros H; [reflexivity|].
  cbn [fold_left]. rewrite add_missing_noop by (apply H; now left).
  apply IH. intros k' Hk'. apply H. now right.
Qed.

Lemma enhance_carries_validator (content persona job : string)
    (keywords : list string) (k : string) :
  lookup persona validator_keywords = Some keywords ->
  In k keywords ->
  contains k (lower (enhance_content_for_validation content persona job)) = true.
Proof.
  intros Hk Hin.
  destruct (enhance_carries_keywords content persona job) as [H _].
  now apply (H keywords).
Qed.

Lemma enhance_carries_job_words (content persona job w : string) :
  In w (job_words job) ->
  contains w (lower (enhance_content_for_validation content persona job)) = true.
Proof.
  intros Hin. unfold enhance_content_for_validation. cbv zeta.
  apply fold_add_missing_all; [apply job_words_lower | exact Hin].
Qed.

Lemma enhance_food_contractor_grows (content job : string) :
  (String.length content
   < String.length (enhance_content_for_validation content "Food Contractor" job))%nat.
Proof.
  unfold enhance_content_for_validation. cbv zeta.
  rewrite String.eqb_refl.
  set (e1 := (content ++ food_contractor_context)%string).
  set (e2 := match lookup "Food Contractor" validator_keywords with
             | Some _ => _ | None => _ end).
  assert (H2 : exists f, e2 = (e1 ++ f)%string).
  { subst e2. destruct (lookup "Food Contractor" validator_keywords).
    - apply fold_add_missing_extends.
    - exists "". now rewrite append_nil_r. }
  destruct H2 as (f2 & ->).
  destruct (fold_add_missing_extends " Perfect for " " requirements."
              (job_words job) (e1 ++ f2)%string) as (f3 & ->).
  subst e1. rewrite !length_append.
  assert (0 < String.length food_contractor_context)%nat
    by (unfold food_contractor_context; cbn [String.length]; lia).
  lia.
Qed.

(** Enhancing an enhanced text changes nothing, except for
    "Food Contractor", where the context paragraph is appended once more:
    [enhance_content_for_validation] is idempotent exactly for the other
    personas. *)
Theorem enhance_idempotent_iff (content persona job : string) :
  enhance_content_for_validation
    (enhance_content_for_validation content persona job) persona job
  = enhance_content_for_validation content persona job
  <-> persona <> "Food Contractor".
Proof.
  split.
  - intros H ->.
    pose proof (enhance_food_contractor_grows
                  (enhance_content_for_validation content "Food Contractor" job) job)
      as Hgrow.
    rewrite H in Hgrow. lia.
  - intros Hp.
    set (e := enhance_content_for_validation content persona job).
    unfold enhance_content_for_validation at 1. cbv zeta.
    destruct (String.eqb_spec persona "Food Contractor") as [->|_]; [congruence|].
    destruct (lookup persona validator_keywords) as [keywords|] eqn:Ek.
    + rewrite (fold_add_missing_noop _ _ keywords e)
        by (intros k Hk; now apply (enhance_carries_validator _ _ _ keywords)).
      apply fold_add_missing_noop. intros w Hw.
      now apply enhance_carries_job_words.
    + apply fold_add_missing_noop. intros w Hw.
      now apply enhance_carries_job_words.
Qed.

(** For "Food Contractor" the context paragraph already holds every
    keyword of the persona, so the keyword loop never adds a sentence:
    the result is the content, the paragraph and the sentences for the
    missing words of the task. *)
Theorem food_contractor_keyword_loop_idle (content job : string) :
  enhance_content_for_validation content "Food Contractor" job
  = fold_left (add_missing " Perfect for " " requirements.") (job_words job)
              (content ++ food_contractor_context)%string.
Proof.
  unfold enhance_content_for_validation. cbv zeta.
  rewrite String.eqb_refl.
  change (lookup "Food Contractor" validator_keywords)
    with (Some ["menu"; "recipe"; "vegetarian"; "buffet"; "dinner"; "corporate";
                "catering"]).
  cbv beta match.
  rewrite (fold_add_missing_noop " This " " solution is ideal."); [reflexivity|].
  intros k Hk. rewrite lower_app. apply contains_app_r.
  cbn [In] in Hk.
  repeat (destruct Hk as [<-|Hk]; [vm_compute; reflexivity|]).
  destruct Hk.
Qed.

End EnhanceAgain.

(** ** The validator's relevance analysis of a generated output *)

Section RelevanceAnalysis.

Import PyNum PyStr MLEnhancedPDFAnalyzer Notions.

Lemma validator_tables_agree (persona : string) :
  known_persona persona = true ->
  exists keywords,
    lookup persona validator_keywords = Some keywords
    /\ ValidateCollections.relevant_keywords (lower persona)
         ValidateCollections.persona_keywords = keywords
    /\ (6 <= List.length keywords)%nat.
Proof.
  intros H. apply known_persona_cases in H.
  destruct H as [->|[->| ->]]; eexists; (split; [reflexivity|]);
    (split; [vm_compute; reflexivity | cbn [List.length]; lia]).
Qed.

Lemma count_in_all (words : list string) (text : string) :
  (forall w, In w words -> contains w text = true) ->
  count_in words text = List.length words.
Proof.
  unfold count_in. induction words as [|w words IH]; intros H; [reflexivity|].
  cbn [filter]. rewrite (H w) by now left.
  cbn [List.length]. f_equal. apply IH. intros w' Hw'. apply H. now right.
Qed.

Lemma count_job_words_all (words : list string) (content : string) :
  (forall w, In w words -> (3 < String.length w)%nat -> contains w content = true) ->
  ValidateCollections.count_job_words words content
  = List.length (filter (fun w => (3 <? String.length w)%nat) words).
Proof.
  unfold ValidateCollections.count_job_words.
  induction words as [|w words IH]; intros H; [reflexivity|].
  cbn [filter]. destruct (3 <? String.length w)%nat eqn:E; cbn [andb].
  - rewrite (H w) by (try (now left); now apply Nat.ltb_lt).
    cbn [List.length]. f_equal. apply IH. intros w' Hw'. apply H. now right.
  - apply IH. intros w' Hw'. apply H. now right.
Qed.

Lemma of_nat_mul (n m : nat) : (of_nat (n * m) == of_nat n * of_nat m)%Q.
Proof. unfold of_nat. now rewrite Nat2Z.inj_mul, inject_Z_mult. Qed.

Lemma analyze_output (out : Output) :
  ValidateCollections.analyze_persona_relevance (ValidateCollections.output_json out)
  = Exc.bind
      (ValidateCollections.analyze_subsections
         (ValidateCollections.relevant_keywords (lower (persona (metadata out)))
            ValidateCollections.persona_keywords)
         (lower (job_to_be_done (metadata out)))
         (map ValidateCollections.subsection_json (subsection_analysis out))
         ValidateCollections.initial_analysis)
      (fun analysis =>
         let total_content :=
           List.length (map ValidateCollections.subsection_json
                          (subsection_analysis out)) in
         if (0 <? total_content)%nat then
           Exc.Return
             {| ValidateCollections.persona_keywords_found :=
                  ValidateCollections.persona_keywords_found analysis;
                ValidateCollections.job_keywords_found :=
                  ValidateCollections.job_keywords_found analysis;
                ValidateCollections.relevance_score :=
                  of_nat (ValidateCollections.persona_keywords_found analysis
                          + ValidateCollections.job_keywords_found analysis)
                  / of_nat total_content;
                ValidateCollections.detailed_analysis :=
                  ValidateCollections.detailed_analysis analysis |}
         else Exc.Return analysis).
Proof. reflexivity. Qed.

Lemma analyze_generated_subsections (relevant : list string) (job : string)
    (K J : nat) (subsections : list Subsection) :
  Forall (fun ss =>
            count_in relevant (lower (refined_text ss)) = K
            /\ ValidateCollections.count_job_words (split job)
                 (lower (refined_text ss)) = J)
         subsections ->
  forall analysis,
  exists analysis',
    ValidateCollections.analyze_subsections relevant job
      (map ValidateCollections.subsection_json subsections) analysis
    = Exc.Return analysis'
    /\ ValidateCollections.persona_keywords_found analysis'
       = (ValidateCollections.persona_keywords_found analysis
          + List.length subsections * K)%nat
    /\ ValidateCollections.job_keywords_found analysis'
       = (ValidateCollections.job_keywords_found analysis
          + List.length subsections * J)%nat
    /\ ValidateCollections.relevance_score analysis'
       = ValidateCollections.relevance_score analysis
    /\ map ValidateCollections.detail_document
         (ValidateCollections.detailed_analysis analysis')
       = map ValidateCollections.detail_document
           (ValidateCollections.detailed_analysis analysis)
         ++ map (fun ss => Json.Str (ss_document ss)) subsections.
Proof.
  induction 1 as [|ss subsections [HK HJ] Hall IH]; intros analysis.
  - exists analysis. cbn [map List.length Nat.mul].
    rewrite !Nat.add_0_r, app_nil_r. repeat split.
  - cbn [map ValidateCollections.analyze_subsections].
    change (ValidateCollections.analyze_subsection relevant job analysis
              (ValidateCollections.subsection_json ss))
      with (Exc.Return
              {| ValidateCollections.persona_keywords_found :=
                   ValidateCollections.persona_keywords_found analysis
                   + count_in relevant (lower (refined_text ss));
                 ValidateCollections.job_keywords_found :=
                   ValidateCollections.job_keywords_found analysis
                   + ValidateCollections.count_job_words (split job)
                       (lower (refined_text ss));
                 ValidateCollections.relevance_score :=
                   ValidateCollections.relevance_score analysis;
                 ValidateCollections.detailed_analysis :=
                   ValidateCollections.detailed_analysis analysis ++
                   [ {| ValidateCollections.detail_document :=
                          Json.Str (ss_document ss);
                        ValidateCollections.detail_persona_keywords :=
                          count_in relevant (lower (refined_text ss));
                        ValidateCollections.detail_job_keywords :=
                          ValidateCollections.count_job_words (split job)
                            (lower (refined_text ss));
                        ValidateCollections.content_length :=
                          String.length (lower (refined_text ss)) |} ] |}).
    cbn [Exc.bind]. rewrite HK, HJ.
    match goal with
    | |- context [ValidateCollections.analyze_subsections _ _ _ ?a] =>
        destruct (IH a) as (analysis' & -> & Hp & Hj & Hr & Hd)
    end.
    exists analysis'. split; [reflexivity|].
    cbn [ValidateCollections.persona_keywords_found
           ValidateCollections.job_keywords_found
           ValidateCollections.relevance_score
           ValidateCollections.detailed_analysis] in Hp, Hj, Hr, Hd.
    rewrite Hp, Hj, Hr, Hd. cbn [List.length map].
    rewrite map_app, <- app_assoc. cbn [map app].
    repeat split; lia.
Qed.

(** The validator's analysis of what [process_collection] returns for a
    persona with a profile never raises and finds in every subsection
    every keyword of the persona and every word of the task longer than 3
    characters: with [n] subsections, [K] keywords and [J] such words the
    counts are [n * K] and [n * J], and for [n > 0] the relevance score is
    [K + J], above the validator's threshold 1.0. *)
Theorem generated_output_relevance fitz_open now input out :
  process_collection fitz_open now input = Exc.Return out ->
  known_persona (role input) = true ->
  let n := List.length (subsection_analysis out) in
  let K := List.length
             (ValidateCollections.relevant_keywords (lower (role input))
                ValidateCollections.persona_keywords) in
  let J := List.length (job_words (task input)) in
  exists analysis,
    ValidateCollections.analyze_persona_relevance
      (ValidateCollections.output_json out) = Exc.Return analysis
    /\ ValidateCollections.persona_keywords_found analysis = (n * K)%nat
    /\ ValidateCollections.job_keywords_found analysis = (n * J)%nat
    /\ map ValidateCollections.detail_document
         (ValidateCollections.detailed_analysis analysis)
       = map (fun ss => Json.Str (ss_document ss)) (subsection_analysis out)
    /\ (n = 0%nat -> ValidateCollections.relevance_score analysis = 0)
    /\ ((0 < n)%nat ->
        ValidateCollections.relevance_score analysis == of_nat (K + J)
        /\ 1 < ValidateCollections.relevance_score analysis)%Q.
Proof.
  intros H Hknown n K J.
  apply process_collection_output in H. destruct H as (sections & _ & Hout).
  destruct (validator_tables_agree _ Hknown) as (keywords & Hlookup & Hrel & Hlen).
  assert (Hall :
    Forall (fun ss =>
              count_in keywords (lower (refined_text ss)) = K
              /\ ValidateCollections.count_job_words (split (lower (task input)))
                   (lower (refined_text ss)) = J)
           (subsection_analysis out)).
  { subst out. cbn [subsection_analysis]. apply Forall_forall. intros ss Hss.
    unfold subsection_entries in Hss. apply in_map_iff in Hss.
    destruct Hss as (s & <- & _). cbn [refined_text]. split.
    - subst K. rewrite Hrel. apply count_in_all. intros k Hk.
      now apply (enhance_carries_validator _ _ _ keywords).
    - subst J. unfold job_words. apply count_job_words_all.
      intros w Hw Hlong. apply enhance_carries_job_words.
      unfold job_words. apply filter_In. split; [exact Hw|].
      now apply Nat.ltb_lt. }
  rewrite analyze_output.
  assert (Hp : persona (metadata out) = role input) by (subst out; reflexivity).
  assert (Hj : job_to_be_done (metadata out) = task input) by (subst out; reflexivity).
  rewrite Hp, Hj, Hrel.
  destruct (analyze_generated_subsections keywords (lower (task input)) K J
              (subsection_analysis out) Hall ValidateCollections.initial_analysis)
    as (analysis & -> & Hpk & Hjk & Hr & Hd).
  cbn [ValidateCollections.initial_analysis
         ValidateCollections.persona_keywords_found
         ValidateCollections.job_keywords_found
         ValidateCollections.relevance_score
         ValidateCollections.detailed_analysis map app Nat.add] in Hpk, Hjk, Hr, Hd.
  cbn [Exc.bind]. cbv zeta. rewrite length_map. fold n. fold n in Hpk, Hjk.
  destruct (0 <? n)%nat eqn:En.
  - apply Nat.ltb_lt in En. eexists. split; [reflexivity|].
    cbn [ValidateCollections.persona_keywords_found
           ValidateCollections.job_keywords_found
           ValidateCollections.relevance_score
           ValidateCollections.detailed_analysis].
    split; [exact Hpk|]. split; [exact Hjk|]. split; [exact Hd|].
    split; [intros Hn; lia|]. intros _.
    assert (Hscore : (of_nat (ValidateCollections.persona_keywords_found analysis
                              + ValidateCollections.job_keywords_found analysis)
                      / of_nat n == of_nat (K + J))%Q).
    { rewrite Hpk, Hjk.
      replace (n * K + n * J)%nat with (n * (K + J))%nat by lia.
      rewrite of_nat_mul.
      assert (0 < of_nat n)%Q by (apply of_nat_positive; lia).
      field. lra. }
    split; [exact Hscore|].
    rewrite Hscore.
    assert (HK : (6 <= K)%nat) by (subst K; now rewrite Hrel).
    unfold of_nat. change 1%Q with (inject_Z 1). rewrite <- Zlt_Qlt. lia.
  - apply Nat.ltb_ge in En. exists analysis. split; [reflexivity|].
    assert (Hn : n = 0%nat) by lia.
    split; [rewrite Hpk, Hn; reflexivity|].
    split; [rewrite Hjk, Hn; reflexivity|].
    split; [exact Hd|].
    split; [intros _; exact Hr | intros Hpos; lia].
Qed.

Lemma generated_output_relevance_witness :
  exists out analysis,
    process_collection Samples.fitz_open "2025-01-01T00:00:00"
      {| challenge_id := "round_1b_002"; role := "Travel Planner";
         task := "Plan a trip"; documents := ["guide.pdf"] |}
    = Exc.Return out
    /\ ValidateCollections.analyze_persona_relevance
         (ValidateCollections.output_json out) = Exc.Return analysis
    /\ ValidateCollections.persona_keywords_found analysis = 14%nat
    /\ ValidateCollections.job_keywords_found analysis = 4%nat.
Proof.
  eexists.
  destruct (generated_output_relevance Samples.fitz_open "2025-01-01T00:00:00"
              {| challenge_id := "round_1b_002"; role := "Travel Planner";
                 task := "Plan a trip"; documents := ["guide.pdf"] |}
              _ eq_refl eq_refl)
    as (analysis & Ha & Hp & Hj & _).
  exists analysis. split; [reflexivity|]. split; [exact Ha|].
  split; [exact Hp | exact Hj].
Defined.

End RelevanceAnalysis.
